(** * DVA audio nodes: duration, metadata and batch processing

    A shallow embedding of [audio_duration_version.py].  The three node
    classes are modelled as modules of pure functions over

    - a small universe of Python values ([pyval]),
    - an explicit result type for code that may raise ([result]),
    - an environment record ([env]) holding everything the code reads
      from outside: the file system, the availability flags of the
      optional libraries and the outcomes of the library and subprocess
      calls.

    Floating point numbers are idealised as rationals ([Q]); [round] and
    the [f]-format specifications round half to even on the exact value. *)

From Stdlib Require Import String Ascii ZArith QArith Qround Qabs List Bool Lia Lqa.
From Stdlib Require Import DecimalString Orders Sorted Mergesort Permutation.
Import ListNotations.

Open Scope string_scope.
Open Scope Z_scope.

(* ================================================================== *)
(** ** Python runtime: exceptions, values, numbers and strings        *)
(* ================================================================== *)

Module Py.

(** Exceptions carry their class and the text [str(e)] gives. *)
Inductive exn_class :=
| AttributeError | IndexError | TypeError | ValueError
| ZeroDivisionError | RuntimeError | OSError.

Record exn := Exn { exn_cls : exn_class; exn_str : string }.

(** A computation either returns a value or raises. *)
Inductive result (A : Type) :=
| Return (a : A)
| Raise (e : exn).
Arguments Return {A} a.
Arguments Raise {A} e.

Definition bind {A B} (m : result A) (k : A -> result B) : result B :=
  match m with
  | Return a => k a
  | Raise e => Raise e
  end.

Declare Scope py_scope.
Delimit Scope py_scope with py.
Notation "x <- m ;; k" := (bind m (fun x => k))
  (at level 200, m at level 100, k at level 200, right associativity,
   only parsing) : py_scope.
Open Scope py_scope.

(** [try: body / except Exception as e: handler(e)]. *)
Definition try_except {A} (body : result A) (handler : exn -> A) : A :=
  match body with
  | Return a => a
  | Raise e => handler e
  end.

(** A tensor is reduced to what the nodes read of it: its shape and the
    byte size of one element.  Its samples are never inspected. *)
Record tensor := Tensor { shape : list N; element_size : N }.

(** The Python values the nodes can be handed.  Dictionaries are
    insertion-ordered association lists with string keys; [PObject] is
    a bare [object()]. *)
#[warnings="-register-all"]
Inductive pyval :=
| PNone
| PBool (b : bool)
| PInt (z : Z)
| PFloat (q : Q)
| PStr (s : string)
| PTensor (t : tensor)
| PList (l : list pyval)
| PDict (d : list (string * pyval))
| PObject.

(** The text a value is serialised to is represented by the value
    itself: [JsonOf v] stands for [json.dumps(v, ...)]. *)
Record json_text := JsonOf { json_value : pyval }.

(** The literal ["{}"] and the literal ["[]"]. *)
Definition empty_json : json_text := JsonOf (PDict []).
Definition empty_json_list : json_text := JsonOf (PList []).

(** *** Dictionaries *)

Fixpoint dict_get {V} (k : string) (d : list (string * V)) : option V :=
  match d with
  | [] => None
  | (k', v) :: d' => if String.eqb k k' then Some v else dict_get k d'
  end.

(** [k in d] *)
Definition dict_has {V} (k : string) (d : list (string * V)) : bool :=
  match dict_get k d with Some _ => true | None => false end.

(** [d.get(k, default)] *)
Definition dict_get_default {V} (k : string) (default : V)
    (d : list (string * V)) : V :=
  match dict_get k d with Some v => v | None => default end.

(** [d[k] = v]: an existing key keeps its position, a new key goes last. *)
Fixpoint dict_set {V} (k : string) (v : V) (d : list (string * V))
    : list (string * V) :=
  match d with
  | [] => [(k, v)]
  | (k', v') :: d' =>
      if String.eqb k k' then (k, v) :: d' else (k', v') :: dict_set k v d'
  end.

(** [d.update(other)] *)
Definition dict_update {V} (d other : list (string * V)) : list (string * V) :=
  fold_left (fun acc kv => dict_set (fst kv) (snd kv) acc) other d.

Definition dict_keys {V} (d : list (string * V)) : list string := map fst d.

(** *** Types and truth values *)

(** [type(v).__name__] *)
Definition type_name (v : pyval) : string :=
  match v with
  | PNone => "NoneType"
  | PBool _ => "bool"
  | PInt _ => "int"
  | PFloat _ => "float"
  | PStr _ => "str"
  | PTensor _ => "Tensor"
  | PList _ => "list"
  | PDict _ => "dict"
  | PObject => "object"
  end.

(** [str(type(v))] as it appears in an f-string. *)
Definition type_repr (v : pyval) : string :=
  match v with
  | PTensor _ => "<class 'torch.Tensor'>"
  | _ => "<class '" ++ type_name v ++ "'>"
  end.

(** The numeric value of a number ([True] is 1), [None] for the rest. *)
Definition as_number (v : pyval) : option Q :=
  match v with
  | PBool b => Some (if b then 1%Q else 0%Q)
  | PInt z => Some (inject_Z z)
  | PFloat q => Some q
  | _ => None
  end.

(** [bool(v)].  The truth value of a tensor is not modelled: the test
    raises, as it does in Python for every tensor that has not exactly
    one element. *)
Definition truthy (v : pyval) : result bool :=
  match v with
  | PNone => Return false
  | PBool b => Return b
  | PInt z => Return (negb (z =? 0))
  | PFloat q => Return (negb (Qeq_bool q 0))
  | PStr s => Return (negb (String.eqb s ""))
  | PList l => Return (match l with [] => false | _ => true end)
  | PDict d => Return (match d with [] => false | _ => true end)
  | PObject => Return true
  | PTensor _ =>
      Raise (Exn RuntimeError "Boolean value of Tensor is ambiguous")
  end.

(** *** Numbers *)

Definition Qltb (a b : Q) : bool := negb (Qle_bool b a).

(** Round to the nearest integer, ties to the even one. *)
Definition round_half_even (q : Q) : Z :=
  let n := Qnum q in
  let d := Zpos (Qden q) in
  let f := n / d in
  let r := n mod d in
  match (2 * r) ?= d with
  | Lt => f
  | Gt => f + 1
  | Eq => if Z.even f then f else f + 1
  end.

Definition pow10 (k : Z) : Q := inject_Z (10 ^ k).

(** [round(x, ndigits)] on a float, also for negative [ndigits]. *)
Definition round (x : Q) (ndigits : Z) : Q :=
  if 0 <=? ndigits
  then Qred (inject_Z (round_half_even (x * pow10 ndigits)) / pow10 ndigits)
  else Qred (inject_Z (round_half_even (x / pow10 (- ndigits))) * pow10 (- ndigits)).

(** [x // y] and [x % y] for a positive [y]. *)
Definition floordiv (x y : Q) : Z := Qfloor (x / y).
Definition pymod (x y : Q) : Q := Qred (x - inject_Z (floordiv x y) * y).

(** *** Number formatting *)

(** Decimal digits of a natural number, ["0"] for zero. *)
Definition dec (n : Z) : string := NilZero.string_of_uint (N.to_uint (Z.to_N n)).

Fixpoint zeros (k : nat) : string :=
  match k with
  | O => ""
  | S k' => String "0" (zeros k')
  end.

(** Left padding with zeros up to a minimum width. *)
Definition zfill (width : nat) (s : string) : string :=
  zeros (width - String.length s) ++ s.

(** [str(z)] and the format [{z:0Wd}]; the sign is not counted out of
    the digits, as in Python the zeros go between sign and digits. *)
Definition str_int (z : Z) : string :=
  if z <? 0 then "-" ++ dec (- z) else dec z.

Definition fmt_0d (width : nat) (z : Z) : string :=
  if z <? 0 then "-" ++ zfill (width - 1) (dec (- z)) else zfill width (dec z).

(** Fixed-point digits of a non-negative scaled integer [m], standing for
    [m / 10^prec]. *)
Definition fixed_digits (prec : nat) (m : Z) : string :=
  match prec with
  | O => dec m
  | _ => dec (m / 10 ^ Z.of_nat prec) ++ "."
         ++ zfill prec (dec (m mod 10 ^ Z.of_nat prec))
  end.

(** The format [{x:0W.Pf}] ([width = 0] for [{x:.Pf}]). *)
Definition fmt_0f (width prec : nat) (x : Q) : string :=
  let m := round_half_even (Qabs x * pow10 (Z.of_nat prec)) in
  if Qltb x 0
  then "-" ++ zfill (width - 1) (fixed_digits prec m)
  else zfill width (fixed_digits prec m).

(** *** Conversions and JSON *)

(** What [json.dumps] accepts: no tensor and no bare object anywhere. *)
Fixpoint serializable (v : pyval) : bool :=
  match v with
  | PTensor _ | PObject => false
  | PList l => forallb serializable l
  | PDict d => forallb (fun kv => serializable (snd kv)) d
  | _ => true
  end.

Definition json_dumps (v : pyval) : result json_text :=
  if serializable v then Return (JsonOf v)
  else Raise (Exn TypeError "Object is not JSON serializable").

(** [json.loads] of a text [json.dumps] produced. *)
Definition json_loads (j : json_text) : pyval := json_value j.

(** *** Strings and [os.path] (POSIX flavour) *)

Definition is_upper (c : ascii) : bool :=
  let n := nat_of_ascii c in (65 <=? n)%nat && (n <=? 90)%nat.

Definition lower_char (c : ascii) : ascii :=
  if is_upper c then ascii_of_nat (nat_of_ascii c + 32) else c.

(** [s.lower()], on the ASCII letters. *)
Fixpoint lower (s : string) : string :=
  match s with
  | EmptyString => EmptyString
  | String c s' => String (lower_char c) (lower s')
  end.

Fixpoint contains_char (c : ascii) (s : string) : bool :=
  match s with
  | EmptyString => false
  | String a s' => Ascii.eqb a c || contains_char c s'
  end.

(** [os.path.basename]: what follows the last slash. *)
Fixpoint basename (p : string) : string :=
  match p with
  | EmptyString => EmptyString
  | String a r =>
      if contains_char "/" r then basename r
      else if Ascii.eqb a "/" then r else p
  end.

(** The suffix that starts at the last dot, when there is a dot. *)
Fixpoint last_dot_suffix (s : string) : option string :=
  match s with
  | EmptyString => None
  | String a r =>
      match last_dot_suffix r with
      | Some suf => Some suf
      | None => if Ascii.eqb a "." then Some s else None
      end
  end.

Fixpoint all_dots (s : string) : bool :=
  match s with
  | EmptyString => true
  | String a r => Ascii.eqb a "." && all_dots r
  end.

(** [os.path.splitext(p)[1]]: the last dot of the base name starts the
    extension unless only dots come before it. *)
Definition splitext_ext (p : string) : string :=
  let b := basename p in
  match last_dot_suffix b with
  | None => ""
  | Some suf =>
      let stem := substring 0 (String.length b - String.length suf) b in
      if all_dots stem then "" else suf
  end.

Definition starts_with_slash (s : string) : bool :=
  match s with String "/" _ => true | _ => false end.

Fixpoint ends_with_slash (s : string) : bool :=
  match s with
  | EmptyString => false
  | String a EmptyString => Ascii.eqb a "/"
  | String _ r => ends_with_slash r
  end.

(** [os.path.join(a, b)] *)
Definition path_join (a b : string) : string :=
  if starts_with_slash b then b
  else if String.eqb a "" || ends_with_slash a then a ++ b
  else a ++ "/" ++ b.

Definition str_in (s : string) (l : list string) : bool :=
  existsb (String.eqb s) l.

End Py.
Import Py.

(* ================================================================== *)
(** ** The environment of a call                                      *)
(* ================================================================== *)

(** What [os.stat] tells about a path. *)
Record fsnode := FsNode { is_file : bool; st_size : Z }.

(** What a backend hands back: the dictionary with ["status"],
    ["duration"] and ["metadata"], or with ["status"] and ["error"]. *)
Inductive backend_result :=
| BSuccess (duration : Q) (metadata : list (string * pyval))
| BError (error : string).

(** The fields [_calculate_with_ffmpeg] reads in the JSON that ffprobe
    prints: [float(data['format']['duration'])] when both keys are there,
    and for each stream [float(stream['duration'])] when it has the key.
    A conversion that fails is a [Raise]. *)
Record ffprobe_data := FfprobeData {
  format_duration : option (result Q);
  stream_durations : list (option (result Q));
  ffprobe_raw : pyval
}.

Inductive ffprobe_outcome :=
| FfTimeout
| FfRaised (e : exn)
| FfCompleted (returncode : Z) (stderr : string) (stdout : result ffprobe_data).

Record env := Env {
  (** Module-level flags set by the guarded imports. *)
  PYDUB_AVAILABLE : bool;
  LIBROSA_AVAILABLE : bool;
  (** File system: by path and by file descriptor. *)
  stat : string -> option fsnode;
  fstat : Z -> option fsnode;
  (** [datetime.fromtimestamp(os.path.getmtime(p)).isoformat()]: the
      text of the modification time, or what the call raises (the file
      is gone, the time stamp is out of the range of [datetime]). *)
  getmtime_iso : string -> result string;
  (** How many times in a row a method can call itself before the
      interpreter's recursion limit is reached, and what follows
      ["maximum recursion depth exceeded"] in the text of the
      [RecursionError] raised then. *)
  recursion_limit : nat;
  recursion_detail : string;
  (** Host directories of [folder_paths]. *)
  input_directory : string;
  output_directory : string;
  temp_directory : string;
  (** The [try] block of [_calculate_with_pydub] and of
      [_calculate_with_librosa]: library calls only, giving the duration
      and the metadata dictionary, or raising. *)
  pydub_load : string -> result (Q * list (string * pyval));
  librosa_load : string -> result (Q * list (string * pyval));
  (** [subprocess.run] of ffprobe asking for durations, with
      [json.loads] of its output. *)
  ffprobe_durations : string -> ffprobe_outcome;
  (** ffprobe with [-show_format -show_streams]: the JSON object it
      prints, when the process exits with 0 and prints one. *)
  ffprobe_show : string -> option (list (string * pyval));
  (** [pydub.utils.mediainfo] *)
  mediainfo : string -> result (list (string * pyval));
  (** [float(s)] and [int(s)] on a string; [str(v)] of a value that is
      no string, integer, boolean or [None]. *)
  parse_float : string -> option Q;
  parse_int : string -> option Z;
  str_other : pyval -> string;
  (** Directory scans: [os.walk] as (root, files) pairs, [glob.glob],
      and [fnmatch.fnmatch]. *)
  os_walk : string -> list (string * list string);
  glob_glob : string -> list string;
  fnmatch : string -> string -> bool
}.

(** [str(v)], as an f-string applies it. *)
Definition py_str (E : env) (v : pyval) : string :=
  match v with
  | PStr s => s
  | PInt z => str_int z
  | PBool b => if b then "True" else "False"
  | PNone => "None"
  | _ => str_other E v
  end.

(** [os.stat] on whatever is given as a path. *)
Definition os_stat (E : env) (p : pyval) : result (option fsnode) :=
  match p with
  | PStr s => Return (stat E s)
  | PInt z => Return (fstat E z)
  | PBool b => Return (fstat E (if b then 1 else 0))
  | _ => Raise (Exn TypeError
           ("stat: path should be string, bytes, os.PathLike or integer, not "
            ++ type_name p))
  end.

(** [os.fspath]: only strings are paths for [os.path.splitext]. *)
Definition fspath (p : pyval) : result string :=
  match p with
  | PStr s => Return s
  | _ => Raise (Exn TypeError
           ("expected str, bytes or os.PathLike object, not " ++ type_name p))
  end.

(** [os.path.getsize] *)
Definition getsize (E : env) (p : string) : result Z :=
  match stat E p with
  | Some n => Return (st_size n)
  | None => Raise (Exn OSError ("[Errno 2] No such file or directory: '" ++ p ++ "'"))
  end.

Definition path_exists (E : env) (p : string) : bool :=
  match stat E p with Some _ => true | None => false end.

Definition path_isdir (E : env) (p : string) : bool :=
  match stat E p with Some n => negb (is_file n) | None => false end.

(** *** Tensors *)

(** [t.dim()] *)
Definition dim (t : tensor) : Z := Z.of_nat (length (shape t)).

(** [t.shape[i]] for [i >= 0] *)
Definition shape_at (t : tensor) (i : nat) : result Z :=
  match nth_error (shape t) i with
  | Some n => Return (Z.of_N n)
  | None => Raise (Exn IndexError "tuple index out of range")
  end.

(** [t.shape[-1]] *)
Definition shape_last (t : tensor) : result Z :=
  match shape t with
  | [] => Raise (Exn IndexError "tuple index out of range")
  | n :: r => Return (Z.of_N (last r n))
  end.

(** [t.numel()] *)
Definition numel (t : tensor) : Z :=
  Z.of_N (fold_right N.mul 1%N (shape t)).

(** Attribute access that only a tensor answers ([.dim()], [.numel()],
    [.shape]). *)
Definition tensor_of (attr : string) (v : pyval) : result tensor :=
  match v with
  | PTensor t => Return t
  | _ => Raise (Exn AttributeError
           ("'" ++ type_name v ++ "' object has no attribute '" ++ attr ++ "'"))
  end.

(** [v > 0], [n / v] and [n // v] for a Python value [v].  A tensor
    operand is not modelled and is rejected like the other values that
    are no numbers. *)
Definition py_positive (v : pyval) : result bool :=
  match as_number v with
  | Some q => Return (Qltb 0 q)
  | None => Raise (Exn TypeError
      ("'>' not supported between instances of '" ++ type_name v ++ "' and 'int'"))
  end.

Definition py_truediv (n : Z) (v : pyval) : result Q :=
  match as_number v with
  | Some q =>
      if Qeq_bool q 0 then Raise (Exn ZeroDivisionError "division by zero")
      else Return (inject_Z n / q)%Q
  | None => Raise (Exn TypeError
      ("unsupported operand type(s) for /: 'int' and '" ++ type_name v ++ "'"))
  end.

Definition py_floordiv_int (a b : Z) : result Z :=
  if b =? 0
  then Raise (Exn ZeroDivisionError "integer division or modulo by zero")
  else Return (a / b).

(* ================================================================== *)
(** ** class DVA_Audio_Duration_Calculator                            *)
(* ================================================================== *)

Module DVA_Audio_Duration_Calculator.

(** (duration_seconds, duration_formatted, status, metadata) *)
Definition duration_tuple : Type := Q * string * string * json_text.

Definition duration_seconds (r : duration_tuple) : Q := fst (fst (fst r)).
Definition duration_formatted (r : duration_tuple) : string := snd (fst (fst r)).
Definition status (r : duration_tuple) : string := snd (fst r).
Definition metadata (r : duration_tuple) : json_text := snd r.

Definition _error_response (error_message : string) : duration_tuple :=
  (0%Q, "00:00:00.000", "error: " ++ error_message, empty_json).

Definition _format_duration (seconds : Q) : string :=
  if Qle_bool seconds 0 then "00:00:00.000"
  else
    let hours := floordiv seconds 3600%Q in
    let minutes := floordiv (pymod seconds 3600%Q) 60%Q in
    let secs := pymod seconds 60%Q in
    if 0 <? hours
    then fmt_0d 2 hours ++ ":" ++ fmt_0d 2 minutes ++ ":" ++ fmt_0f 6 3 secs
    else fmt_0d 2 minutes ++ ":" ++ fmt_0f 6 3 secs.

Definition _get_total_samples (tensor : pyval) : Z :=
  try_except
    (t <- tensor_of "dim" tensor ;;
     if dim t =? 1 then shape_at t 0
     else if dim t =? 2 then shape_at t 1
     else if dim t =? 3 then shape_at t 2
     else if dim t =? 4 then shape_at t 3
     else shape_last t)
    (fun _ => 0).

(** The end of the [try] block of [_calculate_duration_from_tensor]:
    the duration, once the sample count is known. *)
Definition duration_tail (num_samples : Z) (sample_rate : pyval) : result Q :=
  positive <-
    (if 0 <? num_samples then py_positive sample_rate else Return false) ;;
  if positive then py_truediv num_samples sample_rate else Return 0%Q.

(** The [try] block of [_calculate_duration_from_tensor]. *)
Definition duration_from_shape (waveform sample_rate : pyval) : result Q :=
  t <- tensor_of "dim" waveform ;;
  num_samples <-
    (if dim t =? 1 then shape_at t 0
     else if dim t =? 2 then
       (channels_or_batch <- shape_at t 0 ;;
        if channels_or_batch <=? 2 then shape_at t 1 else shape_at t 1)
     else if dim t =? 3 then shape_at t 2
     else if dim t =? 4 then shape_at t 2
     else shape_last t) ;;
  duration_tail num_samples sample_rate.

(** Its [except] block: the inner [try], which either returns a duration
    or ends without one ([None]). *)
Definition duration_from_numel (waveform sample_rate : pyval)
    : result (option Q) :=
  t <- tensor_of "numel" waveform ;;
  let total_elements := numel t in
  if 1 <=? dim t then
    samples_per_channel <- shape_last t ;;
    num_channels <- py_floordiv_int total_elements samples_per_channel ;;
    duration <- py_truediv samples_per_channel sample_rate ;;
    Return (Some duration)
  else Return None.

Definition _calculate_duration_from_tensor (waveform sample_rate : pyval)
    : result Q :=
  match duration_from_shape waveform sample_rate with
  | Return duration => Return duration
  | Raise e =>
      match duration_from_numel waveform sample_rate with
      | Return (Some duration) => Return duration
      | _ => Raise e
      end
  end.

Definition _select_calculation_mode (E : env) (audio_path : string) : string :=
  let file_ext := lower (splitext_ext audio_path) in
  if str_in file_ext [".mp3"; ".aac"; ".m4a"] && PYDUB_AVAILABLE E then "fast"
  else if str_in file_ext [".wav"; ".flac"] && LIBROSA_AVAILABLE E then "accurate"
  else "accurate".

Definition _calculate_with_pydub (E : env) (audio_path : string)
    : backend_result :=
  match pydub_load E audio_path with
  | Return (duration, metadata) => BSuccess duration metadata
  | Raise e => BError ("Pydub error: " ++ exn_str e)
  end.

Definition _calculate_with_librosa (E : env) (audio_path : string)
    : backend_result :=
  match librosa_load E audio_path with
  | Return (duration, metadata) => BSuccess duration metadata
  | Raise e => BError ("Librosa error: " ++ exn_str e)
  end.

(** [max(a, b)] *)
Definition py_max (a b : Q) : Q := if Qltb a b then b else a.

(** The loop over [data['streams']]. *)
Fixpoint max_stream_duration (streams : list (option (result Q)))
    (duration : Q) : result Q :=
  match streams with
  | [] => Return duration
  | None :: rest => max_stream_duration rest duration
  | Some r :: rest =>
      stream_duration <- r ;;
      max_stream_duration rest (py_max duration stream_duration)
  end.

Definition _calculate_with_ffmpeg (E : env) (audio_path : string)
    : backend_result :=
  match ffprobe_durations E audio_path with
  | FfTimeout => BError "FFprobe timeout"
  | FfRaised e => BError ("FFprobe exception: " ++ exn_str e)
  | FfCompleted returncode stderr stdout =>
      if negb (returncode =? 0) then BError ("FFprobe error: " ++ stderr)
      else
        match stdout with
        | Raise e => BError ("FFprobe JSON decode error: " ++ exn_str e)
        | Return data =>
            let found :=
              duration <-
                match format_duration data with
                | Some d => d
                | None => max_stream_duration (stream_durations data) 0%Q
                end ;;
              if Qeq_bool duration 0 then Return None
              else
                file_size <- getsize E audio_path ;;
                Return (Some (duration,
                  [("method", PStr "ffmpeg");
                   ("format", PStr (lower (splitext_ext audio_path)));
                   ("file_size_bytes", PInt file_size);
                   ("ffprobe_data", ffprobe_raw data)])) in
            match found with
            | Return (Some (duration, metadata)) => BSuccess duration metadata
            | Return None => BError "Не удалось определить длительность"
            | Raise e => BError ("FFprobe exception: " ++ exn_str e)
            end
        end
  end.

(** A stub in the source: the duration is handed back unchanged. *)
Definition _remove_silence_duration (audio_path : string) (total_duration : Q)
    (threshold_db : Q) : Q := total_duration.

(** The three backends, and the choice among them made by the
    [if]/[elif]/[else] of [_calculate_from_file]. *)
Inductive backend := Pydub | Librosa | Ffmpeg.

Definition choose_backend (E : env) (calc_mode : string) : backend :=
  if String.eqb calc_mode "fast" && PYDUB_AVAILABLE E then Pydub
  else if LIBROSA_AVAILABLE E then Librosa
  else Ffmpeg.

Definition run_backend (E : env) (b : backend) (audio_path : string)
    : backend_result :=
  match b with
  | Pydub => _calculate_with_pydub E audio_path
  | Librosa => _calculate_with_librosa E audio_path
  | Ffmpeg => _calculate_with_ffmpeg E audio_path
  end.

(** The end of [_calculate_from_file], from the backend's result on. *)
Definition deliver (audio_path calc_mode : string) (file_size : Z)
    (time_precision : Z) (include_silence : bool) (silence_threshold_db : Q)
    (result : backend_result) : Py.result duration_tuple :=
  match result with
  | BError error => Return (_error_response error)
  | BSuccess duration metadata =>
      let duration :=
        if negb include_silence && Qltb 0 duration
        then _remove_silence_duration audio_path duration silence_threshold_db
        else duration in
      let rounded_duration := round duration time_precision in
      let formatted_duration := _format_duration rounded_duration in
      let metadata := dict_update metadata
        [("calculation_mode", PStr calc_mode);
         ("time_precision", PInt time_precision);
         ("include_silence", PBool include_silence);
         ("silence_threshold_db", PFloat silence_threshold_db);
         ("file_path", PStr audio_path);
         ("file_size_bytes", PInt file_size)] in
      serialized <- json_dumps (PDict metadata) ;;
      Return (rounded_duration, formatted_duration, "success", serialized)
  end.

Definition _calculate_from_file (E : env) (audio_path : pyval)
    (calculation_mode : string) (time_precision : Z)
    (include_silence : bool) (silence_threshold_db : Q)
    : Py.result duration_tuple :=
  given <- truthy audio_path ;;
  if negb given then Return (_error_response "Путь к аудио файлу не получен")
  else
    found <- os_stat E audio_path ;;
    match found with
    | None =>
        Return (_error_response
                  ("Аудио файл не найден по пути: " ++ py_str E audio_path))
    | Some node =>
        if negb (is_file node)
        then Return (_error_response
                       ("Путь не является файлом: " ++ py_str E audio_path))
        else
          let file_size := st_size node in
          if file_size =? 0 then Return (_error_response "Аудио файл пустой")
          else
            (* the log line evaluates os.path.splitext(audio_path) *)
            path <- fspath audio_path ;;
            let calc_mode :=
              if String.eqb calculation_mode "auto"
              then _select_calculation_mode E path
              else calculation_mode in
            deliver path calc_mode file_size time_precision include_silence
              silence_threshold_db
              (run_backend E (choose_backend E calc_mode) path)
    end.

(** The [try] block of [calculate_audio_duration]; [self] is the method
    itself, called on the first element of a list. *)
Definition calculate_audio_duration_try (E : env)
    (self : pyval -> duration_tuple) (audio : pyval)
    (calculation_mode : string) (time_precision : Z)
    (include_silence : bool) (silence_threshold_db : Q)
    : Py.result duration_tuple :=
  let unsupported :=
    Return (_error_response
              ("Неподдерживаемый тип аудио данных: " ++ type_repr audio)) in
  match audio with
  | PDict d =>
      match dict_get "waveform" d with
      | Some waveform =>
          let sample_rate := dict_get_default "sample_rate" (PInt 24000) d in
          duration <- _calculate_duration_from_tensor waveform sample_rate ;;
          let rounded_duration := round duration time_precision in
          let formatted_duration := _format_duration rounded_duration in
          let waveform_shape :=
            match waveform with
            | PTensor t => map (fun n => PInt (Z.of_N n)) (shape t)
            | _ => []
            end in
          serialized <- json_dumps (PDict
            [("calculation_method", PStr "tensor_direct");
             ("sample_rate", sample_rate);
             ("waveform_shape", PList waveform_shape);
             ("time_precision", PInt time_precision);
             ("include_silence", PBool include_silence);
             ("silence_threshold_db", PFloat silence_threshold_db);
             ("total_samples", PInt (_get_total_samples waveform))]) ;;
          Return (rounded_duration, formatted_duration, "success", serialized)
      | None =>
          match dict_get "file_path" d with
          | Some audio_path =>
              _calculate_from_file E audio_path calculation_mode time_precision
                include_silence silence_threshold_db
          | None => unsupported
          end
      end
  | PTensor t =>
      duration <- _calculate_duration_from_tensor audio (PInt 24000) ;;
      let rounded_duration := round duration time_precision in
      let formatted_duration := _format_duration rounded_duration in
      serialized <- json_dumps (PDict
        [("calculation_method", PStr "tensor_direct");
         ("sample_rate", PInt 24000);
         ("waveform_shape", PList (map (fun n => PInt (Z.of_N n)) (shape t)));
         ("time_precision", PInt time_precision);
         ("total_samples", PInt (_get_total_samples audio))]) ;;
      Return (rounded_duration, formatted_duration, "success", serialized)
  | PList (first :: _) => Return (self first)
  | PStr s =>
      _calculate_from_file E audio calculation_mode time_precision
        include_silence silence_threshold_db
  | _ => unsupported
  end.

(** The [except Exception] clause. *)
Definition calculate_audio_duration_except (e : exn) : duration_tuple :=
  _error_response ("Исключение: " ++ exn_str e).

(** The method while the interpreter's recursion limit is out of reach:
    it calls itself once for each level of a nest of lists. *)
Fixpoint calculate_audio_duration (E : env) (audio : pyval)
    (calculation_mode : string) (time_precision : Z)
    (include_silence : bool) (silence_threshold_db : Q) {struct audio}
    : duration_tuple :=
  try_except
    (calculate_audio_duration_try E
       (fun first => calculate_audio_duration E first calculation_mode
                       time_precision include_silence silence_threshold_db)
       audio calculation_mode time_precision include_silence
       silence_threshold_db)
    calculate_audio_duration_except.




End DVA_Audio_Duration_Calculator.

(** *** Dynamically typed operations *)

(** [v.get(k, default)]: only a dictionary has the method. *)
Definition py_get (k : string) (default : pyval) (v : pyval) : result pyval :=
  match v with
  | PDict d => Return (dict_get_default k default d)
  | _ => Raise (Exn AttributeError
           ("'" ++ type_name v ++ "' object has no attribute 'get'"))
  end.

(** [float(v)] *)
Definition py_float (E : env) (v : pyval) : result Q :=
  match v with
  | PStr s =>
      match parse_float E s with
      | Some q => Return q
      | None => Raise (Exn ValueError
                  ("could not convert string to float: '" ++ s ++ "'"))
      end
  | _ =>
      match as_number v with
      | Some q => Return q
      | None => Raise (Exn TypeError
          ("float() argument must be a string or a real number, not '"
           ++ type_name v ++ "'"))
      end
  end.

(** [int(v)]: a float is truncated towards zero. *)
Definition py_int (E : env) (v : pyval) : result Z :=
  match v with
  | PStr s =>
      match parse_int E s with
      | Some z => Return z
      | None => Raise (Exn ValueError
                  ("invalid literal for int() with base 10: '" ++ s ++ "'"))
      end
  | PInt z => Return z
  | PBool b => Return (if b then 1 else 0)
  | PFloat q => Return (Qnum q ÷ Zpos (Qden q))
  | _ => Raise (Exn TypeError
      ("int() argument must be a string, a bytes-like object or a real number, not '"
       ++ type_name v ++ "'"))
  end.

Fixpoint chars (s : string) : list pyval :=
  match s with
  | EmptyString => []
  | String c r => PStr (String c EmptyString) :: chars r
  end.

(** The elements a [for] loop sees. *)
Definition py_iter (v : pyval) : result (list pyval) :=
  match v with
  | PList l => Return l
  | PDict d => Return (map PStr (dict_keys d))
  | PStr s => Return (chars s)
  | _ => Raise (Exn TypeError
           ("'" ++ type_name v ++ "' object is not iterable"))
  end.

Definition is_str (s : string) (v : pyval) : bool :=
  match v with PStr s' => String.eqb s' s | _ => false end.

(* ================================================================== *)
(** ** class DVA_Audio_Metadata_Extractor                             *)
(* ================================================================== *)

Module DVA_Audio_Metadata_Extractor.

(** (metadata, summary, format, duration); the format is handed on as
    the record holds it. *)
Definition metadata_tuple : Type := json_text * string * pyval * Q.

Definition _get_duration_from_tensor (waveform sample_rate : pyval) : Q :=
  try_except
    (t <- tensor_of "dim" waveform ;;
     num_samples <-
       (if dim t =? 1 then shape_at t 0
        else if dim t =? 2 then shape_at t 1
        else if dim t =? 3 then shape_at t 2
        else shape_last t) ;;
     py_truediv num_samples sample_rate)
    (fun _ => 0%Q).

(** The summary line, built from the record's sections. *)
Definition _create_metadata_summary (E : env)
    (metadata : list (string * pyval)) : result string :=
  let file_info := dict_get_default "file_info" (PDict []) metadata in
  has_info <- truthy file_info ;;
  info_part <-
    (if has_info then
       name <- py_get "name" (PStr "Unknown") file_info ;;
       size_mb <- py_get "size_mb" (PInt 0) file_info ;;
       Return [py_str E name ++ " (" ++ py_str E size_mb ++ " MB)"]
     else Return []) ;;
  let tech := dict_get_default "technical" (PDict []) metadata in
  has_tech <- truthy tech ;;
  tech_part <-
    (if has_tech then
       duration <- py_get "duration_seconds" (PInt 0) tech ;;
       positive <- py_positive duration ;;
       let duration_part :=
         match positive, as_number duration with
         | true, Some d =>
             let hours := floordiv d 3600%Q in
             let minutes := floordiv (pymod d 3600%Q) 60%Q in
             let secs := pymod d 60%Q in
             let dur_str :=
               if 0 <? hours
               then str_int hours ++ ":" ++ fmt_0d 2 minutes ++ ":"
                    ++ fmt_0f 4 1 secs
               else str_int minutes ++ ":" ++ fmt_0f 4 1 secs in
             ["Duration: " ++ dur_str]
         | _, _ => []
         end in
       sample_rate <- py_get "sample_rate" PNone tech ;;
       has_rate <- truthy sample_rate ;;
       channels <- py_get "channels" PNone tech ;;
       has_channels <- truthy channels ;;
       let rate_part :=
         if has_rate then [py_str E sample_rate ++ " Hz"] else [] in
       let channels_part :=
         if has_channels then [py_str E channels ++ "ch"] else [] in
       Return (List.app duration_part (List.app rate_part channels_part))
     else Return []) ;;
  Return (String.concat " | " (List.app info_part tech_part)).

(** The audio streams among [ffprobe_data.get('streams', [])]. *)
Fixpoint audio_streams_of (streams : list pyval) : result (list pyval) :=
  match streams with
  | [] => Return []
  | s :: rest =>
      codec_type <- py_get "codec_type" PNone s ;;
      others <- audio_streams_of rest ;;
      Return (if is_str "audio" codec_type then s :: others else others)
  end.

Definition _extract_technical_metadata (E : env)
    (ffprobe_data : list (string * pyval)) : result (list (string * pyval)) :=
  tech_data <-
    match dict_get "format" ffprobe_data with
    | Some fmt =>
        duration <- py_get "duration" (PInt 0) fmt ;;
        duration_seconds <- py_float E duration ;;
        bit_rate <- py_get "bit_rate" (PInt 0) fmt ;;
        bitrate_bps <- py_int E bit_rate ;;
        size <- py_get "size" (PInt 0) fmt ;;
        size_bytes <- py_int E size ;;
        Return [("duration_seconds", PFloat duration_seconds);
                ("bitrate_bps", PInt bitrate_bps);
                ("size_bytes", PInt size_bytes)]
    | None => Return []
    end ;;
  streams <- py_iter (dict_get_default "streams" (PList []) ffprobe_data) ;;
  audio_streams <- audio_streams_of streams ;;
  match audio_streams with
  | stream :: _ =>
      rate <- py_get "sample_rate" (PInt 0) stream ;;
      sample_rate <- py_int E rate ;;
      ch <- py_get "channels" (PInt 1) stream ;;
      channels <- py_int E ch ;;
      codec <- py_get "codec_name" (PStr "unknown") stream ;;
      bits_per_sample <- py_get "bits_per_sample" (PInt 0) stream ;;
      Return (dict_update tech_data
        [("sample_rate", PInt sample_rate);
         ("channels", PInt channels);
         ("codec", codec);
         ("bits_per_sample", bits_per_sample)])
  | [] => Return tech_data
  end.

(** ffprobe's output, or the default record when the call fails. *)
Definition _get_ffprobe_metadata (E : env) (audio_path : string)
    : list (string * pyval) :=
  match ffprobe_show E audio_path with
  | Some data => data
  | None => [("format", PDict []); ("streams", PList [])]
  end.

Definition tag_excluded : list string :=
  ["format_name"; "duration"; "bit_rate"; "sample_rate"; "channels"].

Definition _extract_all_metadata (E : env) (audio_path : pyval)
    (extract_format extract_technical extract_tags : bool)
    : result (list (string * pyval)) :=
  path <- fspath audio_path ;;
  size <- getsize E path ;;
  modified <- getmtime_iso E path ;;
  let metadata :=
    [("file_info", PDict
        [("path", PStr path);
         ("name", PStr (basename path));
         ("size_bytes", PInt size);
         ("size_mb", PFloat (round (inject_Z size / inject_Z (1024 * 1024)) 2));
         ("modified", PStr modified)])] in
  metadata <-
    (if extract_format || extract_technical then
       let ffprobe_data := _get_ffprobe_metadata E path in
       let metadata :=
         if extract_format
         then dict_set "format"
                (dict_get_default "format" (PDict []) ffprobe_data) metadata
         else metadata in
       if extract_technical then
         technical <- _extract_technical_metadata E ffprobe_data ;;
         Return (dict_set "technical" (PDict technical) metadata)
       else Return metadata
     else Return metadata) ;;
  if extract_tags && PYDUB_AVAILABLE E then
    let tags :=
      match mediainfo E path with
      | Return info =>
          filter (fun kv => negb (str_in (fst kv) tag_excluded)) info
      | Raise _ => []
      end in
    Return (dict_set "tags" (PDict tags) metadata)
  else Return metadata.

Definition possible_keys : list string :=
  ["file_path"; "filename"; "path"; "audio_path"; "input_path"].

(** The loop of [_get_audio_path] over the keys of a dictionary. *)
Fixpoint path_from_keys (E : env) (audio_input : list (string * pyval))
    (keys : list string) : result (option pyval) :=
  match keys with
  | [] => Return None
  | key :: rest =>
      match dict_get key audio_input with
      | None => path_from_keys E audio_input rest
      | Some path =>
          given <- truthy path ;;
          if negb given then path_from_keys E audio_input rest
          else
            found <- os_stat E path ;;
            match found with
            | Some _ => Return (Some path)
            | None =>
                relative <- fspath path ;;
                let possible_path := path_join (input_directory E) relative in
                if path_exists E possible_path
                then Return (Some (PStr possible_path))
                else path_from_keys E audio_input rest
            end
      end
  end.

(** [DVA_Audio_Duration_Calculator._get_audio_path] *)
Definition _get_audio_path (E : env) (audio_input : pyval)
    : result (option pyval) :=
  match audio_input with
  | PStr s =>
      if path_exists E s then Return (Some audio_input)
      else if path_exists E (path_join (input_directory E) s)
      then Return (Some (PStr (path_join (input_directory E) s)))
      else if path_exists E (path_join (output_directory E) s)
      then Return (Some (PStr (path_join (output_directory E) s)))
      else if path_exists E (path_join (temp_directory E) s)
      then Return (Some (PStr (path_join (temp_directory E) s)))
      else Return None
  | PDict d => path_from_keys E d possible_keys
  | _ => Return None
  end.

(** The record synthesised for an in-memory buffer. *)
Definition tensor_metadata (waveform sample_rate : pyval) (duration : Q)
    : result (list (string * pyval)) :=
  t <- tensor_of "dim" waveform ;;
  channels <-
    (if 2 <=? dim t then
       second <- shape_at t 1 ;;
       Return (if second <=? 2 then second else 1)
     else Return 1) ;;
  total_samples <- (if 0 <? dim t then shape_last t else Return 0) ;;
  Return
    [("format", PDict [("format_name", PStr "tensor");
                       ("sample_rate", sample_rate)]);
     ("technical", PDict [("duration_seconds", PFloat duration);
                          ("sample_rate", sample_rate);
                          ("channels", PInt channels);
                          ("total_samples", PInt total_samples)]);
     ("file_info", PDict [("name", PStr "audio_tensor");
                          ("size_bytes",
                           PInt (Z.of_N (element_size t) * numel t))])].

Definition not_found : metadata_tuple :=
  (empty_json, "Error: Audio file not found", PStr "unknown", 0%Q).

(** The [try] block of [extract_audio_metadata]. *)
Definition extract_audio_metadata_try (E : env) (audio : pyval)
    (extract_format extract_technical extract_tags : bool)
    : result metadata_tuple :=
  let from_path :=
    located <- _get_audio_path E audio ;;
    match located with
    | None => Return not_found
    | Some audio_path =>
        given <- truthy audio_path ;;
        found <- (if given then os_stat E audio_path else Return None) ;;
        match found with
        | None => Return not_found
        | Some _ =>
            metadata <- _extract_all_metadata E audio_path extract_format
                          extract_technical extract_tags ;;
            summary <- _create_metadata_summary E metadata ;;
            format_name <-
              py_get "format_name" (PStr "unknown")
                (dict_get_default "format" (PDict []) metadata) ;;
            duration_seconds <-
              py_get "duration_seconds" (PFloat 0)
                (dict_get_default "technical" (PDict []) metadata) ;;
            serialized <- json_dumps (PDict metadata) ;;
            duration <- py_float E duration_seconds ;;
            Return (serialized, summary, format_name, duration)
        end
    end in
  match audio with
  | PDict d =>
      match dict_get "waveform" d with
      | Some waveform =>
          let sample_rate := dict_get_default "sample_rate" (PInt 24000) d in
          let duration := _get_duration_from_tensor waveform sample_rate in
          metadata <- tensor_metadata waveform sample_rate duration ;;
          summary <- _create_metadata_summary E metadata ;;
          serialized <- json_dumps (PDict metadata) ;;
          Return (serialized, summary, PStr "tensor", duration)
      | None => from_path
      end
  | _ => from_path
  end.

Definition extract_audio_metadata_except (e : exn) : metadata_tuple :=
  (empty_json, "Error: " ++ exn_str e, PStr "error", 0%Q).

Definition extract_audio_metadata (E : env) (audio : pyval)
    (extract_format extract_technical extract_tags : bool) : metadata_tuple :=
  try_except
    (extract_audio_metadata_try E audio extract_format extract_technical
       extract_tags)
    extract_audio_metadata_except.

End DVA_Audio_Metadata_Extractor.

(* ================================================================== *)
(** ** class DVA_Audio_Batch_Processor                                *)
(* ================================================================== *)

(** [sorted] on strings: code point order, which on UTF-8 text is the
    order of the bytes. *)
Module StringOrder <: TotalLeBool.
Definition t := string.
Definition leb := String.leb.
Definition leb_total : forall x y, leb x y = true \/ leb y x = true :=
  String.leb_total.
End StringOrder.

Module StringSort := Sort StringOrder.

Module DVA_Audio_Batch_Processor.

Module Calc := DVA_Audio_Duration_Calculator.
Module Meta := DVA_Audio_Metadata_Extractor.

(** (results, summary, file_list) *)
Definition batch_tuple : Type := json_text * string * json_text.

(** [s.split(',')] *)
Fixpoint split_comma (s : string) : list string :=
  match s with
  | EmptyString => [EmptyString]
  | String c r =>
      if Ascii.eqb c ","
      then EmptyString :: split_comma r
      else match split_comma r with
           | h :: t => String c h :: t
           | [] => [String c EmptyString]
           end
  end.

(** White space as [str.isspace] has it.  A string holds the bytes of
    its UTF-8 text, so a white space character is one byte (U+0009 to
    U+000D, U+001C to U+0020), two bytes (U+0085, U+00A0) or three
    (U+1680, U+2000 to U+200A, U+2028, U+2029, U+202F, U+205F, U+3000). *)
Definition is_space (c : ascii) : bool :=
  let n := nat_of_ascii c in
  ((9 <=? n)%nat && (n <=? 13)%nat) || ((28 <=? n)%nat && (n <=? 32)%nat).

Definition is_space2 (a b : ascii) : bool :=
  let x := nat_of_ascii a in
  let y := nat_of_ascii b in
  (x =? 194)%nat && ((y =? 133)%nat || (y =? 160)%nat).

Definition is_space3 (a b c : ascii) : bool :=
  let x := nat_of_ascii a in
  let y := nat_of_ascii b in
  let z := nat_of_ascii c in
  ((x =? 225)%nat && (y =? 154)%nat && (z =? 128)%nat)
  || ((x =? 226)%nat && (y =? 128)%nat
      && (((128 <=? z)%nat && (z <=? 138)%nat)
          || (z =? 168)%nat || (z =? 169)%nat || (z =? 175)%nat))
  || ((x =? 226)%nat && (y =? 129)%nat && (z =? 159)%nat)
  || ((x =? 227)%nat && (y =? 128)%nat && (z =? 128)%nat).

(** The string is one white space character. *)
Definition is_space_char (s : string) : bool :=
  match s with
  | String a EmptyString => is_space a
  | String a (String b EmptyString) => is_space2 a b
  | String a (String b (String c EmptyString)) => is_space3 a b c
  | _ => false
  end.

Fixpoint lstrip (s : string) : string :=
  match s with
  | EmptyString => EmptyString
  | String a r =>
      if is_space a then lstrip r
      else
        match r with
        | String b r2 =>
            if is_space2 a b then lstrip r2
            else
              match r2 with
              | String c r3 => if is_space3 a b c then lstrip r3 else s
              | EmptyString => s
              end
        | EmptyString => s
        end
  end.

(** What is left of [String c r] once [r] is stripped is either one
    white space character, which goes too, or the stripped string. *)
Fixpoint rstrip (s : string) : string :=
  match s with
  | EmptyString => EmptyString
  | String c r =>
      let kept := String c (rstrip r) in
      if is_space_char kept then EmptyString else kept
  end.

(** [s.strip()] *)
Definition strip (s : string) : string := rstrip (lstrip s).

(** [sorted(list(set(l)))] *)
Definition sorted_set (l : list string) : list string :=
  StringSort.sort (nodup string_dec l).

(** The matches as they are collected, before [set] and [sorted]. *)
Definition matching_files (E : env) (directory pattern : string)
    (recursive : bool) : list string :=
  let patterns := map strip (split_comma pattern) in
  if recursive then
    flat_map (fun walk : string * list string =>
      let (root, files) := walk in
      flat_map (fun file_pattern =>
        map (path_join root)
            (filter (fun f => fnmatch E f file_pattern) files))
        patterns)
      (os_walk E directory)
  else
    flat_map (fun file_pattern =>
      glob_glob E (path_join directory file_pattern)) patterns.

Definition _find_audio_files (E : env) (directory pattern : string)
    (recursive : bool) : list string :=
  sorted_set (matching_files E directory pattern recursive).

Definition wants_duration (operation : string) : bool :=
  str_in operation ["duration"; "both"].

Definition wants_metadata (operation : string) : bool :=
  str_in operation ["metadata"; "both"].

Definition _process_single_file (E : env) (audio_file operation : string)
    : result (list (string * pyval)) :=
  size_bytes <- getsize E audio_file ;;
  let result :=
    [("file", PStr audio_file);
     ("filename", PStr (basename audio_file));
     ("size_bytes", PInt size_bytes);
     ("status", PStr "success")] in
  let result :=
    if wants_duration operation then
      try_except
        (let duration_result :=
           Calc.calculate_audio_duration E
             (PDict [("file_path", PStr audio_file)]) "auto" 3 true (-60)%Q in
         Return
           (dict_set "duration_formatted"
              (PStr (Calc.duration_formatted duration_result))
              (dict_set "duration_seconds"
                 (PFloat (Calc.duration_seconds duration_result)) result)))
        (fun e => dict_set "duration_error" (PStr (exn_str e)) result)
    else result in
  let result :=
    if wants_metadata operation then
      try_except
        (let meta_result :=
           Meta.extract_audio_metadata E
             (PDict [("file_path", PStr audio_file)]) true true false in
         Return
           (dict_set "metadata"
              (json_loads (fst (fst (fst meta_result)))) result))
        (fun e => dict_set "metadata_error" (PStr (exn_str e)) result)
    else result in
  Return result.

(** The record of a file whose processing raised. *)
Definition failed_record (audio_file : string) (e : exn)
    : list (string * pyval) :=
  [("file", PStr audio_file);
   ("error", PStr (exn_str e));
   ("status", PStr "failed")].

(** [r.get("status") == "success"] *)
Definition is_success (r : list (string * pyval)) : bool :=
  is_str "success" (dict_get_default "status" PNone r).

Definition successful (results : list (list (string * pyval))) : nat :=
  length (filter is_success results).

(** [sum(r.get("duration_seconds", 0) for r in results
         if "duration_seconds" in r)], from the running total [acc]. *)
Fixpoint sum_durations (results : list (list (string * pyval))) (acc : Q)
    : result Q :=
  match results with
  | [] => Return acc
  | r :: rest =>
      match dict_get "duration_seconds" r with
      | None => sum_durations rest acc
      | Some v =>
          match as_number v with
          | Some q => sum_durations rest (Qred (acc + q))
          | None => Raise (Exn TypeError
              ("unsupported operand type(s) for +: 'int' and '"
               ++ type_name v ++ "'"))
          end
      end
  end.

Definition processed (successful total : nat) : string :=
  "Processed " ++ str_int (Z.of_nat successful) ++ "/"
  ++ str_int (Z.of_nat total) ++ " files".

Definition _create_batch_summary (results : list (list (string * pyval)))
    (operation : string) : result string :=
  let total := length results in
  let successful := successful results in
  if wants_duration operation then
    total_duration <- sum_durations results 0%Q ;;
    let dur_str :=
      if Qltb total_duration 60%Q then fmt_0f 0 1 total_duration ++ "s"
      else if Qltb total_duration 3600%Q
      then fmt_0f 0 1 (total_duration / 60%Q) ++ "m"
      else fmt_0f 0 1 (total_duration / 3600%Q) ++ "h" in
    Return (processed successful total ++ " | " ++ "Total duration: " ++ dur_str)
  else Return (processed successful total).

(** The loop over the files, each in its own [try]. *)
Definition process_files (E : env) (audio_files : list string)
    (operation : string) : list (list (string * pyval)) :=
  map (fun audio_file =>
         try_except (_process_single_file E audio_file operation)
                    (failed_record audio_file))
      audio_files.

Definition process_audio_batch_try (E : env) (directory_path file_pattern
    operation : string) (recursive : bool) : result batch_tuple :=
  if String.eqb directory_path "" || negb (path_isdir E directory_path)
  then Return (empty_json, "Error: Directory not found", empty_json_list)
  else
    let audio_files := _find_audio_files E directory_path file_pattern recursive in
    match audio_files with
    | [] => Return (empty_json, "No audio files found", empty_json_list)
    | _ =>
        let results := process_files E audio_files operation in
        summary <- _create_batch_summary results operation ;;
        results_json <- json_dumps (PList (map PDict results)) ;;
        files_json <- json_dumps (PList (map PStr audio_files)) ;;
        Return (results_json, summary, files_json)
    end.

Definition process_audio_batch_except (e : exn) : batch_tuple :=
  (empty_json, "Error: " ++ exn_str e, empty_json_list).

Definition process_audio_batch (E : env) (directory_path file_pattern
    operation : string) (recursive : bool) : batch_tuple :=
  try_except
    (process_audio_batch_try E directory_path file_pattern operation recursive)
    process_audio_batch_except.

End DVA_Audio_Batch_Processor.

(* ================================================================== *)
(** ** class DVA_Load_Audio_File                                      *)
(* ================================================================== *)

Module DVA_Load_Audio_File.

(** (audio, file_path).  [FileNotFoundError] is an [OSError]. *)
Definition load_audio (E : env) (audio_file : string) : pyval * string :=
  try_except
    (let full_path := path_join (input_directory E) audio_file in
     if negb (path_exists E full_path)
     then Raise (Exn OSError ("Файл не найден: " ++ full_path))
     else Return (PDict [("file_path", PStr full_path);
                         ("filename", PStr audio_file)],
                  full_path))
    (fun _ => (PDict [("file_path", PStr ""); ("filename", PStr "")], "")).

End DVA_Load_Audio_File.

(* ================================================================== *)
(** ** Package initialisation ([__init__.py])                         *)
(* ================================================================== *)

Module Package.

(** [s.replace('_', ' ')] *)
Fixpoint underscores_to_spaces (s : string) : string :=
  match s with
  | EmptyString => EmptyString
  | String c r =>
      String (if Ascii.eqb c "_" then " "%char else c) (underscores_to_spaces r)
  end.

(** [s[4:]] *)
Definition drop4 (s : string) : string :=
  match s with
  | String _ (String _ (String _ (String _ r))) => r
  | _ => EmptyString
  end.

(** The display name made up for a class when the module declares no
    display names. *)
Definition default_display_name (class_name : string) : string :=
  let display_name :=
    if String.prefix "DVA_" class_name then drop4 class_name else class_name in
  underscores_to_spaces display_name.

End Package.

(** The dimension [_calculate_duration_from_tensor] takes for the sample
    count, by rank. *)
Definition sample_dimension (sh : list N) : option N :=
  match sh with
  | [] => None
  | [a] => Some a
  | [_; b] => Some b
  | [_; _; c] => Some c
  | [_; _; c; _] => Some c
  | a :: r => Some (last r a)
  end.

(** Two outcomes that differ at most in the serialised metadata: the
    same duration, formatted duration and status, or the same
    exception. *)
Definition same_outcome
    (x y : result DVA_Audio_Duration_Calculator.duration_tuple) : Prop :=
  match x, y with
  | Return a, Return b => fst a = fst b
  | Raise e, Raise e' => e = e'
  | _, _ => False
  end.





(* ================================================================== *)
(** ** Environments used in examples                                  *)
(* ================================================================== *)

(** Nothing installed, nothing on disk. *)
Definition bare_env : env :=
  {| PYDUB_AVAILABLE := false;
     LIBROSA_AVAILABLE := false;
     stat := fun _ => None;
     fstat := fun _ => None;
     getmtime_iso := fun _ => Return "1970-01-01T00:00:00";
     recursion_limit := 990;
     recursion_detail := "";
     input_directory := "/input";
     output_directory := "/output";
     temp_directory := "/temp";
     pydub_load := fun _ => Raise (Exn OSError "pydub is not installed");
     librosa_load := fun _ => Raise (Exn OSError "librosa is not installed");
     ffprobe_durations := fun _ => FfRaised (Exn OSError "ffprobe not found");
     ffprobe_show := fun _ => None;
     mediainfo := fun _ => Return [];
     parse_float := fun _ => None;
     parse_int := fun _ => None;
     str_other := fun _ => "?";
     os_walk := fun _ => [];
     glob_glob := fun _ => [];
     fnmatch := fun _ _ => false |}.

(** A music directory with three audio files, one of them empty, and a
    text file; pydub is installed, librosa is not. *)
Definition demo_stat (p : string) : option fsnode :=
  if String.eqb p "/music" then Some (FsNode false 4096)
  else if String.eqb p "/music/a.mp3" then Some (FsNode true 88200)
  else if String.eqb p "/music/b.wav" then Some (FsNode true 352800)
  else if String.eqb p "/music/c.flac" then Some (FsNode true 0)
  else if String.eqb p "/music/notes.txt" then Some (FsNode true 12)
  else None.

Definition demo_env : env :=
  {| PYDUB_AVAILABLE := true;
     LIBROSA_AVAILABLE := false;
     stat := demo_stat;
     fstat := fun _ => None;
     getmtime_iso := fun _ => Return "2024-01-01T12:00:00";
     recursion_limit := 990;
     recursion_detail := "";
     input_directory := "/input";
     output_directory := "/output";
     temp_directory := "/temp";
     pydub_load := fun p =>
       if String.eqb p "/music/a.mp3"
       then Return ((11 # 2)%Q, [("method", PStr "pydub")])
       else Raise (Exn OSError "could not decode");
     librosa_load := fun _ => Raise (Exn OSError "librosa is not installed");
     ffprobe_durations := fun p =>
       if String.eqb p "/music/b.wav"
       then FfCompleted 0 ""
              (Return (FfprobeData (Some (Return 2%Q)) [] (PDict [])))
       else FfCompleted 1 "Invalid data found when processing input"
              (Raise (Exn ValueError "Expecting value"));
     ffprobe_show := fun _ => None;
     mediainfo := fun _ => Return [];
     parse_float := fun _ => None;
     parse_int := fun _ => None;
     str_other := fun _ => "?";
     os_walk := fun d =>
       if String.eqb d "/music"
       then [("/music", ["a.mp3"; "b.wav"; "c.flac"; "notes.txt"])]
       else [];
     glob_glob := fun pat =>
       if String.eqb pat "/music/*.mp3" then ["/music/a.mp3"]
       else if String.eqb pat "/music/*.wav" then ["/music/b.wav"]
       else if String.eqb pat "/music/*.flac" then ["/music/c.flac"]
       else [];
     fnmatch := fun f pat => String.eqb ("*" ++ splitext_ext f) pat |}.

(** An environment in which the modification times, the media
    information and the recursion limit are others. *)
Definition override (E : env) (mtime : string -> result string)
    (info : string -> result (list (string * pyval))) (limit : nat) : env :=
  {| PYDUB_AVAILABLE := PYDUB_AVAILABLE E;
     LIBROSA_AVAILABLE := LIBROSA_AVAILABLE E;
     stat := stat E;
     fstat := fstat E;
     getmtime_iso := mtime;
     recursion_limit := limit;
     recursion_detail := recursion_detail E;
     input_directory := input_directory E;
     output_directory := output_directory E;
     temp_directory := temp_directory E;
     pydub_load := pydub_load E;
     librosa_load := librosa_load E;
     ffprobe_durations := ffprobe_durations E;
     ffprobe_show := ffprobe_show E;
     mediainfo := info;
     parse_float := parse_float E;
     parse_int := parse_int E;
     str_other := str_other E;
     os_walk := os_walk E;
     glob_glob := glob_glob E;
     fnmatch := fnmatch E |}.

(** The music directory when the modification time of [b.wav] is beyond
    the years [datetime] can hold. *)
Definition stale_env : env :=
  override demo_env
    (fun p =>
       if String.eqb p "/music/b.wav"
       then Raise (Exn ValueError "year 60000 is out of range")
       else Return "2024-01-01T12:00:00")
    (mediainfo demo_env) (recursion_limit demo_env).

(** What [mediainfo] tells about [a.mp3] in the next environment. *)
Definition tagged_info : list (string * pyval) :=
  [("codec_name", PStr "mp3");
   ("format_name", PStr "mp3");
   ("duration", PStr "5.500000");
   ("bit_rate", PStr "128000");
   ("TAG:title", PStr "Song");
   ("sample_rate", PStr "44100");
   ("channels", PStr "2");
   ("TAG:artist", PStr "Band")].

(** The music directory when [mediainfo] knows [a.mp3] and fails on
    every other file. *)
Definition tagged_env : env :=
  override demo_env (getmtime_iso demo_env)
    (fun p =>
       if String.eqb p "/music/a.mp3" then Return tagged_info
       else Raise (Exn OSError "could not read media information"))
    (recursion_limit demo_env).


(** A stereo buffer of one second and an empty buffer, as the host
    hands them over. *)
Definition stereo_buffer : pyval :=
  PDict [("waveform", PTensor (Tensor [2%N; 48000%N] 4%N));
         ("sample_rate", PInt 24000)].

Definition empty_buffer : pyval :=
  PDict [("waveform", PTensor (Tensor [0%N] 4%N));
         ("sample_rate", PInt 24000)].

(** The backends report no negative duration: the length of a pydub
    segment, the duration librosa computes and the duration ffprobe
    prints for the container. *)
Definition backends_nonneg (E : env) : Prop :=
  forall path : string,
    (forall d m, pydub_load E path = Return (d, m) -> (0 <= d)%Q)
    /\ (forall d m, librosa_load E path = Return (d, m) -> (0 <= d)%Q)
    /\ (forall rc err data d,
          ffprobe_durations E path = FfCompleted rc err (Return data) ->
          format_duration data = Some (Return d) -> (0 <= d)%Q).

(** The shape of a result of the duration node: a duration with the
    property [D], under the status ["success"] or in the error tuple. *)
Definition result_shape (D : Q -> Prop)
    (r : DVA_Audio_Duration_Calculator.duration_tuple) : Prop :=
  D (DVA_Audio_Duration_Calculator.duration_seconds r)
  /\ (DVA_Audio_Duration_Calculator.status r = "success"
      \/ exists msg, r = (0%Q, "00:00:00.000", "error: " ++ msg, empty_json)).

(** The forms of a formatted duration: two digits for the minutes, and
    [SS.mmm] for the seconds with their milliseconds. *)
Definition is_digit (c : ascii) : bool :=
  let n := nat_of_ascii c in (48 <=? n)%nat && (n <=? 57)%nat.

Definition is_SS_mmm (s : string) : bool :=
  match s with
  | String a (String b (String c (String d (String e (String f EmptyString))))) =>
      is_digit a && is_digit b && Ascii.eqb c "." && is_digit d && is_digit e
      && is_digit f
  | _ => false
  end.

Definition is_MM_SS_mmm (s : string) : bool :=
  match s with
  | String a (String b (String c rest)) =>
      is_digit a && is_digit b && Ascii.eqb c ":" && is_SS_mmm rest
  | _ => false
  end.

Definition is_MM (s : string) : bool :=
  match s with
  | String a (String b EmptyString) => is_digit a && is_digit b
  | _ => false
  end.

Definition is_mmm (s : string) : bool :=
  match s with
  | String d (String e (String f EmptyString)) =>
      is_digit d && is_digit e && is_digit f
  | _ => false
  end.

(** A string of decimal digits. *)
Fixpoint all_digits (s : string) : bool :=
  match s with
  | EmptyString => true
  | String c r => is_digit c && all_digits r
  end.

(* ================================================================== *)
(** ** Properties                                                     *)
(* ================================================================== *)

Import DVA_Audio_Duration_Calculator.

(** *** Numbers *)

Lemma Qltb_lt (a b : Q) : Qltb a b = true <-> (a < b)%Q.
Proof.
  unfold Qltb. rewrite negb_true_iff. split.
  - intros H. apply Qnot_le_lt. intros Hle.
    apply Qle_bool_iff in Hle. congruence.
  - intros H. destruct (Qle_bool b a) eqn:Hb; [|reflexivity].
    apply Qle_bool_iff in Hb. exfalso. exact (Qlt_not_le _ _ H Hb).
Qed.

Lemma Qeq_bool_pos (q : Q) : (0 < q)%Q -> Qeq_bool q 0 = false.
Proof.
  intros H. destruct (Qeq_bool q 0) eqn:Hq; [|reflexivity].
  apply Qeq_bool_iff in Hq. rewrite Hq in H. exfalso.
  exact (Qlt_irrefl _ H).
Qed.

Lemma py_positive_number (v : pyval) (R : Q) :
  as_number v = Some R -> (0 < R)%Q -> py_positive v = Return true.
Proof.
  intros Hv HR. unfold py_positive. rewrite Hv.
  apply Qltb_lt in HR. now rewrite HR.
Qed.

Lemma py_truediv_number (n : Z) (v : pyval) (R : Q) :
  as_number v = Some R -> (0 < R)%Q ->
  py_truediv n v = Return (inject_Z n / R)%Q.
Proof.
  intros Hv HR. unfold py_truediv. rewrite Hv.
  now rewrite (Qeq_bool_pos _ HR).
Qed.

(** What [_calculate_duration_from_tensor] gives once the sample count is
    known and the sample rate is a positive number. *)
Lemma duration_of_samples (n : Z) (v : pyval) (R : Q) :
  as_number v = Some R -> (0 < R)%Q -> 0 <= n ->
  exists d, duration_tail n v = Return d /\ (d == inject_Z n / R)%Q.
Proof.
  intros Hv HR Hn. unfold duration_tail. destruct (0 <? n) eqn:Hpos.
  - rewrite (py_positive_number _ _ Hv HR). simpl.
    rewrite (py_truediv_number _ _ _ Hv HR). eexists. split; reflexivity.
  - apply Z.ltb_ge in Hpos. assert (n = 0) by lia. subst n.
    simpl. exists 0%Q. split; [reflexivity|].
    unfold Qdiv. now rewrite Qmult_0_l.
Qed.

Lemma duration_from_shape_returns (waveform sample_rate : pyval) (d : Q) :
  duration_from_shape waveform sample_rate = Return d ->
  _calculate_duration_from_tensor waveform sample_rate = Return d.
Proof.
  intros H. unfold _calculate_duration_from_tensor. now rewrite H.
Qed.

(** C1.  For a buffer of rank 1 with [N] samples, and for a buffer of
    rank 2 of shape [(c, n)], whether its first dimension is at most 2
    (channels first) or more (batch first), the duration computed at a
    positive sample rate [R], before any rounding, is the number of
    samples divided by [R]: [N / R], respectively [n / R]. *)
Theorem tensor_duration_is_samples_over_rate
    (t : tensor) (sample_rate : pyval) (R : Q) :
  as_number sample_rate = Some R -> (0 < R)%Q ->
  (forall N, shape t = [N] ->
     exists d, _calculate_duration_from_tensor (PTensor t) sample_rate = Return d
               /\ (d == inject_Z (Z.of_N N) / R)%Q)
  /\ (forall c n, shape t = [c; n] -> (c <= 2)%N ->
     exists d, _calculate_duration_from_tensor (PTensor t) sample_rate = Return d
               /\ (d == inject_Z (Z.of_N n) / R)%Q)
  /\ (forall b n, shape t = [b; n] -> (2 < b)%N ->
     exists d, _calculate_duration_from_tensor (PTensor t) sample_rate = Return d
               /\ (d == inject_Z (Z.of_N n) / R)%Q).
Proof.
  intros Hv HR. destruct t as [sh es]. simpl.
  assert (Hlift : forall n, 0 <= n ->
    forall w, duration_from_shape w sample_rate = duration_tail n sample_rate ->
    exists d, _calculate_duration_from_tensor w sample_rate = Return d
              /\ (d == inject_Z n / R)%Q).
  { intros n Hn w Hw.
    destruct (duration_of_samples n sample_rate R Hv HR Hn) as [d [Hd Hq]].
    exists d. split; [|exact Hq].
    apply duration_from_shape_returns. now rewrite Hw. }
  repeat split.
  - intros N ->. apply Hlift; [lia | reflexivity].
  - intros c n -> _. apply Hlift; [lia |].
    unfold duration_from_shape. simpl.
    destruct (Z.of_N c <=? 2); reflexivity.
  - intros b n -> _. apply Hlift; [lia |].
    unfold duration_from_shape. simpl.
    destruct (Z.of_N b <=? 2); reflexivity.
Qed.

Lemma tensor_duration_is_samples_over_rate_witness :
  exists d,
    _calculate_duration_from_tensor
      (PTensor (Tensor [2%N; 48000%N] 4%N)) (PInt 24000) = Return d
    /\ (d == inject_Z 48000 / inject_Z 24000)%Q.
Proof.
  destruct (tensor_duration_is_samples_over_rate
              (Tensor [2%N; 48000%N] 4%N) (PInt 24000) (inject_Z 24000)
              eq_refl eq_refl) as [_ [H _]].
  apply (H 2%N 48000%N eq_refl). lia.
Defined.

(** *** The entry points and their [try]/[except] *)

Lemma calculate_audio_duration_unfold (E : env) (audio : pyval)
    (mode : string) (prec : Z) (inc : bool) (thr : Q) :
  calculate_audio_duration E audio mode prec inc thr =
  try_except
    (calculate_audio_duration_try E
       (fun first => calculate_audio_duration E first mode prec inc thr)
       audio mode prec inc thr)
    calculate_audio_duration_except.
Proof. destruct audio; reflexivity. Qed.

(** C2.  Each of the three entry points returns its tuple for every
    input: what its [try] block returns when that block returns, and,
    when anything inside raises, the fixed error tuple of zero and empty
    values with the message of the exception: [(0.0, "00:00:00.000",
    "error: ...", "{}")] for the duration node, [("{}", "Error: ...",
    "error", 0.0)] for metadata extraction and [("{}", "Error: ...",
    "[]")] for batch processing.  No exception leaves an entry point. *)
Theorem entry_points_catch_all_failures (E : env) :
  (forall audio mode prec inc thr,
     match calculate_audio_duration_try E
             (fun first => calculate_audio_duration E first mode prec inc thr)
             audio mode prec inc thr with
     | Return r => calculate_audio_duration E audio mode prec inc thr = r
     | Raise e =>
         calculate_audio_duration E audio mode prec inc thr =
         (0%Q, "00:00:00.000", "error: Исключение: " ++ exn_str e, empty_json)
     end)
  /\ (forall audio extract_format extract_technical extract_tags,
     match DVA_Audio_Metadata_Extractor.extract_audio_metadata_try E audio
             extract_format extract_technical extract_tags with
     | Return r =>
         DVA_Audio_Metadata_Extractor.extract_audio_metadata E audio
           extract_format extract_technical extract_tags = r
     | Raise e =>
         DVA_Audio_Metadata_Extractor.extract_audio_metadata E audio
           extract_format extract_technical extract_tags =
         (empty_json, "Error: " ++ exn_str e, PStr "error", 0%Q)
     end)
  /\ (forall directory_path file_pattern operation recursive,
     match DVA_Audio_Batch_Processor.process_audio_batch_try E directory_path
             file_pattern operation recursive with
     | Return r =>
         DVA_Audio_Batch_Processor.process_audio_batch E directory_path
           file_pattern operation recursive = r
     | Raise e =>
         DVA_Audio_Batch_Processor.process_audio_batch E directory_path
           file_pattern operation recursive =
         (empty_json, "Error: " ++ exn_str e, empty_json_list)
     end).
Proof.
  repeat split.
  - intros audio mode prec inc thr.
    rewrite calculate_audio_duration_unfold.
    destruct (calculate_audio_duration_try E _ audio mode prec inc thr);
      reflexivity.
  - intros audio f t g.
    unfold DVA_Audio_Metadata_Extractor.extract_audio_metadata.
    destruct (DVA_Audio_Metadata_Extractor.extract_audio_metadata_try E audio f t g);
      reflexivity.
  - intros d p o r.
    unfold DVA_Audio_Batch_Processor.process_audio_batch.
    destruct (DVA_Audio_Batch_Processor.process_audio_batch_try E d p o r);
      reflexivity.
Qed.

(** Two inputs on which something inside does raise. *)
Example scalar_tensor_is_caught (E : env) :
  calculate_audio_duration E (PTensor (Tensor [] 4%N)) "auto" 3 true (-60)%Q =
  (0%Q, "00:00:00.000", "error: Исключение: tuple index out of range",
   empty_json).
Proof. reflexivity. Qed.

Example waveform_of_wrong_type_is_caught (E : env) :
  DVA_Audio_Metadata_Extractor.extract_audio_metadata E
    (PDict [("waveform", PStr "samples")]) true true false =
  (empty_json, "Error: 'str' object has no attribute 'dim'", PStr "error", 0%Q).
Proof. reflexivity. Qed.

(** A property of every result follows from the same property of what
    the [try] block returns on an input that is no non-empty list, and of
    the error tuples. *)
Lemma calculate_audio_duration_invariant (P : duration_tuple -> Prop)
    (E : env) (mode : string) (prec : Z) (inc : bool) (thr : Q) :
  (forall self audio r,
     (forall first rest, audio <> PList (first :: rest)) ->
     calculate_audio_duration_try E self audio mode prec inc thr = Return r ->
     P r) ->
  (forall e, P (calculate_audio_duration_except e)) ->
  forall audio, P (calculate_audio_duration E audio mode prec inc thr).
Proof.
  intros Htry Hexc. fix IH 1. intros audio.
  assert (Hbase : (forall first rest, audio <> PList (first :: rest)) ->
                  P (calculate_audio_duration E audio mode prec inc thr)).
  { intros Hno. rewrite calculate_audio_duration_unfold.
    destruct (calculate_audio_duration_try E _ audio mode prec inc thr)
      as [r|e] eqn:Hbody; [exact (Htry _ _ _ Hno Hbody) | apply Hexc]. }
  destruct audio as [ | b | z | q | s | t | l | d | ];
    try (apply Hbase; intros ? ?; discriminate).
  destruct l as [ | first rest ].
  - apply Hbase; intros ? ?; discriminate.
  - rewrite calculate_audio_duration_unfold. simpl. apply IH.
Qed.

(** *** Rounding keeps the sign *)

Lemma Qnum_nonneg (q : Q) : (0 <= q)%Q -> 0 <= Qnum q.
Proof. unfold Qle. simpl. lia. Qed.

Lemma round_half_even_nonneg (q : Q) :
  (0 <= q)%Q -> 0 <= round_half_even q.
Proof.
  intros H. apply Qnum_nonneg in H. unfold round_half_even.
  assert (Hf : 0 <= Qnum q / Z.pos (Qden q)) by (apply Z.div_pos; lia).
  destruct (2 * (Qnum q mod Z.pos (Qden q)) ?= Z.pos (Qden q)); try lia.
  destruct (Z.even _); lia.
Qed.

Lemma pow10_nonneg (k : Z) : (0 <= pow10 k)%Q.
Proof.
  unfold pow10. change 0%Q with (inject_Z 0). rewrite <- Zle_Qle.
  apply Z.pow_nonneg. lia.
Qed.

Lemma Qdiv_nonneg (a b : Q) : (0 <= a)%Q -> (0 <= b)%Q -> (0 <= a / b)%Q.
Proof.
  intros Ha Hb. unfold Qdiv. apply Qmult_le_0_compat; [exact Ha|].
  now apply Qinv_le_0_compat.
Qed.

Lemma inject_Z_nonneg (z : Z) : 0 <= z -> (0 <= inject_Z z)%Q.
Proof. intros H. change 0%Q with (inject_Z 0). now rewrite <- Zle_Qle. Qed.

Lemma round_nonneg (x : Q) (ndigits : Z) :
  (0 <= x)%Q -> (0 <= round x ndigits)%Q.
Proof.
  intros Hx. unfold round. destruct (0 <=? ndigits); rewrite Qred_correct.
  - apply Qdiv_nonneg; [|apply pow10_nonneg].
    apply inject_Z_nonneg, round_half_even_nonneg.
    apply Qmult_le_0_compat; [exact Hx | apply pow10_nonneg].
  - apply Qmult_le_0_compat; [|apply pow10_nonneg].
    apply inject_Z_nonneg, round_half_even_nonneg.
    apply Qdiv_nonneg; [exact Hx | apply pow10_nonneg].
Qed.

(** *** Inversion of [bind] *)

Lemma bind_Return {A B} (m : result A) (k : A -> result B) (b : B) :
  bind m k = Return b -> exists a, m = Return a /\ k a = Return b.
Proof.
  destruct m as [a|e]; simpl; [|discriminate]. intros H. now exists a.
Qed.

Ltac bind_inv H :=
  let a := fresh "a" in
  let Ha := fresh "Ha" in
  apply bind_Return in H; destruct H as [a [Ha H]].

(** *** The duration of a buffer is never negative *)

Lemma duration_tail_number (n : Z) (sample_rate : pyval) (q : Q) :
  as_number sample_rate = Some q ->
  exists d, duration_tail n sample_rate = Return d /\ (0 <= d)%Q.
Proof.
  intros Hq. unfold duration_tail, py_positive, py_truediv. rewrite Hq.
  destruct (0 <? n) eqn:Hn; simpl.
  - destruct (Qltb 0 q) eqn:Hpos.
    + apply Qltb_lt in Hpos. rewrite (Qeq_bool_pos _ Hpos).
      eexists. split; [reflexivity|].
      apply Qdiv_nonneg; [|now apply Qlt_le_weak].
      apply inject_Z_nonneg. apply Z.ltb_lt in Hn. lia.
    + exists 0%Q. split; [reflexivity | apply Qle_refl].
  - exists 0%Q. split; [reflexivity | apply Qle_refl].
Qed.

Lemma duration_tail_no_number (n : Z) (sample_rate : pyval) (d : Q) :
  as_number sample_rate = None ->
  duration_tail n sample_rate = Return d -> d = 0%Q.
Proof.
  intros Hq. unfold duration_tail, py_positive. rewrite Hq.
  destruct (0 <? n); simpl; [discriminate | now intros [= <-]].
Qed.

Lemma duration_from_shape_tail (t : tensor) (sample_rate : pyval) :
  shape t <> [] ->
  exists n, duration_from_shape (PTensor t) sample_rate
            = duration_tail n sample_rate.
Proof.
  destruct t as [sh es]. simpl. intros Hne.
  unfold duration_from_shape.
  destruct sh as [|a [|b [|c [|d [|e rest]]]]]; [congruence | | | | | ].
  - exists (Z.of_N a). reflexivity.
  - exists (Z.of_N b). simpl. destruct (Z.of_N a <=? 2); reflexivity.
  - exists (Z.of_N c). reflexivity.
  - exists (Z.of_N c). reflexivity.
  - exists (Z.of_N (last (b :: c :: d :: e :: rest) a)).
    set (t := {| shape := a :: b :: c :: d :: e :: rest; element_size := es |}).
    assert (Hdim : dim t = Z.of_nat (length rest) + 5)
      by (unfold dim; simpl length; lia).
    cbn [tensor_of bind]. rewrite Hdim.
    repeat match goal with
           | |- context [?x =? ?y] => destruct (Z.eqb_spec x y); [lia|]
           end.
    reflexivity.
Qed.

Lemma duration_from_numel_needs_number (w sample_rate : pyval) (d : Q) :
  as_number sample_rate = None ->
  duration_from_numel w sample_rate <> Return (Some d).
Proof.
  intros Hq H. unfold duration_from_numel in H.
  bind_inv H. destruct (1 <=? dim a); [|discriminate].
  bind_inv H. bind_inv H. bind_inv H.
  unfold py_truediv in Ha2. rewrite Hq in Ha2. discriminate.
Qed.

Lemma duration_from_numel_scalar (t : tensor) (sample_rate : pyval) :
  shape t = [] ->
  duration_from_numel (PTensor t) sample_rate = Return None.
Proof.
  destruct t as [sh es]. simpl. intros ->. reflexivity.
Qed.

Lemma duration_from_tensor_nonneg (waveform sample_rate : pyval) (d : Q) :
  _calculate_duration_from_tensor waveform sample_rate = Return d ->
  (0 <= d)%Q.
Proof.
  unfold _calculate_duration_from_tensor. intros H.
  destruct waveform as [ | | | | | t | | | ]; try discriminate H.
  destruct (shape t) as [|a sh] eqn:Hsh.
  - rewrite (duration_from_numel_scalar _ _ Hsh) in H.
    destruct (duration_from_shape (PTensor t) sample_rate) as [d'|e] eqn:Hm;
      [|discriminate].
    destruct t as [sh' es]. simpl in Hsh. subst sh'. discriminate Hm.
  - destruct (duration_from_shape_tail t sample_rate) as [n Hn];
      [congruence|].
    rewrite Hn in H.
    destruct (as_number sample_rate) as [q|] eqn:Hq.
    + destruct (duration_tail_number n _ _ Hq) as [d' [Hd' Hpos]].
      rewrite Hd' in H. now injection H as <-.
    + destruct (duration_tail n sample_rate) as [d'|e] eqn:Ht.
      * injection H as <-.
        rewrite (duration_tail_no_number _ _ _ Hq Ht). apply Qle_refl.
      * destruct (duration_from_numel (PTensor t) sample_rate)
          as [[d'|]|e'] eqn:Hf; try discriminate H.
        exfalso. exact (duration_from_numel_needs_number _ _ _ Hq Hf).
Qed.

(** *** Results of the duration node *)

Lemma py_max_ge (a b : Q) : (a <= py_max a b)%Q.
Proof.
  unfold py_max. destruct (Qltb a b) eqn:H; [|apply Qle_refl].
  apply Qltb_lt in H. now apply Qlt_le_weak.
Qed.

Lemma max_stream_duration_nonneg (streams : list (option (result Q))) :
  forall acc d, (0 <= acc)%Q ->
    max_stream_duration streams acc = Return d -> (0 <= d)%Q.
Proof.
  induction streams as [|[[x|e]|] rest IH]; simpl; intros acc d Hacc H.
  - now injection H as <-.
  - apply (IH _ _ (Qle_trans _ _ _ Hacc (py_max_ge acc x)) H).
  - discriminate.
  - apply (IH _ _ Hacc H).
Qed.

Lemma ffmpeg_nonneg (E : env) (path : string) (d : Q) m :
  backends_nonneg E ->
  _calculate_with_ffmpeg E path = BSuccess d m -> (0 <= d)%Q.
Proof.
  intros HE. destruct (HE path) as [_ [_ Hff]].
  unfold _calculate_with_ffmpeg.
  destruct (ffprobe_durations E path) as [ | e | rc err [data|e]] eqn:Hrun;
    try discriminate;
    destruct (negb (rc =? 0)); try discriminate.
  specialize (Hff rc err data).
  destruct (format_duration data) as [[x|e]|] eqn:Hfmt; simpl.
  - destruct (Qeq_bool x 0); simpl; [discriminate|].
    destruct (getsize E path); simpl; [|discriminate].
    intros [= <- _]. now apply Hff.
  - discriminate.
  - destruct (max_stream_duration (stream_durations data) 0) as [x|e] eqn:Hmax;
      simpl; [|discriminate].
    destruct (Qeq_bool x 0); simpl; [discriminate|].
    destruct (getsize E path); simpl; [|discriminate].
    intros [= <- _].
    apply (max_stream_duration_nonneg _ _ _ (Qle_refl 0) Hmax).
Qed.

Lemma run_backend_nonneg (E : env) (b : backend) (path : string) (d : Q) m :
  backends_nonneg E -> run_backend E b path = BSuccess d m -> (0 <= d)%Q.
Proof.
  intros HE. destruct (HE path) as [Hpy [Hli _]]. destruct b; simpl.
  - unfold _calculate_with_pydub.
    destruct (pydub_load E path) as [[x mx]|e] eqn:Hload; [|discriminate].
    intros [= <- _]. exact (Hpy _ _ eq_refl).
  - unfold _calculate_with_librosa.
    destruct (librosa_load E path) as [[x mx]|e] eqn:Hload; [|discriminate].
    intros [= <- _]. exact (Hli _ _ eq_refl).
  - now apply ffmpeg_nonneg.
Qed.

(** Every result has the shape [result_shape D], for a property [D] of
    durations that holds of zero, survives rounding and holds of what
    the buffers and the backends give. *)
Section ResultShape.
Variable E : env.
Variable D : Q -> Prop.
Hypothesis D_zero : D 0%Q.
Hypothesis D_round : forall d prec, D d -> D (round d prec).
Hypothesis D_tensor : forall w sr d,
  _calculate_duration_from_tensor w sr = Return d -> D d.
Hypothesis D_backend : forall b path d m,
  run_backend E b path = BSuccess d m -> D d.

Lemma shape_error (msg : string) : result_shape D (_error_response msg).
Proof. split; [exact D_zero | right; now exists msg]. Qed.

Lemma shape_success (d : Q) (prec : Z) (j : json_text) :
  D d ->
  result_shape D (round d prec, _format_duration (round d prec), "success", j).
Proof. intros Hd. split; [now apply D_round | now left]. Qed.

Lemma deliver_shape (path calc_mode : string) (size prec : Z) (inc : bool)
    (thr : Q) (b : backend) (r : duration_tuple) :
  deliver path calc_mode size prec inc thr (run_backend E b path) = Return r ->
  result_shape D r.
Proof.
  destruct (run_backend E b path) as [d m|err] eqn:Hrun; simpl.
  - intros H. bind_inv H. injection H as <-.
    apply shape_success. unfold _remove_silence_duration.
    destruct (negb inc && Qltb 0 d); exact (D_backend _ _ _ _ Hrun).
  - intros [= <-]. apply shape_error.
Qed.

Lemma calculate_from_file_shape (audio_path : pyval) (mode : string)
    (prec : Z) (inc : bool) (thr : Q) (r : duration_tuple) :
  _calculate_from_file E audio_path mode prec inc thr = Return r ->
  result_shape D r.
Proof.
  intros H. unfold _calculate_from_file in H.
  bind_inv H. destruct (negb a); [injection H as <-; apply shape_error|].
  bind_inv H. destruct a0 as [node|]; [|injection H as <-; apply shape_error].
  destruct (negb (is_file node)); [injection H as <-; apply shape_error|].
  destruct (st_size node =? 0); [injection H as <-; apply shape_error|].
  bind_inv H. exact (deliver_shape _ _ _ _ _ _ _ _ H).
Qed.

Lemma calculate_audio_duration_try_shape (self : pyval -> duration_tuple)
    (audio : pyval) (mode : string) (prec : Z) (inc : bool) (thr : Q)
    (r : duration_tuple) :
  (forall first rest, audio <> PList (first :: rest)) ->
  calculate_audio_duration_try E self audio mode prec inc thr = Return r ->
  result_shape D r.
Proof.
  intros Hno H.
  destruct audio as [ | b | z | q | s | t | l | d | ]; simpl in H;
    try (injection H as <-; apply shape_error).
  - exact (calculate_from_file_shape _ _ _ _ _ _ H).
  - bind_inv H. bind_inv H. injection H as <-.
    apply shape_success. exact (D_tensor _ _ _ Ha).
  - destruct l as [|first rest]; [injection H as <-; apply shape_error|].
    exfalso. exact (Hno first rest eq_refl).
  - destruct (dict_get "waveform" d) as [waveform|].
    + bind_inv H. bind_inv H. injection H as <-.
      apply shape_success. exact (D_tensor _ _ _ Ha).
    + destruct (dict_get "file_path" d) as [audio_path|].
      * exact (calculate_from_file_shape _ _ _ _ _ _ H).
      * injection H as <-. apply shape_error.
Qed.

Lemma calculate_audio_duration_shape (audio : pyval) (mode : string)
    (prec : Z) (inc : bool) (thr : Q) :
  result_shape D (calculate_audio_duration E audio mode prec inc thr).
Proof.
  apply (calculate_audio_duration_invariant (result_shape D)).
  - intros self a r Hno Hr.
    exact (calculate_audio_duration_try_shape _ _ _ _ _ _ _ Hno Hr).
  - intros e. apply shape_error.
Qed.
End ResultShape.

(** C3, as the code has it.  Whatever the duration node is given, the
    duration it returns is not negative (the backends reporting none
    that is), and its result either has the status ["success"] or is the
    error tuple, whose duration is 0.0 and whose formatted duration is
    ["00:00:00.000"].  A zero duration under ["success"] is possible. *)
Theorem duration_nonneg_and_error_carries_zero (E : env) (audio : pyval)
    (mode : string) (prec : Z) (inc : bool) (thr : Q) :
  backends_nonneg E ->
  (0 <= duration_seconds (calculate_audio_duration E audio mode prec inc thr))%Q
  /\ (status (calculate_audio_duration E audio mode prec inc thr) = "success"
      \/ exists msg,
           calculate_audio_duration E audio mode prec inc thr =
           (0%Q, "00:00:00.000", "error: " ++ msg, empty_json)).
Proof.
  intros HE.
  apply (calculate_audio_duration_shape E (fun d => 0 <= d)%Q).
  - apply Qle_refl.
  - intros d p. apply round_nonneg.
  - exact duration_from_tensor_nonneg.
  - intros b path d m. now apply run_backend_nonneg.
Qed.

Lemma demo_backends_nonneg : backends_nonneg demo_env.
Proof.
  intros path. repeat split; simpl.
  - intros d m. destruct (String.eqb path "/music/a.mp3"); [|discriminate].
    intros [= <- _]. discriminate.
  - discriminate.
  - intros rc err data d.
    destruct (String.eqb path "/music/b.wav"); [|discriminate].
    intros [= _ _ <-]. simpl. intros [= <-]. discriminate.
Defined.

Lemma duration_nonneg_and_error_carries_zero_witness :
  backends_nonneg demo_env
  /\ (0 <= duration_seconds
             (calculate_audio_duration demo_env (PStr "/music/a.mp3") "auto" 3
                true (-60)%Q))%Q
  /\ (status (calculate_audio_duration demo_env (PStr "/music/a.mp3") "auto" 3
                true (-60)%Q) = "success"
      \/ exists msg,
           calculate_audio_duration demo_env (PStr "/music/a.mp3") "auto" 3
             true (-60)%Q =
           (0%Q, "00:00:00.000", "error: " ++ msg, empty_json)).
Proof.
  split; [exact demo_backends_nonneg|].
  exact (duration_nonneg_and_error_carries_zero demo_env (PStr "/music/a.mp3")
           "auto" 3 true (-60)%Q demo_backends_nonneg).
Defined.

(** C3, counterexample: an empty buffer is answered with the status
    ["success"] and a duration of zero. *)
Lemma success_with_zero_duration :
  status (calculate_audio_duration bare_env empty_buffer "auto" 3 true (-60)%Q)
    = "success"
  /\ duration_seconds
       (calculate_audio_duration bare_env empty_buffer "auto" 3 true (-60)%Q)
     = 0%Q.
Proof. split; reflexivity. Qed.

(** *** Metadata of an in-memory buffer *)

(** C4, at a stereo buffer of shape (2, 48000).  The duration node reads
    its first dimension as the channels and the second as the samples;
    the record of the metadata node takes the second dimension for the
    samples as well, and still reports one channel. *)
Theorem stereo_buffer_reported_mono (E : env) :
  _calculate_duration_from_tensor
    (PTensor (Tensor [2%N; 48000%N] 4%N)) (PInt 24000)
  = Return (inject_Z 48000 / inject_Z 24000)%Q
  /\ json_value
       (fst (fst (fst (DVA_Audio_Metadata_Extractor.extract_audio_metadata E
                         stereo_buffer true true false))))
     = PDict
         [("format", PDict [("format_name", PStr "tensor");
                            ("sample_rate", PInt 24000)]);
          ("technical",
           PDict [("duration_seconds",
                   PFloat (inject_Z 48000 / inject_Z 24000)%Q);
                  ("sample_rate", PInt 24000);
                  ("channels", PInt 1);
                  ("total_samples", PInt 48000)]);
          ("file_info", PDict [("name", PStr "audio_tensor");
                               ("size_bytes", PInt 384000)])].
Proof. split; reflexivity. Qed.

(** *** Choice of the backend *)

Lemma eqb_accurate_fast : String.eqb "accurate" "fast" = false.
Proof. reflexivity. Qed.

Lemma calculate_from_file_regular (E : env) (path mode : string)
    (node : fsnode) (prec : Z) (inc : bool) (thr : Q) :
  path <> "" -> stat E path = Some node -> is_file node = true ->
  st_size node <> 0 ->
  _calculate_from_file E (PStr path) mode prec inc thr
  = deliver path
      (if String.eqb mode "auto" then _select_calculation_mode E path else mode)
      (st_size node) prec inc thr
      (run_backend E
         (choose_backend E
            (if String.eqb mode "auto" then _select_calculation_mode E path
             else mode)) path).
Proof.
  intros Hne Hstat Hfile Hsize. unfold _calculate_from_file. simpl.
  apply String.eqb_neq in Hne. rewrite Hne. simpl.
  rewrite Hstat, Hfile. simpl.
  apply Z.eqb_neq in Hsize. rewrite Hsize. reflexivity.
Qed.

(** What [_calculate_from_file] makes of the result of a backend. *)
Lemma deliver_success (path mode : string) (size prec : Z) (inc : bool)
    (thr d : Q) (m : list (string * pyval)) :
  deliver path mode size prec inc thr (BSuccess d m)
  = (serialized <-
       json_dumps (PDict (dict_update m
         [("calculation_mode", PStr mode);
          ("time_precision", PInt prec);
          ("include_silence", PBool inc);
          ("silence_threshold_db", PFloat thr);
          ("file_path", PStr path);
          ("file_size_bytes", PInt size)])) ;;
     Return (round d prec, _format_duration (round d prec), "success",
             serialized)).
Proof.
  unfold deliver, _remove_silence_duration.
  destruct (negb inc && Qltb 0 d); reflexivity.
Qed.

(** The backend that answers for a non-empty regular file, by the mode
    in force and the libraries at hand, and what the call makes of each
    outcome of that backend. *)
Lemma backend_by_mode (E : env) (path mode : string) (node : fsnode)
    (prec : Z) (inc : bool) (thr : Q) :
  let calc_mode :=
    if String.eqb mode "auto" then _select_calculation_mode E path else mode in
  let answer := _calculate_from_file E (PStr path) mode prec inc thr in
  let success := fun (mode : string) (d : Q) (m : list (string * pyval)) =>
    serialized <-
      json_dumps (PDict (dict_update m
        [("calculation_mode", PStr mode);
         ("time_precision", PInt prec);
         ("include_silence", PBool inc);
         ("silence_threshold_db", PFloat thr);
         ("file_path", PStr path);
         ("file_size_bytes", PInt (st_size node))])) ;;
    Return (round d prec, _format_duration (round d prec), "success", serialized)
  in
  let failure := fun (message : string) =>
    @Return duration_tuple
      (0%Q, "00:00:00.000", "error: " ++ message, empty_json) in
  path <> "" -> stat E path = Some node -> is_file node = true ->
  st_size node <> 0 ->
  (calc_mode = "fast" -> PYDUB_AVAILABLE E = true ->
   (forall d m, pydub_load E path = Return (d, m) ->
                  answer = success calc_mode d m)
      /\ (forall e, pydub_load E path = Raise e ->
            answer = failure ("Pydub error: " ++ exn_str e)))
  /\ (calc_mode <> "fast" \/ PYDUB_AVAILABLE E = false ->
      LIBROSA_AVAILABLE E = true ->
      (forall d m, librosa_load E path = Return (d, m) ->
                  answer = success calc_mode d m)
      /\ (forall e, librosa_load E path = Raise e ->
            answer = failure ("Librosa error: " ++ exn_str e)))
  /\ (calc_mode <> "fast" \/ PYDUB_AVAILABLE E = false ->
      LIBROSA_AVAILABLE E = false ->
      (ffprobe_durations E path = FfTimeout ->
          answer = failure "FFprobe timeout")
      /\ (forall e, ffprobe_durations E path = FfRaised e ->
            answer = failure ("FFprobe exception: " ++ exn_str e))
      /\ (forall returncode stderr stdout,
            ffprobe_durations E path = FfCompleted returncode stderr stdout ->
            returncode <> 0 ->
            answer = failure ("FFprobe error: " ++ stderr))
      /\ (forall stderr e,
            ffprobe_durations E path = FfCompleted 0 stderr (Raise e) ->
            answer = failure ("FFprobe JSON decode error: " ++ exn_str e))
      /\ (forall stderr data d,
            ffprobe_durations E path = FfCompleted 0 stderr (Return data) ->
            format_duration data = Some (Return d) ->
            Qeq_bool d 0 = false ->
            answer = success calc_mode d
              [("method", PStr "ffmpeg");
               ("format", PStr (lower (splitext_ext path)));
               ("file_size_bytes", PInt (st_size node));
               ("ffprobe_data", ffprobe_raw data)])).
Proof.
  intros calc_mode answer success failure Hne Hstat Hfile Hsize.
  assert (Hanswer : answer
            = deliver path calc_mode (st_size node) prec inc thr
                (run_backend E (choose_backend E calc_mode) path))
    by exact (calculate_from_file_regular E path mode node prec inc thr Hne
                Hstat Hfile Hsize).
  clearbody calc_mode answer. subst success failure. cbv beta.
  assert (Hother : calc_mode <> "fast" \/ PYDUB_AVAILABLE E = false ->
                   String.eqb calc_mode "fast" && PYDUB_AVAILABLE E = false).
  { intros [Hmode | ->]; [|apply andb_false_r].
    apply String.eqb_neq in Hmode. now rewrite Hmode. }
  refine (conj _ (conj _ _)).
  - intros -> Hpydub. subst answer.
    unfold choose_backend, run_backend, _calculate_with_pydub.
    rewrite Hpydub. simpl. split.
    + intros d m ->. apply deliver_success.
    + now intros e ->.
  - intros Hmode Hlibrosa. subst answer.
    unfold choose_backend, run_backend, _calculate_with_librosa.
    rewrite (Hother Hmode), Hlibrosa. split.
    + intros d m ->. apply deliver_success.
    + now intros e ->.
  - intros Hmode Hlibrosa. subst answer.
    unfold choose_backend, run_backend, _calculate_with_ffmpeg.
    rewrite (Hother Hmode), Hlibrosa.
    refine (conj _ (conj _ (conj _ (conj _ _)))).
    + now intros ->.
    + now intros e ->.
    + intros rc err out -> Hrc. apply Z.eqb_neq in Hrc. now rewrite Hrc.
    + now intros err e ->.
    + intros err data d -> Hformat Hzero. simpl. rewrite Hformat. simpl.
      rewrite Hzero. unfold getsize. rewrite Hstat. simpl.
      unfold _remove_silence_duration.
      destruct (negb inc && Qltb 0 d); reflexivity.
Qed.

(** C5.  For a non-empty regular file given by its path in mode [auto]:
    with one of the extensions mp3, aac and m4a and pydub available, the
    mode is [fast] and the answer is that of pydub, its duration under
    ["success"] or its failure as the error tuple; in every other case
    the mode is [accurate], and the answer is that of librosa when
    librosa is available and that of the ffprobe subprocess when it is
    not, whatever the extension.  So without pydub a compressed file
    goes to librosa or ffprobe, and with neither library every file goes
    to ffprobe.  No second backend is tried. *)
Theorem auto_mode_backend_selection (E : env) (path : string) (node : fsnode)
    (prec : Z) (inc : bool) (thr : Q) :
  let compressed :=
    str_in (lower (splitext_ext path)) [".mp3"; ".aac"; ".m4a"] in
  let answer := _calculate_from_file E (PStr path) "auto" prec inc thr in
  let success := fun (mode : string) (d : Q) (m : list (string * pyval)) =>
    serialized <-
      json_dumps (PDict (dict_update m
        [("calculation_mode", PStr mode);
         ("time_precision", PInt prec);
         ("include_silence", PBool inc);
         ("silence_threshold_db", PFloat thr);
         ("file_path", PStr path);
         ("file_size_bytes", PInt (st_size node))])) ;;
    Return (round d prec, _format_duration (round d prec), "success", serialized)
  in
  let failure := fun (message : string) =>
    @Return duration_tuple
      (0%Q, "00:00:00.000", "error: " ++ message, empty_json) in
  path <> "" -> stat E path = Some node -> is_file node = true ->
  st_size node <> 0 ->
  (compressed = true -> PYDUB_AVAILABLE E = true ->
   _select_calculation_mode E path = "fast"
   /\ (forall d m, pydub_load E path = Return (d, m) ->
                  answer = success "fast" d m)
      /\ (forall e, pydub_load E path = Raise e ->
            answer = failure ("Pydub error: " ++ exn_str e)))
  /\ (compressed = false \/ PYDUB_AVAILABLE E = false ->
      LIBROSA_AVAILABLE E = true ->
      _select_calculation_mode E path = "accurate"
      /\ (forall d m, librosa_load E path = Return (d, m) ->
                  answer = success "accurate" d m)
      /\ (forall e, librosa_load E path = Raise e ->
            answer = failure ("Librosa error: " ++ exn_str e)))
  /\ (compressed = false \/ PYDUB_AVAILABLE E = false ->
      LIBROSA_AVAILABLE E = false ->
      _select_calculation_mode E path = "accurate"
      /\ (ffprobe_durations E path = FfTimeout ->
          answer = failure "FFprobe timeout")
      /\ (forall e, ffprobe_durations E path = FfRaised e ->
            answer = failure ("FFprobe exception: " ++ exn_str e))
      /\ (forall returncode stderr stdout,
            ffprobe_durations E path = FfCompleted returncode stderr stdout ->
            returncode <> 0 ->
            answer = failure ("FFprobe error: " ++ stderr))
      /\ (forall stderr e,
            ffprobe_durations E path = FfCompleted 0 stderr (Raise e) ->
            answer = failure ("FFprobe JSON decode error: " ++ exn_str e))
      /\ (forall stderr data d,
            ffprobe_durations E path = FfCompleted 0 stderr (Return data) ->
            format_duration data = Some (Return d) ->
            Qeq_bool d 0 = false ->
            answer = success "accurate" d
              [("method", PStr "ffmpeg");
               ("format", PStr (lower (splitext_ext path)));
               ("file_size_bytes", PInt (st_size node));
               ("ffprobe_data", ffprobe_raw data)])).
Proof.
  intros compressed answer success failure Hne Hstat Hfile Hsize.
  pose proof (backend_by_mode E path "auto" node prec inc thr Hne Hstat Hfile
                Hsize) as Hby.
  cbv zeta in Hby. change (String.eqb "auto" "auto") with true in Hby.
  cbv iota in Hby.
  destruct Hby as [Hfast [Hlibrosa Hffprobe]].
  assert (Hmode_fast : compressed = true -> PYDUB_AVAILABLE E = true ->
                       _select_calculation_mode E path = "fast").
  { unfold _select_calculation_mode. fold compressed. now intros -> ->. }
  assert (Hmode_accurate : compressed = false \/ PYDUB_AVAILABLE E = false ->
                           _select_calculation_mode E path = "accurate").
  { unfold _select_calculation_mode. fold compressed.
    intros [-> | ->]; [|rewrite andb_false_r];
      simpl; destruct (_ && _); reflexivity. }
  refine (conj _ (conj _ _)).
  - intros Hc Hp. pose proof (Hmode_fast Hc Hp) as Hm.
    split; [exact Hm|]. rewrite Hm in Hfast. exact (Hfast eq_refl Hp).
  - intros Hc Hl. pose proof (Hmode_accurate Hc) as Hm.
    split; [exact Hm|]. rewrite Hm in Hlibrosa.
    apply Hlibrosa; [left; discriminate | exact Hl].
  - intros Hc Hl. pose proof (Hmode_accurate Hc) as Hm.
    split; [exact Hm|]. rewrite Hm in Hffprobe.
    apply Hffprobe; [left; discriminate | exact Hl].
Qed.

Lemma auto_mode_backend_selection_witness :
  (_select_calculation_mode demo_env "/music/a.mp3" = "fast"
   /\ _calculate_from_file demo_env (PStr "/music/a.mp3") "auto" 3 true (-60)%Q
      = Return
          ((11 # 2)%Q, "00:05.500", "success",
           JsonOf (PDict
             [("method", PStr "pydub");
              ("calculation_mode", PStr "fast");
              ("time_precision", PInt 3);
              ("include_silence", PBool true);
              ("silence_threshold_db", PFloat (-60)%Q);
              ("file_path", PStr "/music/a.mp3");
              ("file_size_bytes", PInt 88200)])))
  /\ (_select_calculation_mode demo_env "/music/b.wav" = "accurate"
      /\ _calculate_from_file demo_env (PStr "/music/b.wav") "auto" 3 true
           (-60)%Q
         = Return
             (2%Q, "00:02.000", "success",
              JsonOf (PDict
                [("method", PStr "ffmpeg");
                 ("format", PStr ".wav");
                 ("file_size_bytes", PInt 352800);
                 ("ffprobe_data", PDict []);
                 ("calculation_mode", PStr "accurate");
                 ("time_precision", PInt 3);
                 ("include_silence", PBool true);
                 ("silence_threshold_db", PFloat (-60)%Q);
                 ("file_path", PStr "/music/b.wav")])))
  /\ _calculate_from_file demo_env (PStr "/music/notes.txt") "auto" 3 true
       (-60)%Q
     = Return
         (0%Q, "00:00:00.000",
          "error: FFprobe error: Invalid data found when processing input",
          empty_json).
Proof.
  refine (conj _ (conj _ _)).
  - destruct (proj1 (auto_mode_backend_selection demo_env "/music/a.mp3"
                       (FsNode true 88200) 3 true (-60)%Q
                       ltac:(discriminate) eq_refl eq_refl ltac:(discriminate))
                eq_refl eq_refl) as [Hmode [Hsuccess _]].
    split; [exact Hmode|].
    exact (Hsuccess (11 # 2)%Q [("method", PStr "pydub")] eq_refl).
  - destruct (proj2 (proj2 (auto_mode_backend_selection demo_env "/music/b.wav"
                       (FsNode true 352800) 3 true (-60)%Q
                       ltac:(discriminate) eq_refl eq_refl ltac:(discriminate)))
                (or_introl eq_refl) eq_refl)
      as [Hmode [_ [_ [_ [_ Hsuccess]]]]].
    split; [exact Hmode|].
    exact (Hsuccess "" (FfprobeData (Some (Return 2%Q)) [] (PDict [])) 2%Q
             eq_refl eq_refl eq_refl).
  - destruct (proj2 (proj2 (auto_mode_backend_selection demo_env
                       "/music/notes.txt"
                       (FsNode true 12) 3 true (-60)%Q
                       ltac:(discriminate) eq_refl eq_refl ltac:(discriminate)))
                (or_introl eq_refl) eq_refl)
      as [_ [_ [_ [Hfailure _]]]].
    exact (Hfailure 1 "Invalid data found when processing input"
             (Raise (Exn ValueError "Expecting value")) eq_refl
             ltac:(discriminate)).
Defined.

(** *** Missing and empty files *)

(** C6.  For a path at which there is nothing, the duration node returns
    [(0.0, "00:00:00.000", "error: <message>", "{}")]; for a path at
    which there is a file of zero bytes it returns the same tuple with
    the message that the audio file is empty. *)
Theorem missing_or_empty_file_error_tuple (E : env) (path mode : string)
    (prec : Z) (inc : bool) (thr : Q) :
  (stat E path = None ->
   exists msg,
     calculate_audio_duration E (PStr path) mode prec inc thr =
     (0%Q, "00:00:00.000", "error: " ++ msg, empty_json))
  /\ (forall node,
        path <> "" -> stat E path = Some node -> is_file node = true ->
        st_size node = 0 ->
        calculate_audio_duration E (PStr path) mode prec inc thr =
        (0%Q, "00:00:00.000", "error: Аудио файл пустой", empty_json)).
Proof.
  split.
  - intros Hstat. rewrite calculate_audio_duration_unfold.
    unfold calculate_audio_duration_try, _calculate_from_file. simpl.
    destruct (String.eqb path ""); simpl.
    + eexists. reflexivity.
    + rewrite Hstat. simpl. eexists. reflexivity.
  - intros node Hne Hstat Hfile Hsize.
    rewrite calculate_audio_duration_unfold.
    unfold calculate_audio_duration_try, _calculate_from_file. simpl.
    apply String.eqb_neq in Hne. rewrite Hne. simpl.
    rewrite Hstat, Hfile, Hsize. reflexivity.
Qed.

Lemma missing_or_empty_file_error_tuple_witness :
  (exists msg,
     calculate_audio_duration demo_env (PStr "/music/gone.mp3") "auto" 3 true
       (-60)%Q =
     (0%Q, "00:00:00.000", "error: " ++ msg, empty_json))
  /\ calculate_audio_duration demo_env (PStr "/music/c.flac") "auto" 3 true
       (-60)%Q =
     (0%Q, "00:00:00.000", "error: Аудио файл пустой", empty_json).
Proof.
  split.
  - apply (missing_or_empty_file_error_tuple demo_env "/music/gone.mp3").
    reflexivity.
  - apply (proj2 (missing_or_empty_file_error_tuple demo_env "/music/c.flac"
                    "auto" 3 true (-60)%Q) (FsNode true 0));
      [discriminate | reflexivity | reflexivity | reflexivity].
Defined.

(** *** Sections of the metadata record *)

Import DVA_Audio_Metadata_Extractor.

Lemma extract_all_metadata_toggles_off (E : env) (path : string)
    (node : fsnode) (modified : string) :
  stat E path = Some node ->
  getmtime_iso E path = Return modified ->
  _extract_all_metadata E (PStr path) false false false =
  Return
    [("file_info", PDict
        [("path", PStr path);
         ("name", PStr (basename path));
         ("size_bytes", PInt (st_size node));
         ("size_mb",
          PFloat (round (inject_Z (st_size node) / inject_Z (1024 * 1024)) 2));
         ("modified", PStr modified)])].
Proof.
  intros Hstat Hmtime. unfold _extract_all_metadata, getsize. simpl.
  rewrite Hstat. simpl. rewrite Hmtime. reflexivity.
Qed.

Lemma extract_all_metadata_mtime_raises (E : env) (path : string)
    (node : fsnode) (e : exn) (f t g : bool) :
  stat E path = Some node ->
  getmtime_iso E path = Raise e ->
  _extract_all_metadata E (PStr path) f t g = Raise e.
Proof.
  intros Hstat Hmtime. unfold _extract_all_metadata, getsize. simpl.
  rewrite Hstat. simpl. rewrite Hmtime. reflexivity.
Qed.

(** C9.  For a path at which a file exists, given as a string or as the
    record of the loader node, extraction with the three toggles off
    returns a record whose only section is [file_info], with no
    [format], no [technical] and no [tags] section, when the modification
    time of the file can be read and turned into a date.  When that
    raises, the node answers with its error tuple, whose record [{}] has
    no [file_info] section either. *)
Theorem toggles_off_only_file_info (E : env) (path : string) (node : fsnode) :
  path <> "" -> stat E path = Some node ->
  (forall modified, getmtime_iso E path = Return modified ->
     exists md summary,
       extract_audio_metadata E (PStr path) false false false
         = (JsonOf (PDict md), summary, PStr "unknown", 0%Q)
       /\ extract_audio_metadata E (PDict [("file_path", PStr path)])
            false false false
          = (JsonOf (PDict md), summary, PStr "unknown", 0%Q)
       /\ dict_keys md = ["file_info"]
       /\ dict_get "format" md = None
       /\ dict_get "technical" md = None
       /\ dict_get "tags" md = None)
  /\ (forall e, getmtime_iso E path = Raise e ->
        extract_audio_metadata E (PStr path) false false false
          = (JsonOf (PDict []), "Error: " ++ exn_str e, PStr "error", 0%Q)
        /\ extract_audio_metadata E (PDict [("file_path", PStr path)])
             false false false
           = (JsonOf (PDict []), "Error: " ++ exn_str e, PStr "error", 0%Q)).
Proof.
  intros Hne Hstat. apply String.eqb_neq in Hne.
  assert (Hexists : path_exists E path = true)
    by (unfold path_exists; now rewrite Hstat).
  split.
  - intros modified Hmtime. eexists. eexists.
    unfold extract_audio_metadata, extract_audio_metadata_try, _get_audio_path.
    simpl. rewrite Hexists, Hne. simpl. rewrite Hstat. simpl.
    rewrite (extract_all_metadata_toggles_off _ _ _ _ Hstat Hmtime). simpl.
    rewrite ?Hne, ?Hstat. simpl.
    repeat split.
  - intros e Hmtime.
    pose proof (extract_all_metadata_mtime_raises E path node e false false
                  false Hstat Hmtime) as Hraises.
    unfold extract_audio_metadata, extract_audio_metadata_try, _get_audio_path.
    simpl.
    repeat (progress (rewrite ?Hexists, ?Hne, ?Hstat, ?Hraises; simpl)).
    split; reflexivity.
Qed.

Lemma toggles_off_only_file_info_witness :
  (exists md summary,
     extract_audio_metadata demo_env (PStr "/music/a.mp3") false false false
       = (JsonOf (PDict md), summary, PStr "unknown", 0%Q)
     /\ extract_audio_metadata demo_env
          (PDict [("file_path", PStr "/music/a.mp3")]) false false false
        = (JsonOf (PDict md), summary, PStr "unknown", 0%Q)
     /\ dict_keys md = ["file_info"]
     /\ dict_get "format" md = None
     /\ dict_get "technical" md = None
     /\ dict_get "tags" md = None)
  /\ extract_audio_metadata stale_env (PStr "/music/b.wav") false false false
     = (JsonOf (PDict []), "Error: year 60000 is out of range", PStr "error",
        0%Q)
  /\ extract_audio_metadata stale_env (PDict [("file_path", PStr "/music/b.wav")])
       false false false
     = (JsonOf (PDict []), "Error: year 60000 is out of range", PStr "error",
        0%Q).
Proof.
  split.
  - apply (proj1 (toggles_off_only_file_info demo_env "/music/a.mp3"
                    (FsNode true 88200) ltac:(discriminate) eq_refl)
             "2024-01-01T12:00:00").
    reflexivity.
  - apply (proj2 (toggles_off_only_file_info stale_env "/music/b.wav"
                    (FsNode true 352800) ltac:(discriminate) eq_refl)
             (Exn ValueError "year 60000 is out of range")).
    reflexivity.
Defined.

(** C9, counterexample: an existing file that is answered without
    [file_info].  Its modification time cannot be turned into a date,
    and the node returns the empty record beside the message of the
    exception. *)
Lemma existing_file_without_file_info :
  stat stale_env "/music/b.wav" = Some (FsNode true 352800)
  /\ extract_audio_metadata stale_env (PStr "/music/b.wav") false false false
     = (JsonOf (PDict []), "Error: year 60000 is out of range", PStr "error",
        0%Q).
Proof. split; reflexivity. Qed.

(** *** Batch processing: the per-file records *)

Import DVA_Audio_Batch_Processor.

Lemma json_dumps_Return (v : pyval) (j : json_text) :
  json_dumps v = Return j -> serializable (json_value j) = true.
Proof.
  unfold json_dumps. destruct (serializable v) eqn:Hv; [|discriminate].
  now intros [= <-].
Qed.

Ltac invert_return H :=
  repeat (cbv beta zeta in H;
          match type of H with
          | bind _ _ = Return _ =>
              let x := fresh "x" in
              let Hx := fresh "Hx" in
              apply bind_Return in H; destruct H as [x [Hx H]]
          | match ?c with _ => _ end = Return _ => destruct c eqn:?
          | Raise _ = Return _ => discriminate H
          end).

(** What the metadata node returns as its first component can be read
    back by [json.loads]. *)
Lemma extract_audio_metadata_serializable (E : env) (audio : pyval)
    (f t g : bool) :
  serializable
    (json_value (fst (fst (fst (extract_audio_metadata E audio f t g))))) = true.
Proof.
  unfold extract_audio_metadata.
  destruct (extract_audio_metadata_try E audio f t g) as [r|e] eqn:H;
    simpl; [|reflexivity].
  unfold extract_audio_metadata_try in H.
  invert_return H;
    injection H as <-; simpl;
    try reflexivity;
    match goal with
    | Hd : json_dumps _ = Return ?j |- serializable (json_value ?j) = true =>
        exact (json_dumps_Return _ _ Hd)
    end.
Qed.

(** The record of one file in the loop of [process_audio_batch]. *)
Lemma file_record_facts (E : env) (audio_file operation : string) :
  serializable
    (PDict (try_except (_process_single_file E audio_file operation)
                       (failed_record audio_file))) = true
  /\ (forall v,
        dict_get "duration_seconds"
          (try_except (_process_single_file E audio_file operation)
                      (failed_record audio_file)) = Some v ->
        exists q, v = PFloat q)
  /\ dict_get "file"
       (try_except (_process_single_file E audio_file operation)
                   (failed_record audio_file)) = Some (PStr audio_file)
  /\ is_success
       (try_except (_process_single_file E audio_file operation)
                   (failed_record audio_file)) = path_exists E audio_file.
Proof.
  unfold _process_single_file, getsize, path_exists.
  destruct (stat E audio_file) as [node|]; simpl.
  - destruct (wants_duration operation), (wants_metadata operation); simpl;
      rewrite ?extract_audio_metadata_serializable;
      (split; [reflexivity|]);
      (split; [|split; reflexivity]);
      intros v Hv; try discriminate Hv;
      injection Hv as <-; eexists; reflexivity.
  - split; [reflexivity|]. split; [discriminate|]. split; reflexivity.
Qed.

Lemma sum_durations_returns (results : list (list (string * pyval))) :
  Forall (fun r => forall v, dict_get "duration_seconds" r = Some v ->
                             exists q, v = PFloat q) results ->
  forall acc, exists total, sum_durations results acc = Return total.
Proof.
  induction 1 as [|r rest Hr _ IH]; intros acc; simpl.
  - now exists acc.
  - destruct (dict_get "duration_seconds" r) as [v|]; [|apply IH].
    destruct (Hr v eq_refl) as [q ->]. simpl. apply IH.
Qed.

Lemma process_files_length (E : env) (files : list string) (operation : string) :
  length (process_files E files operation) = length files.
Proof. unfold process_files. apply length_map. Qed.

Lemma process_files_file (E : env) (files : list string) (operation : string) :
  map (dict_get "file") (process_files E files operation)
  = map (fun f => Some (PStr f)) files.
Proof.
  unfold process_files. rewrite map_map. apply map_ext.
  intros f. apply file_record_facts.
Qed.

(** The success count is the number of files whose processing did not
    raise, which it does only when the file is gone. *)
Lemma successful_process_files (E : env) (files : list string)
    (operation : string) :
  successful (process_files E files operation)
  = length (filter (path_exists E) files).
Proof.
  unfold successful, process_files.
  induction files as [|f rest IH]; [reflexivity|]. simpl.
  destruct (file_record_facts E f operation) as [_ [_ [_ ->]]].
  destruct (path_exists E f); simpl; now rewrite IH.
Qed.

Lemma successful_le_length (results : list (list (string * pyval))) :
  (successful results <= length results)%nat.
Proof. unfold successful. apply filter_length_le. Qed.

Lemma serializable_records (E : env) (files : list string) (operation : string) :
  serializable (PList (map PDict (process_files E files operation))) = true.
Proof.
  unfold process_files. simpl. rewrite map_map. apply forallb_forall.
  intros v Hv. apply in_map_iff in Hv. destruct Hv as [f [<- _]].
  apply file_record_facts.
Qed.

Lemma serializable_paths (files : list string) :
  serializable (PList (map PStr files)) = true.
Proof.
  simpl. apply forallb_forall. intros v Hv.
  apply in_map_iff in Hv. now destruct Hv as [f [<- _]].
Qed.

Lemma append_empty_r (s : string) : s ++ "" = s.
Proof. induction s as [|c s IH]; simpl; [reflexivity | now rewrite IH]. Qed.

Lemma create_batch_summary_returns (E : env) (files : list string)
    (operation : string) :
  exists rest,
    _create_batch_summary (process_files E files operation) operation
    = Return (processed (successful (process_files E files operation))
                        (length files) ++ rest).
Proof.
  unfold _create_batch_summary. rewrite process_files_length.
  destruct (wants_duration operation).
  - destruct (sum_durations_returns (process_files E files operation))
      with (acc := 0%Q) as [total ->].
    + unfold process_files. apply Forall_forall. intros r Hr.
      apply in_map_iff in Hr. destruct Hr as [f [<- _]].
      apply file_record_facts.
    + simpl. eexists. reflexivity.
  - exists "". now rewrite append_empty_r.
Qed.

(** What [process_audio_batch] returns when the directory is there and
    files are found. *)
Lemma process_audio_batch_found (E : env) (directory pattern operation : string)
    (recursive : bool) :
  directory <> "" -> path_isdir E directory = true ->
  _find_audio_files E directory pattern recursive <> [] ->
  exists rest,
    process_audio_batch E directory pattern operation recursive
    = (JsonOf (PList (map PDict
         (process_files E (_find_audio_files E directory pattern recursive)
            operation))),
       processed
         (successful
            (process_files E (_find_audio_files E directory pattern recursive)
               operation))
         (length (_find_audio_files E directory pattern recursive)) ++ rest,
       JsonOf (PList (map PStr
         (_find_audio_files E directory pattern recursive)))).
Proof.
  intros Hne Hdir Hfiles.
  unfold process_audio_batch, process_audio_batch_try.
  apply String.eqb_neq in Hne. rewrite Hne, Hdir. simpl.
  destruct (_find_audio_files E directory pattern recursive) as [|f fs] eqn:Hf;
    [congruence|].
  destruct (create_batch_summary_returns E (f :: fs) operation) as [rest ->].
  exists rest. cbn [bind]. unfold json_dumps.
  rewrite serializable_records, serializable_paths. reflexivity.
Qed.

Lemma append_assoc (a b c : string) : (a ++ b) ++ c = a ++ b ++ c.
Proof. induction a as [|x a IH]; simpl; [reflexivity | now rewrite IH]. Qed.

Lemma sorted_set_facts (l : list string) :
  length (sorted_set l) = length (nodup string_dec l)
  /\ NoDup (sorted_set l)
  /\ Sorted (fun a b => String.leb a b = true) (sorted_set l)
  /\ (forall f, In f (sorted_set l) <-> In f l).
Proof.
  unfold sorted_set.
  pose proof (StringSort.Permuted_sort (nodup string_dec l)) as Hperm.
  split; [symmetry; apply (Permutation_length Hperm)|].
  split; [apply (Permutation_NoDup Hperm), NoDup_nodup|].
  split; [apply StringSort.Sorted_sort|].
  intros f. rewrite <- (nodup_In string_dec l f). split.
  - exact (Permutation_in f (Permutation_sym Hperm)).
  - exact (Permutation_in f Hperm).
Qed.

(** *** The files a scan finds *)









(** The four entries of the demo directory, of which three are found. *)
Example demo_directory_scan :
  os_walk demo_env "/music"
    = [("/music", ["a.mp3"; "b.wav"; "c.flac"; "notes.txt"])]
  /\ _find_audio_files demo_env "/music" "*.mp3, *.wav, *.flac" true
     = ["/music/a.mp3"; "/music/b.wav"; "/music/c.flac"]
  /\ _find_audio_files demo_env "/music" "*.mp3, *.wav, *.flac" false
     = ["/music/a.mp3"; "/music/b.wav"; "/music/c.flac"].
Proof. repeat split; reflexivity. Qed.

(** The patterns are stripped of white space of every kind: here of a
    tab, of a no-break space (U+00A0) and of an ideographic space
    (U+3000). *)
Example patterns_are_stripped :
  strip (String (ascii_of_nat 9)
           (String (ascii_of_nat 194) (String (ascii_of_nat 160)
              ("*.mp3" ++ String (ascii_of_nat 227)
                            (String (ascii_of_nat 128)
                               (String (ascii_of_nat 128) " "))))))
  = "*.mp3"
  /\ strip "  a b  " = "a b"
  /\ strip " " = "".
Proof. repeat split; reflexivity. Qed.

(** C10.  The record of a file has the status ["success"] whenever its
    processing returns, which it does whenever the file is there; this
    holds also when the duration node answered with its error tuple, the
    record then carrying a duration of 0.0.  The status ["failed"] is
    that of a file whose processing raised, and of no other.  So the
    count in the summary is the number of files that were there. *)
Theorem batch_status_success_unless_processing_raises (E : env)
    (audio_file operation : string) :
  (forall r, _process_single_file E audio_file operation = Return r ->
             dict_get "status" r = Some (PStr "success"))
  /\ (forall node, stat E audio_file = Some node ->
        exists r, _process_single_file E audio_file operation = Return r)
  /\ (forall node,
        stat E audio_file = Some node ->
        wants_duration operation = true ->
        status (calculate_audio_duration E
                  (PDict [("file_path", PStr audio_file)]) "auto" 3 true
                  (-60)%Q) <> "success" ->
        exists r,
          _process_single_file E audio_file operation = Return r
          /\ dict_get "duration_seconds" r = Some (PFloat 0)
          /\ dict_get "duration_formatted" r = Some (PStr "00:00:00.000")
          /\ dict_get "status" r = Some (PStr "success")
          /\ successful (process_files E [audio_file] operation) = 1%nat)
  /\ (dict_get "status"
        (try_except (_process_single_file E audio_file operation)
                    (failed_record audio_file)) = Some (PStr "failed")
      <-> exists e, _process_single_file E audio_file operation = Raise e)
  /\ (forall files,
        successful (process_files E files operation)
        = length (filter (path_exists E) files)).
Proof.
  refine (conj _ (conj _ (conj _ (conj _ _)))).
  - unfold _process_single_file, getsize.
    destruct (stat E audio_file); simpl; [|discriminate].
    destruct (wants_duration operation), (wants_metadata operation);
      intros r [= <-]; reflexivity.
  - intros node Hstat. unfold _process_single_file, getsize.
    rewrite Hstat. simpl. eexists. reflexivity.
  - intros node Hstat Hwants Hstatus.
    destruct (calculate_audio_duration_shape E (fun _ => True) I
                (fun _ _ _ => I) (fun _ _ _ _ => I) (fun _ _ _ _ _ => I)
                (PDict [("file_path", PStr audio_file)]) "auto" 3 true (-60)%Q)
      as [_ [Hs | [msg Hmsg]]]; [contradiction|].
    assert (Hex : path_exists E audio_file = true)
      by (unfold path_exists; now rewrite Hstat).
    rewrite successful_process_files. simpl. rewrite Hex.
    unfold _process_single_file, getsize. rewrite Hstat, Hwants, Hmsg. simpl.
    destruct (wants_metadata operation); eexists; repeat split.
  - unfold _process_single_file, getsize.
    destruct (stat E audio_file); simpl.
    + split; [|intros [e He]; discriminate He].
      destruct (wants_duration operation), (wants_metadata operation);
        discriminate.
    + split; [eexists; reflexivity | reflexivity].
  - intros files. apply successful_process_files.
Qed.

Lemma batch_status_success_unless_processing_raises_witness :
  exists r,
    _process_single_file demo_env "/music/c.flac" "duration" = Return r
    /\ dict_get "duration_seconds" r = Some (PFloat 0)
    /\ dict_get "duration_formatted" r = Some (PStr "00:00:00.000")
    /\ dict_get "status" r = Some (PStr "success")
    /\ successful (process_files demo_env ["/music/c.flac"] "duration") = 1%nat.
Proof.
  apply (proj1 (proj2 (proj2
           (batch_status_success_unless_processing_raises demo_env
              "/music/c.flac" "duration"))) (FsNode true 0));
    [reflexivity | reflexivity | discriminate].
Defined.

(** *** Formatting of durations *)

Lemma pymod_bounds (x y : Q) :
  (0 < y)%Q -> (0 <= pymod x y)%Q /\ (pymod x y < y)%Q.
Proof.
  intros Hy. unfold pymod, floordiv. rewrite Qred_correct.
  pose proof (Qfloor_le (x / y)) as Hle.
  pose proof (Qlt_floor (x / y)) as Hlt.
  set (f := Qfloor (x / y)) in *.
  assert (Hxy : (x / y * y == x)%Q).
  { unfold Qdiv. rewrite <- Qmult_assoc, (Qmult_comm (/ y)), Qmult_inv_r.
    - apply Qmult_1_r.
    - intros H0. rewrite H0 in Hy. exact (Qlt_irrefl _ Hy). }
  apply (Qmult_le_r _ _ y Hy) in Hle. rewrite Hxy in Hle.
  apply (Qmult_lt_r _ _ y Hy) in Hlt. rewrite Hxy in Hlt.
  rewrite inject_Z_plus in Hlt. change (inject_Z 1) with 1%Q in Hlt.
  clear Hxy. clearbody f. generalize dependent (inject_Z f). intros g Hle Hlt.
  split; nra.
Qed.

Lemma floordiv_range (x y : Q) (k : Z) :
  (0 < y)%Q -> (0 <= x)%Q -> (x < inject_Z k * y)%Q ->
  0 <= floordiv x y < k.
Proof.
  intros Hy Hx Hk. unfold floordiv.
  assert (H0 : (0 <= x / y)%Q).
  { apply Qle_shift_div_l; [exact Hy | lra]. }
  assert (H1 : (x / y < inject_Z k)%Q).
  { apply Qlt_shift_div_r; [exact Hy | exact Hk]. }
  split.
  - change 0 with (Qfloor 0). now apply Qfloor_resp_le.
  - pose proof (Qfloor_le (x / y)) as Hle.
    rewrite Zlt_Qlt. lra.
Qed.

Lemma round_half_even_range (q : Q) (k : Z) :
  (0 <= q)%Q -> (q <= inject_Z k)%Q -> 0 <= round_half_even q <= k.
Proof.
  intros H0 Hk. unfold Qle in *. simpl in *.
  unfold round_half_even.
  set (n := Qnum q) in *. set (d := Z.pos (Qden q)) in *.
  assert (Hd : 0 < d) by (unfold d; lia).
  pose proof (Z.div_mod n d ltac:(lia)) as Hdm.
  pose proof (Z.mod_pos_bound n d Hd) as Hr.
  assert (Hf : 0 <= n / d) by (apply Z.div_pos; lia).
  assert (Hfk : n / d <= k) by (apply Z.div_le_upper_bound; lia).
  destruct (2 * (n mod d) ?= d) eqn:Hc.
  - apply Z.compare_eq in Hc. destruct (Z.even (n / d)); [lia|]. nia.
  - lia.
  - apply Z.compare_gt_iff in Hc. nia.
Qed.

Lemma forallb_below (f : Z -> bool) (n : nat) :
  forallb f (map Z.of_nat (seq 0 n)) = true ->
  forall z, 0 <= z < Z.of_nat n -> f z = true.
Proof.
  intros H z Hz. rewrite forallb_forall in H. apply H.
  rewrite <- (Z2Nat.id z) by lia. apply in_map, in_seq. lia.
Qed.

Lemma minutes_shape (m : Z) : 0 <= m < 60 -> is_MM (fmt_0d 2 m) = true.
Proof.
  apply (forallb_below (fun m => is_MM (fmt_0d 2 m)) 60). vm_compute. reflexivity.
Qed.

Lemma millis_shape (m : Z) : 0 <= m < 1000 -> is_mmm (zfill 3 (dec m)) = true.
Proof.
  apply (forallb_below (fun m => is_mmm (zfill 3 (dec m))) 1000).
  vm_compute. reflexivity.
Qed.

Lemma whole_seconds_shape (m : Z) :
  0 <= m < 61 ->
  is_MM (zfill 2 (dec m)) = true
  /\ ((String.length (dec m) =? 1)%nat || (String.length (dec m) =? 2)%nat) = true.
Proof.
  intros H.
  apply andb_true_iff.
  apply (forallb_below
           (fun m => is_MM (zfill 2 (dec m))
                     && ((String.length (dec m) =? 1)%nat
                         || (String.length (dec m) =? 2)%nat)) 61);
    [vm_compute; reflexivity | exact H].
Qed.

Lemma zfill_seconds (w f : string) :
  ((String.length w =? 1)%nat || (String.length w =? 2)%nat) = true ->
  is_MM (zfill 2 w) = true -> is_mmm f = true ->
  is_SS_mmm (zfill 6 (w ++ "." ++ f)) = true.
Proof.
  destruct f as [|f1 [|f2 [|f3 [|f4 f]]]]; try discriminate.
  destruct w as [|w1 [|w2 [|w3 w]]]; try discriminate;
    cbn [zfill zeros String.length Nat.sub append is_SS_mmm is_MM is_mmm];
    intros _ Hw Hf;
    repeat match goal with
           | H : _ && _ = true |- _ => apply andb_true_iff in H; destruct H
           end;
    repeat match goal with
           | H : is_digit _ = true |- _ => rewrite ?H; clear H
           end;
    reflexivity.
Qed.

Lemma seconds_shape (m : Z) :
  0 <= m <= 60000 -> is_SS_mmm (zfill 6 (fixed_digits 3 m)) = true.
Proof.
  intros H. unfold fixed_digits. change (10 ^ Z.of_nat 3) with 1000.
  assert (Hq : 0 <= m / 1000 < 61).
  { split; [apply Z.div_pos; lia | apply Z.div_lt_upper_bound; lia]. }
  destruct (whole_seconds_shape _ Hq) as [Hw Hlen].
  apply zfill_seconds; [exact Hlen | exact Hw |].
  apply millis_shape. apply Z.mod_pos_bound. lia.
Qed.

Lemma join_shape (a b : string) :
  is_MM a = true -> is_SS_mmm b = true -> is_MM_SS_mmm (a ++ ":" ++ b) = true.
Proof.
  destruct a as [|a1 [|a2 [|a3 a]]]; try discriminate.
  cbn [append is_MM is_MM_SS_mmm]. intros Ha ->.
  now rewrite Ha.
Qed.

Lemma format_duration_below_an_hour (s : Q) :
  (0 < s)%Q -> floordiv s 3600%Q = 0 ->
  is_MM_SS_mmm (_format_duration s) = true.
Proof.
  intros Hs Hh. unfold _format_duration.
  destruct (Qle_bool s 0) eqn:Hle.
  - apply Qle_bool_iff in Hle. exfalso. exact (Qlt_not_le _ _ Hs Hle).
  - rewrite Hh. cbn [Z.ltb Z.compare].
    destruct (pymod_bounds s 3600%Q eq_refl) as [Hm0 Hm1].
    destruct (pymod_bounds s 60%Q eq_refl) as [Hs0 Hs1].
    apply join_shape.
    + apply minutes_shape. apply floordiv_range; [reflexivity | exact Hm0 |].
      exact Hm1.
    + unfold fmt_0f.
      replace (Qltb (pymod s 60%Q) 0) with false.
      * apply seconds_shape. apply round_half_even_range.
        -- apply Qmult_le_0_compat; [apply Qabs_nonneg | apply pow10_nonneg].
        -- rewrite (Qabs_pos _ Hs0).
           change (inject_Z 60000) with (60 * pow10 (Z.of_nat 3))%Q.
           apply Qmult_le_compat_r; [now apply Qlt_le_weak | apply pow10_nonneg].
      * symmetry. unfold Qltb. apply negb_false_iff. now apply Qle_bool_iff.
Qed.

(** C7.  Zero seconds are formatted as ["00:00:00.000"]; five seconds
    and a half as ["00:05.500"]; and every positive duration whose hour
    component is zero is formatted without the hour field, in the form
    [MM:SS.mmm]. *)
Theorem format_duration_zero_and_below_an_hour :
  _format_duration 0%Q = "00:00:00.000"
  /\ _format_duration (11 # 2)%Q = "00:05.500"
  /\ (forall s : Q,
        (0 < s)%Q -> floordiv s 3600%Q = 0 ->
        is_MM_SS_mmm (_format_duration s) = true).
Proof.
  split; [reflexivity|]. split; [reflexivity|].
  exact format_duration_below_an_hour.
Qed.

Lemma format_duration_zero_and_below_an_hour_witness :
  is_MM_SS_mmm (_format_duration (501 # 4)%Q) = true.
Proof.
  apply (proj2 (proj2 format_duration_zero_and_below_an_hour)); reflexivity.
Defined.

(* ================================================================== *)
(** ** Further properties of the duration node                        *)
(* ================================================================== *)







(** X2.  [None], numbers, booleans, bare objects, the empty list and a
    dictionary with neither a ["waveform"] nor a ["file_path"] key are
    answered with the error tuple naming the type of the input. *)
Theorem unsupported_input_error (E : env) (audio : pyval) (mode : string)
    (prec : Z) (inc : bool) (thr : Q) :
  match audio with
  | PNone | PBool _ | PInt _ | PFloat _ | PObject | PList [] => True
  | PDict d => dict_get "waveform" d = None /\ dict_get "file_path" d = None
  | _ => False
  end ->
  calculate_audio_duration E audio mode prec inc thr
  = (0%Q, "00:00:00.000",
     "error: Неподдерживаемый тип аудио данных: " ++ type_repr audio,
     empty_json).
Proof.
  intros H. rewrite calculate_audio_duration_unfold.
  destruct audio as [ | b | z | q | s | t | [|first rest] | d | ];
    try contradiction; try reflexivity.
  destruct H as [Hw Hf]. simpl. rewrite Hw, Hf. reflexivity.
Qed.


Lemma unsupported_input_error_witness :
  calculate_audio_duration bare_env (PDict [("filename", PStr "a.mp3")])
    "auto" 3 true (-60)%Q
  = (0%Q, "00:00:00.000",
     "error: Неподдерживаемый тип аудио данных: <class 'dict'>", empty_json).
Proof.
  apply (unsupported_input_error bare_env (PDict [("filename", PStr "a.mp3")])).
  split; reflexivity.
Defined.

Lemma serializable_shape (sh : list N) :
  forallb serializable (map (fun n => PInt (Z.of_N n)) sh) = true.
Proof. induction sh as [|n sh IH]; simpl; [reflexivity | exact IH]. Qed.

(** X3.  A tensor handed over directly is measured at 24000 samples per
    second: duration, formatted duration and status are those of the
    dictionary that holds the tensor as ["waveform"] and no
    ["sample_rate"]. *)
Theorem direct_tensor_uses_default_rate (E : env) (t : tensor)
    (d : list (string * pyval)) (mode : string) (prec : Z) (inc : bool)
    (thr : Q) :
  dict_get "waveform" d = Some (PTensor t) ->
  dict_get "sample_rate" d = None ->
  fst (calculate_audio_duration E (PTensor t) mode prec inc thr)
  = fst (calculate_audio_duration E (PDict d) mode prec inc thr).
Proof.
  intros Hw Hr. rewrite !calculate_audio_duration_unfold. simpl.
  rewrite Hw. unfold dict_get_default. rewrite Hr.
  destruct (_calculate_duration_from_tensor (PTensor t) (PInt 24000))
    as [x|e]; [|reflexivity].
  unfold json_dumps. simpl. rewrite serializable_shape. reflexivity.
Qed.

Lemma direct_tensor_uses_default_rate_witness :
  fst (calculate_audio_duration bare_env (PTensor (Tensor [48000%N] 4%N))
         "auto" 3 true (-60)%Q)
  = fst (calculate_audio_duration bare_env
           (PDict [("waveform", PTensor (Tensor [48000%N] 4%N))])
           "auto" 3 true (-60)%Q).
Proof.
  apply (direct_tensor_uses_default_rate bare_env (Tensor [48000%N] 4%N)
           [("waveform", PTensor (Tensor [48000%N] 4%N))]); reflexivity.
Defined.

Lemma last_cons_default (r : list N) :
  forall a d, last (a :: r) d = last r a.
Proof.
  induction r as [|b r IH]; intros a d; [reflexivity|].
  change (last (a :: b :: r) d) with (last (b :: r) d).
  now rewrite !IH.
Qed.

Lemma duration_from_shape_dimension (t : tensor) (sample_rate : pyval) (n : N) :
  sample_dimension (shape t) = Some n ->
  duration_from_shape (PTensor t) sample_rate
  = duration_tail (Z.of_N n) sample_rate.
Proof.
  destruct t as [sh es]. simpl.
  destruct sh as [|a [|b [|c [|d [|e rest]]]]]; simpl; try discriminate;
    try (intros [= <-]; unfold duration_from_shape; simpl;
         try destruct (Z.of_N a <=? 2); reflexivity).
  intros [= <-]. unfold duration_from_shape.
  set (t := {| shape := a :: b :: c :: d :: e :: rest; element_size := es |}).
  assert (Hdim : dim t = Z.of_nat (length rest) + 5)
    by (unfold dim; simpl length; lia).
  cbn [tensor_of bind]. rewrite Hdim.
  repeat match goal with
         | |- context [?x =? ?y] => destruct (Z.eqb_spec x y); [lia|]
         end.
  reflexivity.
Qed.

Lemma tensor_duration_by_dimension (t : tensor) (sample_rate : pyval) (R : Q)
    (n : N) :
  as_number sample_rate = Some R -> (0 < R)%Q ->
  sample_dimension (shape t) = Some n ->
  exists d, _calculate_duration_from_tensor (PTensor t) sample_rate = Return d
            /\ (d == inject_Z (Z.of_N n) / R)%Q.
Proof.
  intros Hv HR Hn.
  destruct (duration_of_samples (Z.of_N n) sample_rate R Hv HR ltac:(lia))
    as [d [Hd Hq]].
  exists d. split; [|exact Hq].
  apply duration_from_shape_returns.
  now rewrite (duration_from_shape_dimension _ _ _ Hn).
Qed.

(** X4.  At a positive sample rate [R] a buffer of rank 3 or of rank 4
    lasts its third dimension divided by [R], and a buffer of rank 5 or
    more its last dimension divided by [R]. *)
Theorem tensor_duration_higher_ranks (t : tensor) (sample_rate : pyval)
    (R : Q) :
  as_number sample_rate = Some R -> (0 < R)%Q ->
  (forall a b c, shape t = [a; b; c] ->
     exists d, _calculate_duration_from_tensor (PTensor t) sample_rate = Return d
               /\ (d == inject_Z (Z.of_N c) / R)%Q)
  /\ (forall a b c e, shape t = [a; b; c; e] ->
     exists d, _calculate_duration_from_tensor (PTensor t) sample_rate = Return d
               /\ (d == inject_Z (Z.of_N c) / R)%Q)
  /\ ((5 <= length (shape t))%nat ->
     exists d, _calculate_duration_from_tensor (PTensor t) sample_rate = Return d
               /\ (d == inject_Z (Z.of_N (last (shape t) 0%N)) / R)%Q).
Proof.
  intros Hv HR. refine (conj _ (conj _ _)).
  - intros a b c Hs. apply (tensor_duration_by_dimension _ _ _ _ Hv HR).
    now rewrite Hs.
  - intros a b c e Hs. apply (tensor_duration_by_dimension _ _ _ _ Hv HR).
    now rewrite Hs.
  - intros Hlen. apply (tensor_duration_by_dimension _ _ _ _ Hv HR).
    destruct (shape t) as [|a [|b [|c [|e [|f rest]]]]]; simpl in Hlen;
      try lia.
    cbn [sample_dimension]. f_equal. symmetry. apply last_cons_default.
Qed.

Lemma tensor_duration_higher_ranks_witness :
  exists d,
    _calculate_duration_from_tensor
      (PTensor (Tensor [1%N; 2%N; 44100%N] 4%N)) (PInt 44100) = Return d
    /\ (d == inject_Z 44100 / inject_Z 44100)%Q.
Proof.
  apply (proj1 (tensor_duration_higher_ranks (Tensor [1%N; 2%N; 44100%N] 4%N)
                  (PInt 44100) (inject_Z 44100) eq_refl eq_refl)
           1%N 2%N 44100%N eq_refl).
Defined.

(** X5.  The ["total_samples"] of the metadata is the sample count the
    duration is computed from at every rank but 4: there the duration
    comes from the third dimension and ["total_samples"] is the
    fourth. *)
Theorem total_samples_and_duration (t : tensor) (sample_rate : pyval) (R : Q) :
  as_number sample_rate = Some R -> (0 < R)%Q ->
  (shape t <> [] -> length (shape t) <> 4%nat ->
     exists d, _calculate_duration_from_tensor (PTensor t) sample_rate = Return d
               /\ (d == inject_Z (_get_total_samples (PTensor t)) / R)%Q)
  /\ (forall a b c e, shape t = [a; b; c; e] ->
        _get_total_samples (PTensor t) = Z.of_N e
        /\ exists d,
             _calculate_duration_from_tensor (PTensor t) sample_rate = Return d
             /\ (d == inject_Z (Z.of_N c) / R)%Q).
Proof.
  intros Hv HR. split.
  - intros Hne Hlen.
    assert (Hn : exists n, sample_dimension (shape t) = Some n
                           /\ _get_total_samples (PTensor t) = Z.of_N n).
    { destruct t as [sh es]. simpl in *.
      destruct sh as [|a [|b [|c [|d [|e rest]]]]];
        try congruence; try (eexists; split; reflexivity).
      - exfalso. apply Hlen. reflexivity.
      - eexists. split; [reflexivity|].
        unfold _get_total_samples.
        set (t := {| shape := a :: b :: c :: d :: e :: rest;
                     element_size := es |}).
        assert (Hdim : dim t = Z.of_nat (length rest) + 5)
          by (unfold dim; simpl length; lia).
        cbn [tensor_of bind]. rewrite Hdim.
        repeat match goal with
               | |- context [?x =? ?y] => destruct (Z.eqb_spec x y); [lia|]
               end.
        reflexivity. }
    destruct Hn as [n [Hdim ->]].
    exact (tensor_duration_by_dimension _ _ _ _ Hv HR Hdim).
  - intros a b c e Hs. split.
    + destruct t as [sh es]. simpl in Hs. subst sh. reflexivity.
    + apply (tensor_duration_by_dimension _ _ _ _ Hv HR). now rewrite Hs.
Qed.

Lemma total_samples_and_duration_witness :
  _get_total_samples (PTensor (Tensor [1%N; 2%N; 48000%N; 1%N] 4%N)) = 1
  /\ exists d,
       _calculate_duration_from_tensor
         (PTensor (Tensor [1%N; 2%N; 48000%N; 1%N] 4%N)) (PInt 24000) = Return d
       /\ (d == inject_Z 48000 / inject_Z 24000)%Q.
Proof.
  apply (proj2 (total_samples_and_duration
                  (Tensor [1%N; 2%N; 48000%N; 1%N] 4%N) (PInt 24000)
                  (inject_Z 24000) eq_refl eq_refl)
           1%N 2%N 48000%N 1%N eq_refl).
Defined.

Lemma round_zero (ndigits : Z) : round 0 ndigits = 0%Q.
Proof. unfold round. destruct (0 <=? ndigits); reflexivity. Qed.

Lemma number_serializable (v : pyval) (q : Q) :
  as_number v = Some q -> serializable v = true.
Proof. destruct v; simpl; congruence. Qed.

(** X6.  A buffer with a sample rate that is a number but not positive
    is answered with a duration of zero under the status ["success"],
    not with an error. *)
Theorem nonpositive_rate_zero_success (E : env) (d : list (string * pyval))
    (t : tensor) (q : Q) (mode : string) (prec : Z) (inc : bool) (thr : Q) :
  dict_get "waveform" d = Some (PTensor t) -> shape t <> [] ->
  as_number (dict_get_default "sample_rate" (PInt 24000) d) = Some q ->
  (q <= 0)%Q ->
  fst (calculate_audio_duration E (PDict d) mode prec inc thr)
  = (0%Q, "00:00:00.000", "success").
Proof.
  intros Hw Hne Hq Hle. rewrite calculate_audio_duration_unfold. simpl.
  rewrite Hw.
  assert (Hd : _calculate_duration_from_tensor (PTensor t)
                 (dict_get_default "sample_rate" (PInt 24000) d) = Return 0%Q).
  { apply duration_from_shape_returns.
    destruct (duration_from_shape_tail t
                (dict_get_default "sample_rate" (PInt 24000) d) Hne) as [n ->].
    unfold duration_tail, py_positive. rewrite Hq.
    replace (Qltb 0 q) with false.
    - destruct (0 <? n); reflexivity.
    - symmetry. unfold Qltb. apply negb_false_iff. now apply Qle_bool_iff. }
  rewrite Hd. cbn [bind]. unfold json_dumps. simpl.
  rewrite (number_serializable _ _ Hq), serializable_shape. simpl.
  now rewrite round_zero.
Qed.

Lemma nonpositive_rate_zero_success_witness :
  fst (calculate_audio_duration bare_env
         (PDict [("waveform", PTensor (Tensor [2%N; 48000%N] 4%N));
                 ("sample_rate", PInt 0)]) "auto" 3 true (-60)%Q)
  = (0%Q, "00:00:00.000", "success").
Proof.
  apply (nonpositive_rate_zero_success bare_env
           [("waveform", PTensor (Tensor [2%N; 48000%N] 4%N));
            ("sample_rate", PInt 0)] (Tensor [2%N; 48000%N] 4%N) 0%Q);
    [reflexivity | discriminate | reflexivity | discriminate].
Defined.

(** X7.  A ["waveform"] that is no tensor, or a tensor of rank 0, makes
    the computation raise; the node answers with the error tuple whose
    message is that of the exception. *)
Theorem waveform_without_samples_error (E : env) (d : list (string * pyval))
    (w : pyval) (mode : string) (prec : Z) (inc : bool) (thr : Q) :
  dict_get "waveform" d = Some w ->
  match w with PTensor t => shape t = [] | _ => True end ->
  exists msg,
    calculate_audio_duration E (PDict d) mode prec inc thr
    = (0%Q, "00:00:00.000", "error: Исключение: " ++ msg, empty_json).
Proof.
  intros Hw Hshape. rewrite calculate_audio_duration_unfold. simpl.
  rewrite Hw.
  assert (He : exists e, _calculate_duration_from_tensor w
                 (dict_get_default "sample_rate" (PInt 24000) d) = Raise e).
  { destruct w as [ | | | | | t | | | ]; try (eexists; reflexivity).
    destruct t as [sh es]. simpl in Hshape. subst sh.
    eexists. reflexivity. }
  destruct He as [e ->]. exists (exn_str e). reflexivity.
Qed.

Lemma waveform_without_samples_error_witness :
  exists msg,
    calculate_audio_duration bare_env
      (PDict [("waveform", PTensor (Tensor [] 4%N))]) "auto" 3 true (-60)%Q
    = (0%Q, "00:00:00.000", "error: Исключение: " ++ msg, empty_json).
Proof.
  apply (waveform_without_samples_error bare_env
           [("waveform", PTensor (Tensor [] 4%N))] (PTensor (Tensor [] 4%N)));
    reflexivity.
Defined.

(** *** Rounding to a number of digits *)

Lemma round_half_even_near (q : Q) :
  (Qabs (inject_Z (round_half_even q) - q) * 2 <= 1)%Q.
Proof.
  destruct q as [n d]. unfold round_half_even. cbn [Qnum Qden].
  pose proof (Z.div_mod n (Z.pos d) ltac:(lia)) as Hdm.
  pose proof (Z.mod_pos_bound n (Z.pos d) ltac:(lia)) as Hr.
  set (f := n / Z.pos d) in *. set (r := n mod Z.pos d) in *.
  assert (Hk : forall k, 2 * Z.abs (k * Z.pos d - n) <= Z.pos d ->
                         (Qabs (inject_Z k - (n # d)) * 2 <= 1)%Q).
  { intros k Hk. unfold Qle, Qabs, Qminus, Qplus, Qopp, Qmult, inject_Z.
    cbn [Qnum Qden]. rewrite !Pos2Z.inj_mul.
    replace (k * Z.pos d + - n * 1) with (k * Z.pos d - n) by lia. lia. }
  apply Hk. clear Hk. clearbody f r. subst n.
  assert (Hdown : f * Z.pos d - (Z.pos d * f + r) = - r) by ring.
  assert (Hup : (f + 1) * Z.pos d - (Z.pos d * f + r) = Z.pos d - r) by ring.
  destruct (Z.compare_spec (2 * r) (Z.pos d)) as [Hc|Hc|Hc].
  - destruct (Z.even f); cbv iota; rewrite ?Hdown, ?Hup; clear Hdown Hup;
      rewrite ?Z.abs_opp, Z.abs_eq; lia.
  - rewrite Hdown. clear Hdown Hup. rewrite Z.abs_opp, Z.abs_eq; lia.
  - rewrite Hup. clear Hdown Hup. rewrite Z.abs_eq; lia.
Qed.

Lemma pow10_pos (k : Z) : 0 <= k -> (0 < pow10 k)%Q.
Proof.
  intros Hk. unfold pow10. change 0%Q with (inject_Z 0).
  rewrite <- Zlt_Qlt. apply Z.pow_pos_nonneg; lia.
Qed.

Lemma round_digits (x : Q) (ndigits : Z) :
  0 <= ndigits ->
  (round x ndigits * pow10 ndigits
   == inject_Z (round_half_even (x * pow10 ndigits)))%Q
  /\ (Qabs (round x ndigits - x) * (2 * pow10 ndigits) <= 1)%Q.
Proof.
  intros Hn. pose proof (pow10_pos _ Hn) as Hp.
  assert (Hp0 : ~ (pow10 ndigits == 0)%Q)
    by (intros H0; rewrite H0 in Hp; exact (Qlt_irrefl _ Hp)).
  unfold round. apply Z.leb_le in Hn. rewrite Hn.
  set (k := round_half_even (x * pow10 ndigits)).
  assert (Hmul : (Qred (inject_Z k / pow10 ndigits) * pow10 ndigits
                  == inject_Z k)%Q).
  { rewrite Qred_correct. unfold Qdiv.
    rewrite <- Qmult_assoc, (Qmult_comm (/ pow10 ndigits)), Qmult_inv_r
      by exact Hp0.
    apply Qmult_1_r. }
  split; [exact Hmul|].
  set (r := Qred (inject_Z k / pow10 ndigits)) in *.
  assert (Habs : (Qabs (r - x) * (2 * pow10 ndigits)
                  == Qabs (inject_Z k - x * pow10 ndigits) * 2)%Q).
  { assert (H1 : (inject_Z k - x * pow10 ndigits
                  == (r - x) * pow10 ndigits)%Q)
      by (rewrite <- Hmul; ring).
    rewrite H1, Qabs_Qmult, (Qabs_pos (pow10 ndigits))
      by now apply Qlt_le_weak.
    ring. }
  rewrite Habs. apply round_half_even_near.
Qed.

(** X8.  The duration returned for a buffer is the computed duration
    rounded to [time_precision] decimal digits: multiplied by
    [10^time_precision] it is a whole number, and it is no further than
    half a unit of the last digit from the computed duration. *)
Theorem buffer_duration_rounded_to_precision (E : env)
    (d : list (string * pyval)) (w : pyval) (q x : Q) (mode : string)
    (prec : Z) (inc : bool) (thr : Q) :
  dict_get "waveform" d = Some w ->
  as_number (dict_get_default "sample_rate" (PInt 24000) d) = Some q ->
  _calculate_duration_from_tensor w
    (dict_get_default "sample_rate" (PInt 24000) d) = Return x ->
  0 <= prec ->
  status (calculate_audio_duration E (PDict d) mode prec inc thr) = "success"
  /\ (exists k : Z,
        (duration_seconds (calculate_audio_duration E (PDict d) mode prec inc thr)
         * pow10 prec == inject_Z k)%Q)
  /\ (Qabs (duration_seconds
              (calculate_audio_duration E (PDict d) mode prec inc thr) - x)
      * (2 * pow10 prec) <= 1)%Q.
Proof.
  intros Hw Hq Hx Hprec.
  assert (Hcalc : calculate_audio_duration E (PDict d) mode prec inc thr
                  = (round x prec, _format_duration (round x prec), "success",
                     snd (calculate_audio_duration E (PDict d) mode prec inc thr))).
  { rewrite calculate_audio_duration_unfold. simpl. rewrite Hw, Hx.
    cbn [bind]. unfold json_dumps. simpl.
    rewrite (number_serializable _ _ Hq).
    destruct w as [ | | | | | t | | | ]; simpl;
      rewrite ?serializable_shape; reflexivity. }
  rewrite Hcalc. unfold status, duration_seconds. cbn [fst snd].
  destruct (round_digits x prec Hprec) as [Hmul Hnear].
  split; [reflexivity|]. split; [eexists; exact Hmul | exact Hnear].
Qed.

Lemma buffer_duration_rounded_to_precision_witness :
  status (calculate_audio_duration bare_env
            (PDict [("waveform", PTensor (Tensor [1000%N] 4%N));
                    ("sample_rate", PInt 3000)]) "auto" 3 true (-60)%Q)
  = "success"
  /\ (exists k : Z,
        (duration_seconds
           (calculate_audio_duration bare_env
              (PDict [("waveform", PTensor (Tensor [1000%N] 4%N));
                      ("sample_rate", PInt 3000)]) "auto" 3 true (-60)%Q)
         * pow10 3 == inject_Z k)%Q)
  /\ (Qabs (duration_seconds
              (calculate_audio_duration bare_env
                 (PDict [("waveform", PTensor (Tensor [1000%N] 4%N));
                         ("sample_rate", PInt 3000)]) "auto" 3 true (-60)%Q)
            - inject_Z 1000 / inject_Z 3000)
      * (2 * pow10 3) <= 1)%Q.
Proof.
  apply (buffer_duration_rounded_to_precision bare_env
           [("waveform", PTensor (Tensor [1000%N] 4%N));
            ("sample_rate", PInt 3000)]
           (PTensor (Tensor [1000%N] 4%N)) (inject_Z 3000));
    [reflexivity | reflexivity | reflexivity | lia].
Defined.

(** *** The silence options *)

Lemma forallb_serializable_similar (d d' : list (string * pyval)) :
  Forall2 (fun kv kv' => fst kv = fst kv'
                         /\ serializable (snd kv) = serializable (snd kv')) d d' ->
  forallb (fun kv => serializable (snd kv)) d
  = forallb (fun kv => serializable (snd kv)) d'.
Proof.
  induction 1 as [|kv kv' d d' [_ Hs] _ IH]; simpl; [reflexivity|].
  now rewrite Hs, IH.
Qed.

Lemma dict_set_similar (k : string) (v v' : pyval)
    (d d' : list (string * pyval)) :
  serializable v = serializable v' ->
  Forall2 (fun kv kv' => fst kv = fst kv'
                         /\ serializable (snd kv) = serializable (snd kv')) d d' ->
  Forall2 (fun kv kv' => fst kv = fst kv'
                         /\ serializable (snd kv) = serializable (snd kv'))
          (dict_set k v d) (dict_set k v' d').
Proof.
  intros Hv. induction 1 as [|[k1 v1] [k2 v2] d d' [Hk Hs] Hrest IH]; simpl.
  - constructor; [now split | constructor].
  - simpl in Hk, Hs. subst k2. destruct (String.eqb k k1).
    + constructor; [now split | exact Hrest].
    + constructor; [now split | exact IH].
Qed.

Lemma similar_refl (d : list (string * pyval)) :
  Forall2 (fun kv kv' => fst kv = fst kv'
                         /\ serializable (snd kv) = serializable (snd kv')) d d.
Proof. induction d; constructor; auto. Qed.

Lemma json_dumps_same_outcome (v v' : pyval) (a : Q * string * string) :
  serializable v = serializable v' ->
  same_outcome (j <- json_dumps v ;; Return (a, j))
               (j <- json_dumps v' ;; Return (a, j)).
Proof.
  intros H. unfold json_dumps. rewrite <- H.
  destruct (serializable v); reflexivity.
Qed.

Lemma calculate_from_file_silence (E : env) (audio_path : pyval)
    (mode : string) (prec : Z) (inc inc' : bool) (thr thr' : Q) :
  same_outcome (_calculate_from_file E audio_path mode prec inc thr)
               (_calculate_from_file E audio_path mode prec inc' thr').
Proof.
  unfold _calculate_from_file.
  destruct (truthy audio_path) as [given|e]; simpl; [|reflexivity].
  destruct (negb given); [reflexivity|].
  destruct (os_stat E audio_path) as [[node|]|e]; simpl; try reflexivity.
  destruct (negb (is_file node)); [reflexivity|].
  destruct (st_size node =? 0); [reflexivity|].
  destruct (fspath audio_path) as [path|e]; simpl; [|reflexivity].
  unfold deliver.
  destruct (run_backend E _ path) as [d m|err]; [|reflexivity].
  unfold _remove_silence_duration.
  replace (if negb inc && Qltb 0 d then d else d) with d
    by (destruct (negb inc && Qltb 0 d); reflexivity).
  replace (if negb inc' && Qltb 0 d then d else d) with d
    by (destruct (negb inc' && Qltb 0 d); reflexivity).
  apply json_dumps_same_outcome. simpl.
  apply forallb_serializable_similar.
  repeat (apply dict_set_similar; [reflexivity|]). apply similar_refl.
Qed.

Lemma calculate_audio_duration_try_silence (E : env)
    (self self' : pyval -> duration_tuple) (audio : pyval) (mode : string)
    (prec : Z) (inc inc' : bool) (thr thr' : Q) :
  (forall first rest, audio <> PList (first :: rest)) ->
  same_outcome
    (calculate_audio_duration_try E self audio mode prec inc thr)
    (calculate_audio_duration_try E self' audio mode prec inc' thr').
Proof.
  intros Hno.
  destruct audio as [ | b | z | q | s | t | l | d | ]; simpl;
    try reflexivity.
  - apply calculate_from_file_silence.
  - destruct (_calculate_duration_from_tensor (PTensor t) (PInt 24000));
      simpl; [|reflexivity].
    apply json_dumps_same_outcome. reflexivity.
  - destruct l as [|first rest]; [reflexivity|].
    exfalso. exact (Hno first rest eq_refl).
  - destruct (dict_get "waveform" d) as [waveform|].
    + destruct (_calculate_duration_from_tensor waveform _); simpl;
        [|reflexivity].
      apply json_dumps_same_outcome. reflexivity.
    + destruct (dict_get "file_path" d) as [audio_path|]; [|reflexivity].
      apply calculate_from_file_silence.
Qed.

(** X9.  The options [include_silence] and [silence_threshold_db] change
    nothing but the metadata: duration, formatted duration and status
    are the same for every input, whatever the two options are. *)
Theorem silence_options_do_not_change_duration (E : env) (mode : string)
    (prec : Z) (inc inc' : bool) (thr thr' : Q) :
  forall audio,
    fst (calculate_audio_duration E audio mode prec inc thr)
    = fst (calculate_audio_duration E audio mode prec inc' thr').
Proof.
  fix IH 1. intros audio.
  assert (Hbase : (forall first rest, audio <> PList (first :: rest)) ->
    fst (calculate_audio_duration E audio mode prec inc thr)
    = fst (calculate_audio_duration E audio mode prec inc' thr')).
  { intros Hno. rewrite !calculate_audio_duration_unfold.
    pose proof (calculate_audio_duration_try_silence E
      (fun first => calculate_audio_duration E first mode prec inc thr)
      (fun first => calculate_audio_duration E first mode prec inc' thr')
      audio mode prec inc inc' thr thr' Hno) as H.
    destruct (calculate_audio_duration_try E _ audio mode prec inc thr);
      destruct (calculate_audio_duration_try E _ audio mode prec inc' thr');
      simpl in *; try contradiction; [exact H | now subst]. }
  destruct audio as [ | b | z | q | s | t | l | d | ];
    try (apply Hbase; intros ? ?; discriminate).
  destruct l as [|first rest].
  - apply Hbase; intros ? ?; discriminate.
  - rewrite !calculate_audio_duration_unfold. simpl. apply IH.
Qed.

(** *** Backends *)

(** X10.  With a mode other than ["auto"] the mode asked for is the one
    in force, and for a non-empty regular file the answer is that of
    pydub exactly when the mode is ["fast"] and pydub is available; in
    every other case, also for ["fast"] without pydub and for a mode
    that is no known name, it is that of librosa when librosa is
    available and that of the ffprobe subprocess when it is not.  The
    answer is the duration of that backend under ["success"], or its
    failure as the error tuple. *)
Theorem backend_for_requested_mode (E : env) (calc_mode path : string)
    (node : fsnode) (prec : Z) (inc : bool) (thr : Q) :
  let answer := _calculate_from_file E (PStr path) calc_mode prec inc thr in
  let success := fun (mode : string) (d : Q) (m : list (string * pyval)) =>
    serialized <-
      json_dumps (PDict (dict_update m
        [("calculation_mode", PStr mode);
         ("time_precision", PInt prec);
         ("include_silence", PBool inc);
         ("silence_threshold_db", PFloat thr);
         ("file_path", PStr path);
         ("file_size_bytes", PInt (st_size node))])) ;;
    Return (round d prec, _format_duration (round d prec), "success", serialized)
  in
  let failure := fun (message : string) =>
    @Return duration_tuple
      (0%Q, "00:00:00.000", "error: " ++ message, empty_json) in
  calc_mode <> "auto" ->
  path <> "" -> stat E path = Some node -> is_file node = true ->
  st_size node <> 0 ->
  (calc_mode = "fast" -> PYDUB_AVAILABLE E = true ->
   (forall d m, pydub_load E path = Return (d, m) ->
                  answer = success calc_mode d m)
      /\ (forall e, pydub_load E path = Raise e ->
            answer = failure ("Pydub error: " ++ exn_str e)))
  /\ (calc_mode <> "fast" \/ PYDUB_AVAILABLE E = false ->
      LIBROSA_AVAILABLE E = true ->
      (forall d m, librosa_load E path = Return (d, m) ->
                  answer = success calc_mode d m)
      /\ (forall e, librosa_load E path = Raise e ->
            answer = failure ("Librosa error: " ++ exn_str e)))
  /\ (calc_mode <> "fast" \/ PYDUB_AVAILABLE E = false ->
      LIBROSA_AVAILABLE E = false ->
      (ffprobe_durations E path = FfTimeout ->
          answer = failure "FFprobe timeout")
      /\ (forall e, ffprobe_durations E path = FfRaised e ->
            answer = failure ("FFprobe exception: " ++ exn_str e))
      /\ (forall returncode stderr stdout,
            ffprobe_durations E path = FfCompleted returncode stderr stdout ->
            returncode <> 0 ->
            answer = failure ("FFprobe error: " ++ stderr))
      /\ (forall stderr e,
            ffprobe_durations E path = FfCompleted 0 stderr (Raise e) ->
            answer = failure ("FFprobe JSON decode error: " ++ exn_str e))
      /\ (forall stderr data d,
            ffprobe_durations E path = FfCompleted 0 stderr (Return data) ->
            format_duration data = Some (Return d) ->
            Qeq_bool d 0 = false ->
            answer = success calc_mode d
              [("method", PStr "ffmpeg");
               ("format", PStr (lower (splitext_ext path)));
               ("file_size_bytes", PInt (st_size node));
               ("ffprobe_data", ffprobe_raw data)])).
Proof.
  intros answer success failure Hmode Hne Hstat Hfile Hsize.
  pose proof (backend_by_mode E path calc_mode node prec inc thr Hne Hstat
                Hfile Hsize) as Hby.
  cbv zeta in Hby. apply String.eqb_neq in Hmode. rewrite Hmode in Hby.
  exact Hby.
Qed.

Lemma backend_for_requested_mode_witness :
  _calculate_from_file demo_env (PStr "/music/a.mp3") "fast" 3 true (-60)%Q
  = Return
      ((11 # 2)%Q, "00:05.500", "success",
       JsonOf (PDict
         [("method", PStr "pydub");
          ("calculation_mode", PStr "fast");
          ("time_precision", PInt 3);
          ("include_silence", PBool true);
          ("silence_threshold_db", PFloat (-60)%Q);
          ("file_path", PStr "/music/a.mp3");
          ("file_size_bytes", PInt 88200)]))
  /\ _calculate_from_file demo_env (PStr "/music/b.wav") "fast" 3 true (-60)%Q
     = Return
         (0%Q, "00:00:00.000", "error: Pydub error: could not decode",
          empty_json)
  /\ _calculate_from_file demo_env (PStr "/music/a.mp3") "accurate" 3 true
       (-60)%Q
     = Return
         (0%Q, "00:00:00.000",
          "error: FFprobe error: Invalid data found when processing input",
          empty_json)
  /\ _calculate_from_file demo_env (PStr "/music/b.wav") "thorough" 1 true
       (-60)%Q
     = Return
         (2%Q, "00:02.000", "success",
          JsonOf (PDict
            [("method", PStr "ffmpeg");
             ("format", PStr ".wav");
             ("file_size_bytes", PInt 352800);
             ("ffprobe_data", PDict []);
             ("calculation_mode", PStr "thorough");
             ("time_precision", PInt 1);
             ("include_silence", PBool true);
             ("silence_threshold_db", PFloat (-60)%Q);
             ("file_path", PStr "/music/b.wav")])).
Proof.
  refine (conj _ (conj _ (conj _ _))).
  - exact (proj1 (proj1 (backend_for_requested_mode demo_env "fast"
                    "/music/a.mp3" (FsNode true 88200) 3 true (-60)%Q
                    ltac:(discriminate) ltac:(discriminate) eq_refl eq_refl
                    ltac:(discriminate)) eq_refl eq_refl)
             (11 # 2)%Q [("method", PStr "pydub")] eq_refl).
  - exact (proj2 (proj1 (backend_for_requested_mode demo_env "fast"
                    "/music/b.wav" (FsNode true 352800) 3 true (-60)%Q
                    ltac:(discriminate) ltac:(discriminate) eq_refl eq_refl
                    ltac:(discriminate)) eq_refl eq_refl)
             (Exn OSError "could not decode") eq_refl).
  - assert (Hmode : "accurate" <> "fast") by discriminate.
    destruct (proj2 (proj2 (backend_for_requested_mode demo_env "accurate"
                    "/music/a.mp3" (FsNode true 88200) 3 true (-60)%Q
                    ltac:(discriminate) ltac:(discriminate) eq_refl eq_refl
                    ltac:(discriminate)))
                (or_introl Hmode) eq_refl)
      as [_ [_ [Hfailure _]]].
    exact (Hfailure 1 "Invalid data found when processing input"
             (Raise (Exn ValueError "Expecting value")) eq_refl
             ltac:(discriminate)).
  - assert (Hmode : "thorough" <> "fast") by discriminate.
    destruct (proj2 (proj2 (backend_for_requested_mode demo_env "thorough"
                    "/music/b.wav" (FsNode true 352800) 1 true (-60)%Q
                    ltac:(discriminate) ltac:(discriminate) eq_refl eq_refl
                    ltac:(discriminate)))
                (or_introl Hmode) eq_refl)
      as [_ [_ [_ [_ Hsuccess]]]].
    exact (Hsuccess "" (FfprobeData (Some (Return 2%Q)) [] (PDict [])) 2%Q
             eq_refl eq_refl eq_refl).
Defined.

(** X11.  The ffprobe backend never reports success with a duration of
    zero, and the duration it reports is that of the container whenever
    ffprobe prints one. *)
Theorem ffmpeg_success_is_nonzero (E : env) (audio_path : string) (d : Q)
    (m : list (string * pyval)) :
  _calculate_with_ffmpeg E audio_path = BSuccess d m ->
  ~ (d == 0)%Q
  /\ exists err data,
       ffprobe_durations E audio_path = FfCompleted 0 err (Return data)
       /\ (forall x, format_duration data = Some x -> x = Return d).
Proof.
  unfold _calculate_with_ffmpeg.
  destruct (ffprobe_durations E audio_path) as [ | e | rc err [data|e]];
    try discriminate;
    (destruct (Z.eqb_spec rc 0) as [->|Hrc]; simpl; try discriminate).
  destruct (format_duration data) as [[x|e]|] eqn:Hfmt; simpl.
  - destruct (Qeq_bool x 0) eqn:Hz; simpl; [discriminate|].
    destruct (getsize E audio_path); simpl; [|discriminate].
    intros [= <- _]. split.
    + intros H0. apply Qeq_bool_iff in H0. congruence.
    + exists err, data. split; [reflexivity|].
      rewrite Hfmt. now intros x0 [= <-].
  - discriminate.
  - destruct (max_stream_duration (stream_durations data) 0) as [x|e]; simpl;
      [|discriminate].
    destruct (Qeq_bool x 0) eqn:Hz; simpl; [discriminate|].
    destruct (getsize E audio_path); simpl; [|discriminate].
    intros [= <- _]. split.
    + intros H0. apply Qeq_bool_iff in H0. congruence.
    + exists err, data. split; [reflexivity|].
      rewrite Hfmt. discriminate.
Qed.

Lemma ffmpeg_success_is_nonzero_witness :
  ~ (2 == 0)%Q
  /\ exists err data,
       ffprobe_durations demo_env "/music/b.wav"
       = FfCompleted 0 err (Return data)
       /\ (forall x, format_duration data = Some x -> x = Return 2%Q).
Proof.
  apply (ffmpeg_success_is_nonzero demo_env "/music/b.wav" 2%Q
           [("method", PStr "ffmpeg"); ("format", PStr ".wav");
            ("file_size_bytes", PInt 352800); ("ffprobe_data", PDict [])]).
  reflexivity.
Defined.

(** X12.  Without a duration of the container the streams decide: the
    loop over them returns a duration that is no less than the duration
    of any stream, provided every stream duration converts to a
    number, and it raises as soon as one does not. *)
Theorem stream_durations_maximum (streams : list (option (result Q))) :
  forall acc,
    (Forall (fun s => forall e, s <> Some (Raise e)) streams ->
     exists d, max_stream_duration streams acc = Return d
               /\ (acc <= d)%Q
               /\ Forall (fun s => forall x, s = Some (Return x) -> (x <= d)%Q)
                         streams)
    /\ (~ Forall (fun s => forall e, s <> Some (Raise e)) streams ->
        exists e, max_stream_duration streams acc = Raise e).
Proof.
  induction streams as [|[[x|e]|] rest IH]; intros acc; simpl.
  - split.
    + intros _. exists acc. split; [reflexivity|].
      split; [apply Qle_refl | constructor].
    + intros H. exfalso. apply H. constructor.
  - destruct (IH (py_max acc x)) as [IHok IHbad]. split.
    + intros Hall. inversion Hall as [|? ? _ Hrest]; subst.
      destruct (IHok Hrest) as [d [Hd [Hle Hfor]]].
      exists d. split; [exact Hd|].
      split; [exact (Qle_trans _ _ _ (py_max_ge acc x) Hle)|].
      constructor; [|exact Hfor].
      intros y [= <-]. apply (Qle_trans _ (py_max acc x)); [|exact Hle].
      unfold py_max. destruct (Qltb acc x) eqn:Hlt; [apply Qle_refl|].
      unfold Qltb in Hlt. apply negb_false_iff in Hlt.
      now apply Qle_bool_iff.
    + intros Hnot. apply IHbad. intros Hrest. apply Hnot.
      constructor; [discriminate | exact Hrest].
  - split.
    + intros Hall. inversion Hall as [|? ? Hhead _]; subst.
      exfalso. exact (Hhead e eq_refl).
    + intros _. now exists e.
  - destruct (IH acc) as [IHok IHbad]. split.
    + intros Hall. inversion Hall as [|? ? _ Hrest]; subst.
      destruct (IHok Hrest) as [d [Hd [Hle Hfor]]].
      exists d. split; [exact Hd|]. split; [exact Hle|].
      constructor; [discriminate | exact Hfor].
    + intros Hnot. apply IHbad. intros Hrest. apply Hnot.
      constructor; [discriminate | exact Hrest].
Qed.

Lemma stream_durations_maximum_witness :
  exists d,
    max_stream_duration [Some (Return 3%Q); None; Some (Return 5%Q)] 0%Q
    = Return d
    /\ (0 <= d)%Q
    /\ Forall (fun s => forall x, s = Some (Return x) -> (x <= d)%Q)
              [Some (Return 3%Q); None; Some (Return 5%Q)].
Proof.
  apply (proj1 (stream_durations_maximum
                  [Some (Return 3%Q); None; Some (Return 5%Q)] 0%Q)).
  repeat constructor; discriminate.
Defined.

(** X13.  A backend that fails is not replaced: for a non-empty regular
    file the node answers with the error tuple carrying the message of
    the backend that was chosen, whatever the other backends would have
    given. *)
Theorem backend_failure_is_final (E : env) (path mode : string)
    (node : fsnode) (msg : string) (prec : Z) (inc : bool) (thr : Q) :
  path <> "" -> stat E path = Some node -> is_file node = true ->
  st_size node <> 0 ->
  run_backend E
    (choose_backend E
       (if String.eqb mode "auto" then _select_calculation_mode E path
        else mode)) path = BError msg ->
  calculate_audio_duration E (PStr path) mode prec inc thr
  = (0%Q, "00:00:00.000", "error: " ++ msg, empty_json).
Proof.
  intros Hne Hstat Hfile Hsize Hrun.
  rewrite calculate_audio_duration_unfold.
  unfold calculate_audio_duration_try.
  rewrite (calculate_from_file_regular E path mode node prec inc thr
             Hne Hstat Hfile Hsize), Hrun.
  reflexivity.
Qed.

Lemma backend_failure_is_final_witness :
  calculate_audio_duration demo_env (PStr "/music/notes.txt") "fast" 3 true
    (-60)%Q
  = (0%Q, "00:00:00.000", "error: " ++ "Pydub error: could not decode",
     empty_json).
Proof.
  apply (backend_failure_is_final demo_env "/music/notes.txt" "fast"
           (FsNode true 12));
    [discriminate | reflexivity | reflexivity | discriminate | reflexivity].
Defined.

(** X14.  The checks on a path come in a fixed order, each with its own
    message: an empty path is not accepted, a path at which nothing
    exists is not found, and a path that exists but is no regular file
    (a directory) is no file. *)
Theorem path_checks_in_order (E : env) (mode : string) (prec : Z) (inc : bool)
    (thr : Q) :
  calculate_audio_duration E (PStr "") mode prec inc thr
  = (0%Q, "00:00:00.000", "error: Путь к аудио файлу не получен", empty_json)
  /\ (forall path, path <> "" -> stat E path = None ->
        calculate_audio_duration E (PStr path) mode prec inc thr
        = (0%Q, "00:00:00.000",
           "error: Аудио файл не найден по пути: " ++ path, empty_json))
  /\ (forall path node, path <> "" -> stat E path = Some node ->
        is_file node = false ->
        calculate_audio_duration E (PStr path) mode prec inc thr
        = (0%Q, "00:00:00.000",
           "error: Путь не является файлом: " ++ path, empty_json)).
Proof.
  refine (conj _ (conj _ _)).
  - reflexivity.
  - intros path Hne Hstat. apply String.eqb_neq in Hne.
    rewrite calculate_audio_duration_unfold.
    unfold calculate_audio_duration_try, _calculate_from_file. simpl.
    rewrite Hne. simpl. rewrite Hstat. reflexivity.
  - intros path node Hne Hstat Hfile. apply String.eqb_neq in Hne.
    rewrite calculate_audio_duration_unfold.
    unfold calculate_audio_duration_try, _calculate_from_file. simpl.
    rewrite Hne. simpl. rewrite Hstat, Hfile. reflexivity.
Qed.

Lemma path_checks_in_order_witness :
  calculate_audio_duration demo_env (PStr "/music") "auto" 3 true (-60)%Q
  = (0%Q, "00:00:00.000", "error: Путь не является файлом: " ++ "/music",
     empty_json).
Proof.
  apply (proj2 (proj2 (path_checks_in_order demo_env "auto" 3 true (-60)%Q))
           "/music" (FsNode false 4096));
    [discriminate | reflexivity | reflexivity].
Defined.

(** *** More on formatted durations *)

Lemma seconds_field_shape (s : Q) :
  is_SS_mmm (fmt_0f 6 3 (pymod s 60%Q)) = true.
Proof.
  destruct (pymod_bounds s 60%Q eq_refl) as [Hs0 Hs1].
  unfold fmt_0f.
  replace (Qltb (pymod s 60%Q) 0) with false.
  - apply seconds_shape. apply round_half_even_range.
    + apply Qmult_le_0_compat; [apply Qabs_nonneg | apply pow10_nonneg].
    + rewrite (Qabs_pos _ Hs0).
      change (inject_Z 60000) with (60 * pow10 (Z.of_nat 3))%Q.
      apply Qmult_le_compat_r; [now apply Qlt_le_weak | apply pow10_nonneg].
  - symmetry. unfold Qltb. apply negb_false_iff. now apply Qle_bool_iff.
Qed.

Lemma minutes_field_shape (s : Q) :
  is_MM (fmt_0d 2 (floordiv (pymod s 3600%Q) 60%Q)) = true.
Proof.
  destruct (pymod_bounds s 3600%Q eq_refl) as [Hm0 Hm1].
  apply minutes_shape. apply floordiv_range; [reflexivity | exact Hm0 |].
  exact Hm1.
Qed.

(** X15.  The seconds are rounded to milliseconds without a carry into
    the minutes: when the seconds within the minute exceed 59.9995, the
    seconds field reads [60.000] behind the unchanged minutes. *)
Theorem seconds_field_can_read_sixty (s : Q) :
  (0 < s)%Q -> floordiv s 3600%Q = 0 ->
  ((599995 # 10000) < pymod s 60%Q)%Q ->
  _format_duration s
  = fmt_0d 2 (floordiv (pymod s 3600%Q) 60%Q) ++ ":60.000".
Proof.
  intros Hs Hh Hsec. unfold _format_duration.
  destruct (Qle_bool s 0) eqn:Hle.
  { apply Qle_bool_iff in Hle. exfalso. exact (Qlt_not_le _ _ Hs Hle). }
  rewrite Hh. cbn [Z.ltb Z.compare]. f_equal. f_equal.
  destruct (pymod_bounds s 60%Q eq_refl) as [Hs0 Hs1].
  unfold fmt_0f.
  replace (Qltb (pymod s 60%Q) 0) with false
    by (symmetry; unfold Qltb; apply negb_false_iff; now apply Qle_bool_iff).
  set (q := (Qabs (pymod s 60%Q) * pow10 (Z.of_nat 3))%Q).
  assert (Hq : (q == pymod s 60%Q * 1000)%Q).
  { unfold q. rewrite (Qabs_pos _ Hs0). reflexivity. }
  assert (Hup : 0 <= round_half_even q <= 60000).
  { apply round_half_even_range; rewrite Hq.
    - apply Qmult_le_0_compat; [exact Hs0 | discriminate].
    - change (inject_Z 60000) with (60 * 1000)%Q.
      apply Qmult_le_compat_r; [now apply Qlt_le_weak | discriminate]. }
  assert (Hlow : 59999 < round_half_even q).
  { pose proof (round_half_even_near q) as Hnear.
    pose proof (Qle_Qabs (q - inject_Z (round_half_even q))) as Habs.
    rewrite Qabs_Qminus in Habs.
    rewrite Zlt_Qlt. change (inject_Z 59999) with 59999%Q.
    clear Hup. clearbody q.
    set (w := inject_Z (round_half_even q)) in *. clearbody w.
    set (a := Qabs (w - q)) in *. clearbody a.
    set (v := pymod s 60%Q) in *. clearbody v.
    lra. }
  replace (round_half_even q) with 60000 by lia. reflexivity.
Qed.

Lemma seconds_field_can_read_sixty_witness :
  _format_duration (1199999 # 10000)%Q
  = fmt_0d 2 (floordiv (pymod (1199999 # 10000)%Q 3600%Q) 60%Q) ++ ":60.000".
Proof.
  apply (seconds_field_can_read_sixty (1199999 # 10000)%Q); reflexivity.
Defined.

Lemma all_digits_uint (u : Decimal.uint) :
  all_digits (NilEmpty.string_of_uint u) = true.
Proof. induction u; simpl; auto. Qed.

Lemma all_digits_dec (n : Z) : all_digits (dec n) = true.
Proof.
  unfold dec, NilZero.string_of_uint.
  destruct (N.to_uint (Z.to_N n)) eqn:Hu;
    try reflexivity; rewrite <- Hu; apply all_digits_uint.
Qed.

Lemma all_digits_append (a b : string) :
  all_digits a = true -> all_digits b = true -> all_digits (a ++ b) = true.
Proof.
  induction a as [|c a IH]; simpl; [auto|].
  intros H Hb. apply andb_true_iff in H. destruct H as [Hc Ha].
  now rewrite Hc, IH.
Qed.

Lemma all_digits_zeros (k : nat) : all_digits (zeros k) = true.
Proof. induction k; simpl; auto. Qed.

Lemma length_append (a b : string) :
  String.length (a ++ b) = (String.length a + String.length b)%nat.
Proof. induction a as [|c a IH]; simpl; [reflexivity | now rewrite IH]. Qed.

Lemma length_zeros (k : nat) : String.length (zeros k) = k.
Proof. induction k; simpl; [reflexivity | now rewrite IHk]. Qed.

(** X16.  From one hour on the format is [HH:MM:SS.mmm]: the hours in
    decimal digits, at least two of them, then a colon and the form
    [MM:SS.mmm]. *)
Theorem format_duration_from_an_hour (s : Q) :
  (3600 <= s)%Q ->
  exists rest,
    _format_duration s = fmt_0d 2 (floordiv s 3600%Q) ++ ":" ++ rest
    /\ is_MM_SS_mmm rest = true
    /\ 1 <= floordiv s 3600%Q
    /\ all_digits (fmt_0d 2 (floordiv s 3600%Q)) = true
    /\ (2 <= String.length (fmt_0d 2 (floordiv s 3600%Q)))%nat.
Proof.
  intros Hs.
  assert (Hh : 1 <= floordiv s 3600%Q).
  { unfold floordiv. change 1 with (Qfloor 1). apply Qfloor_resp_le.
    apply Qle_shift_div_l; [reflexivity | exact Hs]. }
  exists (fmt_0d 2 (floordiv (pymod s 3600%Q) 60%Q) ++ ":"
          ++ fmt_0f 6 3 (pymod s 60%Q)).
  split; [|split; [|split; [exact Hh|]]].
  - unfold _format_duration.
    replace (Qle_bool s 0) with false.
    + replace (0 <? floordiv s 3600%Q) with true
        by (symmetry; apply Z.ltb_lt; lia).
      reflexivity.
    + symmetry. destruct (Qle_bool s 0) eqn:Hle; [|reflexivity].
      apply Qle_bool_iff in Hle. exfalso.
      assert (H0 : (3600 <= 0)%Q) by (eapply Qle_trans; eassumption).
      exact (H0 eq_refl).
  - apply join_shape; [apply minutes_field_shape | apply seconds_field_shape].
  - unfold fmt_0d. replace (floordiv s 3600%Q <? 0) with false
      by (symmetry; apply Z.ltb_ge; lia).
    unfold zfill. split.
    + apply all_digits_append; [apply all_digits_zeros | apply all_digits_dec].
    + rewrite length_append, length_zeros. lia.
Qed.

Lemma format_duration_from_an_hour_witness :
  exists rest,
    _format_duration (36615 # 10)%Q
    = fmt_0d 2 (floordiv (36615 # 10)%Q 3600%Q) ++ ":" ++ rest
    /\ is_MM_SS_mmm rest = true
    /\ 1 <= floordiv (36615 # 10)%Q 3600%Q
    /\ all_digits (fmt_0d 2 (floordiv (36615 # 10)%Q 3600%Q)) = true
    /\ (2 <= String.length (fmt_0d 2 (floordiv (36615 # 10)%Q 3600%Q)))%nat.
Proof.
  apply (format_duration_from_an_hour (36615 # 10)%Q). discriminate.
Defined.

(* ================================================================== *)
(** ** Further properties of the metadata node                        *)
(* ================================================================== *)

Lemma path_exists_stat (E : env) (p : string) :
  path_exists E p = true -> exists node, os_stat E (PStr p) = Return (Some node).
Proof.
  unfold path_exists. simpl. destruct (stat E p) as [node|]; [|discriminate].
  intros _. now exists node.
Qed.

Lemma path_from_keys_exists (E : env) (d : list (string * pyval))
    (keys : list string) (p : pyval) :
  path_from_keys E d keys = Return (Some p) ->
  exists node, os_stat E p = Return (Some node).
Proof.
  induction keys as [|key rest IH]; simpl; [discriminate|].
  destruct (dict_get key d) as [path|]; [|exact IH].
  intros H. bind_inv H. destruct (negb a); [exact (IH H)|].
  bind_inv H. destruct a0 as [node|].
  - injection H as <-. now exists node.
  - bind_inv H.
    destruct (path_exists E (path_join (input_directory E) a0)) eqn:Hex;
      [|exact (IH H)].
    injection H as <-. now apply path_exists_stat.
Qed.

(** X17.  A path that [_get_audio_path] returns exists, and a string at
    which something exists is returned as it is, before any directory of
    the host is searched. *)
Theorem get_audio_path_returns_existing (E : env) (audio_input : pyval) :
  (forall p, _get_audio_path E audio_input = Return (Some p) ->
             exists node, os_stat E p = Return (Some node))
  /\ (forall s, audio_input = PStr s -> path_exists E s = true ->
                _get_audio_path E audio_input = Return (Some (PStr s))).
Proof.
  split.
  - intros p H. destruct audio_input as [ | | | | s | | | d | ];
      try discriminate H.
    + revert H. cbn [_get_audio_path].
      repeat match goal with
             | |- context [if path_exists E ?x then _ else _] =>
                 destruct (path_exists E x) eqn:?
             end; intros [= <-]; now apply path_exists_stat.
    + exact (path_from_keys_exists _ _ _ _ H).
  - intros s -> Hex. simpl. now rewrite Hex.
Qed.

Lemma get_audio_path_returns_existing_witness :
  exists node,
    os_stat demo_env (PStr "/music/a.mp3") = Return (Some node).
Proof.
  apply (proj1 (get_audio_path_returns_existing demo_env
                  (PDict [("filename", PStr "/music/a.mp3")]))
           (PStr "/music/a.mp3")).
  reflexivity.
Defined.

Lemma path_from_keys_none (E : env) (d : list (string * pyval))
    (keys : list string) :
  Forall (fun k => dict_get k d = None) keys ->
  path_from_keys E d keys = Return None.
Proof.
  induction 1 as [|key rest Hkey _ IH]; simpl; [reflexivity|].
  now rewrite Hkey.
Qed.

(** X18.  The metadata node knows strings and dictionaries only: a
    tensor handed over directly, a list, a number or [None] is answered
    with the "not found" tuple, and so is a dictionary that has no
    ["waveform"] and none of the path keys. *)
Theorem metadata_not_found (E : env) (audio : pyval) (f t g : bool) :
  match audio with
  | PStr _ => False
  | PDict d => dict_get "waveform" d = None
               /\ Forall (fun k => dict_get k d = None) possible_keys
  | _ => True
  end ->
  extract_audio_metadata E audio f t g
  = (empty_json, "Error: Audio file not found", PStr "unknown", 0%Q).
Proof.
  destruct audio as [ | | | | s | | | d | ]; try contradiction;
    try (intros _; reflexivity).
  intros [Hw Hk]. unfold extract_audio_metadata, extract_audio_metadata_try.
  rewrite Hw. cbn [_get_audio_path].
  now rewrite (path_from_keys_none E d possible_keys Hk).
Qed.

Lemma metadata_not_found_witness :
  extract_audio_metadata bare_env (PList [PStr "/music/a.mp3"]) true true false
  = (empty_json, "Error: Audio file not found", PStr "unknown", 0%Q).
Proof.
  apply (metadata_not_found bare_env (PList [PStr "/music/a.mp3"])). exact I.
Defined.

(** X19.  When [_extract_all_metadata] returns, the record has the
    section [file_info], the section [format] exactly when formats are
    asked for, [technical] exactly when technical data are asked for,
    and [tags] exactly when tags are asked for and pydub is available. *)
Theorem sections_follow_the_toggles (E : env) (audio_path : pyval)
    (f t g : bool) (md : list (string * pyval)) :
  _extract_all_metadata E audio_path f t g = Return md ->
  dict_has "file_info" md = true
  /\ dict_has "format" md = f
  /\ dict_has "technical" md = t
  /\ dict_has "tags" md = g && PYDUB_AVAILABLE E.
Proof.
  unfold _extract_all_metadata. intros H.
  bind_inv H. bind_inv H. bind_inv H. bind_inv H.
  destruct (g && PYDUB_AVAILABLE E); injection H as <-;
    destruct f, t; simpl in Ha2;
    try (bind_inv Ha2);
    injection Ha2 as <-; repeat split.
Qed.

Lemma sections_follow_the_toggles_witness :
  dict_has "file_info"
    [("file_info", PDict
        [("path", PStr "/music/a.mp3"); ("name", PStr "a.mp3");
         ("size_bytes", PInt 88200);
         ("size_mb", PFloat (round (inject_Z 88200 / inject_Z (1024 * 1024)) 2));
         ("modified", PStr "2024-01-01T12:00:00")]);
     ("tags", PDict [])] = true
  /\ dict_has "format"
       [("file_info", PDict
           [("path", PStr "/music/a.mp3"); ("name", PStr "a.mp3");
            ("size_bytes", PInt 88200);
            ("size_mb", PFloat (round (inject_Z 88200 / inject_Z (1024 * 1024)) 2));
            ("modified", PStr "2024-01-01T12:00:00")]);
        ("tags", PDict [])] = false
  /\ dict_has "technical"
       [("file_info", PDict
           [("path", PStr "/music/a.mp3"); ("name", PStr "a.mp3");
            ("size_bytes", PInt 88200);
            ("size_mb", PFloat (round (inject_Z 88200 / inject_Z (1024 * 1024)) 2));
            ("modified", PStr "2024-01-01T12:00:00")]);
        ("tags", PDict [])] = false
  /\ dict_has "tags"
       [("file_info", PDict
           [("path", PStr "/music/a.mp3"); ("name", PStr "a.mp3");
            ("size_bytes", PInt 88200);
            ("size_mb", PFloat (round (inject_Z 88200 / inject_Z (1024 * 1024)) 2));
            ("modified", PStr "2024-01-01T12:00:00")]);
        ("tags", PDict [])] = true && PYDUB_AVAILABLE demo_env.
Proof.
  apply (sections_follow_the_toggles demo_env (PStr "/music/a.mp3")
           false false true).
  reflexivity.
Defined.

Lemma dict_get_filter_key (P : string -> bool) (k : string)
    (info : list (string * pyval)) :
  dict_get k (filter (fun kv => P (fst kv)) info)
  = if P k then dict_get k info else None.
Proof.
  induction info as [|[k' v] info IH]; simpl.
  - now destruct (P k).
  - destruct (String.eqb_spec k k') as [->|Hne].
    + destruct (P k') eqn:HP; simpl.
      * now rewrite String.eqb_refl.
      * rewrite IH. reflexivity.
    + destruct (P k') eqn:HP; simpl; [|exact IH].
      apply String.eqb_neq in Hne. now rewrite Hne.
Qed.

(** X20.  The section [tags] never repeats what the technical section
    covers: it has none of the keys [format_name], [duration],
    [bit_rate], [sample_rate] and [channels], and holds every other
    entry of what [mediainfo] returns; it is empty when [mediainfo]
    raises. *)
Theorem tags_leave_out_technical_keys (E : env) (path : string)
    (f t g : bool) (md tags : list (string * pyval)) :
  _extract_all_metadata E (PStr path) f t g = Return md ->
  dict_get "tags" md = Some (PDict tags) ->
  (forall k, In k tag_excluded -> dict_get k tags = None)
  /\ (forall info k, mediainfo E path = Return info ->
        ~ In k tag_excluded -> dict_get k tags = dict_get k info)
  /\ (forall e, mediainfo E path = Raise e -> tags = []).
Proof.
  unfold _extract_all_metadata. intros H Htags.
  bind_inv H. bind_inv H. bind_inv H. bind_inv H. injection Ha as <-.
  assert (Hnot : forall k, str_in k tag_excluded = true <-> In k tag_excluded).
  { intros k. unfold str_in. rewrite existsb_exists. split.
    - intros [x [Hin Hx]]. apply String.eqb_eq in Hx. now subst.
    - intros Hin. exists k. split; [exact Hin | apply String.eqb_refl]. }
  destruct (g && PYDUB_AVAILABLE E).
  - injection H as <-.
    assert (Hset : tags = match mediainfo E path with
                          | Return info =>
                              filter (fun kv => negb (str_in (fst kv) tag_excluded))
                                     info
                          | Raise _ => []
                          end).
    { destruct f, t; simpl in Ha2; try (bind_inv Ha2);
        injection Ha2 as <-; simpl in Htags; injection Htags as <-;
        reflexivity. }
    subst tags. refine (conj _ (conj _ _)).
    + intros k Hk. destruct (mediainfo E path) as [info|e]; [|reflexivity].
      rewrite (dict_get_filter_key (fun k => negb (str_in k tag_excluded))).
      apply Hnot in Hk. now rewrite Hk.
    + intros info k -> Hk.
      rewrite (dict_get_filter_key (fun k => negb (str_in k tag_excluded))).
      destruct (str_in k tag_excluded) eqn:Hin; [|reflexivity].
      exfalso. apply Hk. now apply Hnot.
    + now intros e ->.
  - injection H as <-. exfalso.
    destruct f, t; simpl in Ha2; try (bind_inv Ha2);
      injection Ha2 as <-; discriminate Htags.
Qed.

Lemma tags_leave_out_technical_keys_witness :
  (mediainfo tagged_env "/music/a.mp3" = Return tagged_info
   /\ (forall k, In k tag_excluded ->
         dict_get k [("codec_name", PStr "mp3"); ("TAG:title", PStr "Song");
                     ("TAG:artist", PStr "Band")] = None)
   /\ (forall info k, mediainfo tagged_env "/music/a.mp3" = Return info ->
         ~ In k tag_excluded ->
         dict_get k [("codec_name", PStr "mp3"); ("TAG:title", PStr "Song");
                     ("TAG:artist", PStr "Band")] = dict_get k info)
   /\ (forall e, mediainfo tagged_env "/music/a.mp3" = Raise e ->
         [("codec_name", PStr "mp3"); ("TAG:title", PStr "Song");
          ("TAG:artist", PStr "Band")] = []))
  /\ (mediainfo tagged_env "/music/b.wav"
      = Raise (Exn OSError "could not read media information")
      /\ _extract_all_metadata tagged_env (PStr "/music/b.wav") false false true
         = Return
             [("file_info", PDict
                 [("path", PStr "/music/b.wav"); ("name", PStr "b.wav");
                  ("size_bytes", PInt 352800);
                  ("size_mb",
                   PFloat (round (inject_Z 352800 / inject_Z (1024 * 1024)) 2));
                  ("modified", PStr "2024-01-01T12:00:00")]);
              ("tags", PDict [])]
      /\ (forall e, mediainfo tagged_env "/music/b.wav" = Raise e ->
            @nil (string * pyval) = [])).
Proof.
  split.
  - split; [reflexivity|].
    apply (tags_leave_out_technical_keys tagged_env "/music/a.mp3" false false
             true
             [("file_info", PDict
                 [("path", PStr "/music/a.mp3"); ("name", PStr "a.mp3");
                  ("size_bytes", PInt 88200);
                  ("size_mb",
                   PFloat (round (inject_Z 88200 / inject_Z (1024 * 1024)) 2));
                  ("modified", PStr "2024-01-01T12:00:00")]);
              ("tags", PDict [("codec_name", PStr "mp3");
                              ("TAG:title", PStr "Song");
                              ("TAG:artist", PStr "Band")])]); reflexivity.
  - split; [reflexivity|]. split; [reflexivity|].
    apply (tags_leave_out_technical_keys tagged_env "/music/b.wav" false false
             true
             [("file_info", PDict
                 [("path", PStr "/music/b.wav"); ("name", PStr "b.wav");
                  ("size_bytes", PInt 352800);
                  ("size_mb",
                   PFloat (round (inject_Z 352800 / inject_Z (1024 * 1024)) 2));
                  ("modified", PStr "2024-01-01T12:00:00")]);
              ("tags", PDict [])]); reflexivity.
Defined.

(** X21.  A failure of ffprobe is not reported: for an existing file
    whose modification time can be read, the node still returns a record,
    whose [format] section is empty and whose [technical] section holds
    a duration of 0.0, a bit rate of 0 and a size of 0; the format
    returned is ["unknown"] and the duration 0.0. *)
Theorem ffprobe_failure_gives_zeroed_record (E : env) (path : string)
    (node : fsnode) (modified : string) :
  path <> "" -> stat E path = Some node ->
  getmtime_iso E path = Return modified ->
  ffprobe_show E path = None ->
  exists summary,
    extract_audio_metadata E (PStr path) true true false
    = (JsonOf (PDict
         [("file_info", PDict
             [("path", PStr path);
              ("name", PStr (basename path));
              ("size_bytes", PInt (st_size node));
              ("size_mb",
               PFloat (round (inject_Z (st_size node) / inject_Z (1024 * 1024))
                             2));
              ("modified", PStr modified)]);
          ("format", PDict []);
          ("technical", PDict [("duration_seconds", PFloat 0);
                               ("bitrate_bps", PInt 0);
                               ("size_bytes", PInt 0)])]),
       summary, PStr "unknown", 0%Q).
Proof.
  intros Hne Hstat Hmtime Hff. apply String.eqb_neq in Hne.
  assert (Hexists : path_exists E path = true)
    by (unfold path_exists; now rewrite Hstat).
  eexists.
  unfold extract_audio_metadata, extract_audio_metadata_try, _get_audio_path.
  simpl.
  repeat (progress (rewrite ?Hexists, ?Hne, ?Hstat, ?Hff; simpl)).
  unfold _extract_all_metadata, getsize, _get_ffprobe_metadata. simpl.
  repeat (progress (rewrite ?Hexists, ?Hne, ?Hstat, ?Hmtime, ?Hff; simpl)).
  reflexivity.
Qed.

Lemma ffprobe_failure_gives_zeroed_record_witness :
  exists summary,
    extract_audio_metadata demo_env (PStr "/music/a.mp3") true true false
    = (JsonOf (PDict
         [("file_info", PDict
             [("path", PStr "/music/a.mp3");
              ("name", PStr (basename "/music/a.mp3"));
              ("size_bytes", PInt 88200);
              ("size_mb",
               PFloat (round (inject_Z 88200 / inject_Z (1024 * 1024)) 2));
              ("modified", PStr "2024-01-01T12:00:00")]);
          ("format", PDict []);
          ("technical", PDict [("duration_seconds", PFloat 0);
                               ("bitrate_bps", PInt 0);
                               ("size_bytes", PInt 0)])]),
       summary, PStr "unknown", 0%Q).
Proof.
  apply (ffprobe_failure_gives_zeroed_record demo_env "/music/a.mp3"
           (FsNode true 88200) "2024-01-01T12:00:00");
    [discriminate | reflexivity | reflexivity | reflexivity].
Defined.

Lemma get_duration_from_tensor_dimension (t : tensor) (sample_rate : pyval)
    (n : N) :
  length (shape t) <> 4%nat ->
  sample_dimension (shape t) = Some n ->
  _get_duration_from_tensor (PTensor t) sample_rate
  = try_except (py_truediv (Z.of_N n) sample_rate) (fun _ => 0%Q).
Proof.
  destruct t as [sh es]. simpl. intros Hlen.
  destruct sh as [|a [|b [|c [|d [|e rest]]]]]; simpl; try discriminate;
    try (intros [= <-]; reflexivity).
  - exfalso. now apply Hlen.
  - intros [= <-]. unfold _get_duration_from_tensor.
    set (t := {| shape := a :: b :: c :: d :: e :: rest; element_size := es |}).
    assert (Hdim : dim t = Z.of_nat (length rest) + 5)
      by (unfold dim; simpl length; lia).
    cbn [tensor_of bind]. rewrite Hdim.
    repeat match goal with
           | |- context [?x =? ?y] => destruct (Z.eqb_spec x y); [lia|]
           end.
    reflexivity.
Qed.

(** X22.  At a positive sample rate the duration in the metadata of a
    buffer is the duration the duration node computes before rounding,
    for every rank from 1 on except rank 4. *)
Theorem metadata_duration_agrees_with_duration_node (t : tensor)
    (sample_rate : pyval) (R : Q) :
  as_number sample_rate = Some R -> (0 < R)%Q ->
  shape t <> [] -> length (shape t) <> 4%nat ->
  exists d,
    _calculate_duration_from_tensor (PTensor t) sample_rate = Return d
    /\ (_get_duration_from_tensor (PTensor t) sample_rate == d)%Q.
Proof.
  intros Hv HR Hne Hlen.
  assert (Hn : exists n, sample_dimension (shape t) = Some n).
  { destruct (shape t) as [|a [|b [|c [|d [|e rest]]]]];
      try congruence; eexists; reflexivity. }
  destruct Hn as [n Hn].
  destruct (tensor_duration_by_dimension t sample_rate R n Hv HR Hn)
    as [d [Hd Hq]].
  exists d. split; [exact Hd|].
  rewrite (get_duration_from_tensor_dimension _ _ _ Hlen Hn).
  rewrite (py_truediv_number _ _ _ Hv HR). simpl. now rewrite Hq.
Qed.

Lemma metadata_duration_agrees_with_duration_node_witness :
  exists d,
    _calculate_duration_from_tensor
      (PTensor (Tensor [1%N; 2%N; 44100%N] 4%N)) (PInt 22050) = Return d
    /\ (_get_duration_from_tensor
          (PTensor (Tensor [1%N; 2%N; 44100%N] 4%N)) (PInt 22050) == d)%Q.
Proof.
  apply (metadata_duration_agrees_with_duration_node
           (Tensor [1%N; 2%N; 44100%N] 4%N) (PInt 22050) (inject_Z 22050));
    [reflexivity | reflexivity | discriminate | discriminate].
Defined.

(** X23.  The metadata node does not check the sign of the sample rate:
    for a buffer of rank 1 with samples and a negative rate it reports
    the negative quotient, where the duration node reports zero. *)
Theorem metadata_duration_negative_rate (t : tensor) (sample_rate : pyval)
    (R : Q) (n : N) :
  as_number sample_rate = Some R -> (R < 0)%Q ->
  shape t = [n] -> (0 < n)%N ->
  _get_duration_from_tensor (PTensor t) sample_rate
  = (inject_Z (Z.of_N n) / R)%Q
  /\ (_get_duration_from_tensor (PTensor t) sample_rate < 0)%Q
  /\ _calculate_duration_from_tensor (PTensor t) sample_rate = Return 0%Q.
Proof.
  intros Hv HR Hs Hn.
  assert (Hnz : Qeq_bool R 0 = false).
  { destruct (Qeq_bool R 0) eqn:Hz; [|reflexivity].
    apply Qeq_bool_iff in Hz. rewrite Hz in HR.
    exfalso. exact (Qlt_irrefl _ HR). }
  assert (Hmeta : _get_duration_from_tensor (PTensor t) sample_rate
                  = (inject_Z (Z.of_N n) / R)%Q).
  { rewrite (get_duration_from_tensor_dimension t sample_rate n);
      [| rewrite Hs; discriminate | rewrite Hs; reflexivity].
    unfold py_truediv. rewrite Hv, Hnz. reflexivity. }
  split; [exact Hmeta|]. split.
  - rewrite Hmeta. unfold Qdiv.
    assert (Hpos : (0 < inject_Z (Z.of_N n))%Q).
    { change 0%Q with (inject_Z 0). rewrite <- Zlt_Qlt. lia. }
    assert (Hinv : (/ R < 0)%Q).
    { destruct R as [[|p|p] den]; try discriminate HR. reflexivity. }
    setoid_replace 0%Q with (inject_Z (Z.of_N n) * 0)%Q by ring.
    rewrite (Qmult_comm _ (/ R)), (Qmult_comm _ 0).
    now apply Qmult_lt_compat_r.
  - apply duration_from_shape_returns.
    rewrite (duration_from_shape_dimension t sample_rate n)
      by (rewrite Hs; reflexivity).
    unfold duration_tail, py_positive. rewrite Hv.
    replace (Qltb 0 R) with false.
    + destruct (0 <? Z.of_N n); reflexivity.
    + symmetry. unfold Qltb. apply negb_false_iff. apply Qle_bool_iff.
      now apply Qlt_le_weak.
Qed.

Lemma metadata_duration_negative_rate_witness :
  _get_duration_from_tensor (PTensor (Tensor [48000%N] 4%N)) (PInt (-24000))
  = (inject_Z (Z.of_N 48000) / inject_Z (-24000))%Q
  /\ (_get_duration_from_tensor (PTensor (Tensor [48000%N] 4%N))
        (PInt (-24000)) < 0)%Q
  /\ _calculate_duration_from_tensor (PTensor (Tensor [48000%N] 4%N))
       (PInt (-24000)) = Return 0%Q.
Proof.
  apply (metadata_duration_negative_rate (Tensor [48000%N] 4%N)
           (PInt (-24000)) (inject_Z (-24000)) 48000%N);
    [reflexivity | reflexivity | reflexivity | reflexivity].
Defined.

(* ================================================================== *)
(** ** Further properties of batch processing                         *)
(* ================================================================== *)

(** X24.  Without a directory there is no scan: an empty directory path
    and a path that is no directory are answered with [("{}", "Error:
    Directory not found", "[]")]; a directory in which nothing matches
    is answered with [("{}", "No audio files found", "[]")]. *)
Theorem batch_without_files (E : env) (directory pattern operation : string)
    (recursive : bool) :
  (directory = "" \/ path_isdir E directory = false ->
   process_audio_batch E directory pattern operation recursive
   = (empty_json, "Error: Directory not found", empty_json_list))
  /\ (directory <> "" -> path_isdir E directory = true ->
      matching_files E directory pattern recursive = [] ->
      process_audio_batch E directory pattern operation recursive
      = (empty_json, "No audio files found", empty_json_list)).
Proof.
  unfold process_audio_batch, process_audio_batch_try. split.
  - intros [-> | ->]; [reflexivity|]. rewrite orb_true_r. reflexivity.
  - intros Hne Hdir Hnone. apply String.eqb_neq in Hne.
    rewrite Hne, Hdir. simpl. unfold _find_audio_files. rewrite Hnone.
    reflexivity.
Qed.

Lemma batch_without_files_witness :
  process_audio_batch demo_env "/music/a.mp3" "*.mp3" "both" true
  = (empty_json, "Error: Directory not found", empty_json_list)
  /\ process_audio_batch demo_env "/music" "*.ogg" "both" true
     = (empty_json, "No audio files found", empty_json_list).
Proof.
  split.
  - apply (proj1 (batch_without_files demo_env "/music/a.mp3" "*.mp3" "both"
                    true)). right. reflexivity.
  - apply (proj2 (batch_without_files demo_env "/music" "*.ogg" "both" true));
      [discriminate | reflexivity | reflexivity].
Defined.

(** X25.  Whenever files are found, the batch returns one record for
    each file of the list it returns, in the order of that list, which
    holds every match once and in sorted order; the summary starts with
    [Processed X/N files], [N] being the number of files and [X], at
    most [N], the number of records with the status ["success"]. *)
Theorem batch_records_follow_the_file_list (E : env)
    (directory pattern operation : string) (recursive : bool) :
  directory <> "" -> path_isdir E directory = true ->
  matching_files E directory pattern recursive <> [] ->
  exists results rest,
    process_audio_batch E directory pattern operation recursive
    = (JsonOf (PList (map PDict results)),
       "Processed " ++ str_int (Z.of_nat (successful results)) ++ "/"
         ++ str_int (Z.of_nat (length results)) ++ " files" ++ rest,
       JsonOf (PList (map PStr
         (_find_audio_files E directory pattern recursive))))
    /\ map (dict_get "file") results
       = map (fun f => Some (PStr f))
             (_find_audio_files E directory pattern recursive)
    /\ NoDup (_find_audio_files E directory pattern recursive)
    /\ Sorted (fun a b => String.leb a b = true)
              (_find_audio_files E directory pattern recursive)
    /\ (forall f, In f (_find_audio_files E directory pattern recursive)
                  <-> In f (matching_files E directory pattern recursive))
    /\ (successful results <= length results)%nat.
Proof.
  intros Hne Hdir Hsome.
  destruct (sorted_set_facts (matching_files E directory pattern recursive))
    as [Hlen [Hnodup [Hsorted Hin]]].
  fold (_find_audio_files E directory pattern recursive) in Hlen, Hnodup,
    Hsorted, Hin.
  destruct (process_audio_batch_found E directory pattern operation recursive
              Hne Hdir) as [rest Hbatch].
  { intros Hnil.
    destruct (matching_files E directory pattern recursive) as [|f fs] eqn:Hm;
      [congruence|].
    assert (Hf : In f (_find_audio_files E directory pattern recursive))
      by (apply Hin; now left).
    rewrite Hnil in Hf. exact Hf. }
  exists (process_files E (_find_audio_files E directory pattern recursive)
            operation), rest.
  split.
  - rewrite Hbatch, process_files_length. unfold processed.
    rewrite !append_assoc. reflexivity.
  - split; [apply process_files_file|].
    repeat (split; [assumption|]). apply successful_le_length.
Qed.

Lemma batch_records_follow_the_file_list_witness :
  exists results rest,
    process_audio_batch demo_env "/music" "*.mp3,*.mp3" "duration" false
    = (JsonOf (PList (map PDict results)),
       "Processed " ++ str_int (Z.of_nat (successful results)) ++ "/"
         ++ str_int (Z.of_nat (length results)) ++ " files" ++ rest,
       JsonOf (PList (map PStr
         (_find_audio_files demo_env "/music" "*.mp3,*.mp3" false))))
    /\ map (dict_get "file") results
       = map (fun f => Some (PStr f))
             (_find_audio_files demo_env "/music" "*.mp3,*.mp3" false)
    /\ NoDup (_find_audio_files demo_env "/music" "*.mp3,*.mp3" false)
    /\ Sorted (fun a b => String.leb a b = true)
              (_find_audio_files demo_env "/music" "*.mp3,*.mp3" false)
    /\ (forall f,
          In f (_find_audio_files demo_env "/music" "*.mp3,*.mp3" false)
          <-> In f (matching_files demo_env "/music" "*.mp3,*.mp3" false))
    /\ (successful results <= length results)%nat.
Proof.
  apply (batch_records_follow_the_file_list demo_env "/music" "*.mp3,*.mp3"
           "duration" false); [discriminate | reflexivity | discriminate].
Defined.

(** X26.  The operation selects the fields of a record: the duration and
    its formatted form are there exactly for ["duration"] and ["both"],
    the metadata exactly for ["metadata"] and ["both"]; the name of the
    file is the last component of its path; and since the nodes do not
    raise, no record ever has a [duration_error] or a
    [metadata_error]. *)
Theorem record_fields_follow_the_operation (E : env)
    (audio_file operation : string) (r : list (string * pyval)) :
  _process_single_file E audio_file operation = Return r ->
  dict_has "duration_seconds" r = wants_duration operation
  /\ dict_has "duration_formatted" r = wants_duration operation
  /\ dict_has "metadata" r = wants_metadata operation
  /\ dict_get "filename" r = Some (PStr (basename audio_file))
  /\ dict_has "duration_error" r = false
  /\ dict_has "metadata_error" r = false.
Proof.
  unfold _process_single_file. intros H. bind_inv H.
  destruct (wants_duration operation), (wants_metadata operation);
    injection H as <-; repeat split.
Qed.

Lemma record_fields_follow_the_operation_witness :
  exists r,
    _process_single_file demo_env "/music/b.wav" "metadata" = Return r
    /\ dict_has "duration_seconds" r = wants_duration "metadata"
    /\ dict_has "duration_formatted" r = wants_duration "metadata"
    /\ dict_has "metadata" r = wants_metadata "metadata"
    /\ dict_get "filename" r = Some (PStr (basename "/music/b.wav"))
    /\ dict_has "duration_error" r = false
    /\ dict_has "metadata_error" r = false.
Proof.
  eexists. split; [reflexivity|].
  apply (record_fields_follow_the_operation demo_env "/music/b.wav" "metadata").
  reflexivity.
Defined.

(* ================================================================== *)
(** ** The loader node and the package                                *)
(* ================================================================== *)

Import DVA_Load_Audio_File.

(** X27.  What the loader returns as [audio] is answered by the duration
    node exactly like the path it returns beside it, also when the file
    was not found and both are empty. *)
Theorem loaded_audio_is_its_path (E : env) (audio_file mode : string)
    (prec : Z) (inc : bool) (thr : Q) :
  calculate_audio_duration E (fst (load_audio E audio_file)) mode prec inc thr
  = calculate_audio_duration E (PStr (snd (load_audio E audio_file))) mode
      prec inc thr.
Proof.
  unfold load_audio.
  destruct (negb (path_exists E (path_join (input_directory E) audio_file)));
    reflexivity.
Qed.

(** X28.  A file that is not in the input directory is loaded as the
    record with an empty path; the duration node answers it with the
    error that no path was given, the metadata node with "not found". *)
Theorem missing_file_loads_empty_record (E : env) (audio_file mode : string)
    (prec : Z) (inc : bool) (thr : Q) (f t g : bool) :
  path_exists E (path_join (input_directory E) audio_file) = false ->
  load_audio E audio_file
  = (PDict [("file_path", PStr ""); ("filename", PStr "")], "")
  /\ calculate_audio_duration E (fst (load_audio E audio_file)) mode prec inc
       thr
     = (0%Q, "00:00:00.000", "error: Путь к аудио файлу не получен",
        empty_json)
  /\ extract_audio_metadata E (fst (load_audio E audio_file)) f t g
     = (empty_json, "Error: Audio file not found", PStr "unknown", 0%Q).
Proof.
  intros Hmiss. unfold load_audio. rewrite Hmiss. repeat split.
Qed.

Lemma missing_file_loads_empty_record_witness :
  load_audio demo_env "song.mp3"
  = (PDict [("file_path", PStr ""); ("filename", PStr "")], "")
  /\ calculate_audio_duration demo_env (fst (load_audio demo_env "song.mp3"))
       "auto" 3 true (-60)%Q
     = (0%Q, "00:00:00.000", "error: Путь к аудио файлу не получен",
        empty_json)
  /\ extract_audio_metadata demo_env (fst (load_audio demo_env "song.mp3"))
       true true false
     = (empty_json, "Error: Audio file not found", PStr "unknown", 0%Q).
Proof.
  apply (missing_file_loads_empty_record demo_env "song.mp3" "auto" 3 true
           (-60)%Q true true false).
  reflexivity.
Defined.

Import Package.

Lemma underscores_to_spaces_clean (s : string) :
  contains_char "_" (underscores_to_spaces s) = false.
Proof.
  induction s as [|c s IH]; simpl; [reflexivity|]. rewrite IH.
  destruct (Ascii.eqb_spec c "_") as [->|Hne]; [reflexivity|].
  apply Ascii.eqb_neq in Hne. now rewrite Hne.
Qed.

Lemma underscores_to_spaces_length (s : string) :
  String.length (underscores_to_spaces s) = String.length s.
Proof. induction s as [|c s IH]; simpl; [reflexivity | now rewrite IH]. Qed.

(** X29.  The display name made up for a class holds no underscore, is
    no longer than the name of the class, and for a class named
    [DVA_...] it is the rest of the name with spaces for the
    underscores. *)
Theorem default_display_name_is_clean (class_name : string) :
  contains_char "_" (default_display_name class_name) = false
  /\ (String.length (default_display_name class_name)
      <= String.length class_name)%nat
  /\ (forall rest, class_name = "DVA_" ++ rest ->
        default_display_name class_name = underscores_to_spaces rest).
Proof.
  unfold default_display_name. refine (conj _ (conj _ _)).
  - apply underscores_to_spaces_clean.
  - rewrite underscores_to_spaces_length.
    destruct (String.prefix "DVA_" class_name); [|lia].
    destruct class_name as [|a [|b [|c [|d r]]]]; simpl; lia.
  - intros rest ->. simpl. destruct rest; reflexivity.
Qed.

Lemma default_display_name_is_clean_witness :
  default_display_name "DVA_Audio_Batch_Processor"
  = underscores_to_spaces "Audio_Batch_Processor".
Proof.
  apply (proj2 (proj2 (default_display_name_is_clean
                         "DVA_Audio_Batch_Processor"))).
  reflexivity.
Defined.
